(** * Poll actions: validation, sanitisation and voting integrity

    A shallow embedding of [app/lib/actions/poll-actions.ts].  JavaScript
    strings are sequences of UTF-16 code units; the handlers are
    computations over a world made of the two tables, the session and the
    replies of the backend client. *)

From Stdlib Require Import List Bool Arith NArith ZArith QArith Lia.
From Stdlib Require Import Ascii String.
From Stdlib Require Import Sorted Permutation.
Import ListNotations.
Close Scope Q_scope.
Open Scope string_scope.
Open Scope list_scope.
Open Scope nat_scope.

Set Implicit Arguments.

(** ** JavaScript strings *)

Module JsString.

Definition code_unit := N.
Definition jsstring := list code_unit.

(** A literal of the source, one code unit per character. *)
Definition str (s : string) : jsstring :=
  map N_of_ascii (list_ascii_of_string s).

Definition code_unit_eqb : code_unit -> code_unit -> bool := N.eqb.

Fixpoint eqb (a b : jsstring) : bool :=
  match a, b with
  | [], [] => true
  | x :: a', y :: b' => code_unit_eqb x y && eqb a' b'
  | _, _ => false
  end.

(** [Boolean(s)]: a string is truthy unless it is empty. *)
Definition truthy (s : jsstring) : bool :=
  match s with
  | [] => false
  | _ :: _ => true
  end.

(** WhiteSpace and LineTerminator of ECMAScript, the code points that
    [String.prototype.trim] strips. *)
Definition isWhiteSpace (c : code_unit) : bool :=
  ((c =? 9) || (c =? 10) || (c =? 11) || (c =? 12) || (c =? 13)
   || (c =? 32) || (c =? 160) || (c =? 5760)
   || ((8192 <=? c) && (c <=? 8202))
   || (c =? 8232) || (c =? 8233) || (c =? 8239) || (c =? 8287)
   || (c =? 12288) || (c =? 65279))%N.

Fixpoint trimStart (s : jsstring) : jsstring :=
  match s with
  | [] => []
  | c :: r => if isWhiteSpace c then trimStart r else s
  end.

Definition trimEnd (s : jsstring) : jsstring :=
  rev (trimStart (rev s)).

Definition trim (s : jsstring) : jsstring :=
  trimEnd (trimStart s).

(** [s.replace(/[...]/g, '')] for a character class [cls]. *)
Definition removeAll (cls : code_unit -> bool) (s : jsstring) : jsstring :=
  filter (fun c => negb (cls c)) s.

End JsString.
Import JsString.

(** ** Sanitiser and validator *)

(** The character class of the sanitiser's regular expression: less-than
    (60), greater-than (62), double quote (34), apostrophe (39) and
    ampersand (38). *)
Definition dangerous (c : code_unit) : bool :=
  ((c =? 60) || (c =? 62) || (c =? 34) || (c =? 39) || (c =? 38))%N.

Definition sanitizeInput (input : jsstring) : jsstring :=
  removeAll dangerous (trim input).

Definition msg_question_short : string :=
  "Question must be at least 3 characters long.".
Definition msg_few_options : string :=
  "Please provide at least two options.".
Definition msg_empty_option : string :=
  "All options must contain valid text.".
Definition msg_question_long : string :=
  "Question is too long (max 500 characters).".
Definition msg_option_long : string :=
  "Options are too long (max 200 characters each).".

Definition validatePollInput (question : jsstring) (options : list jsstring)
  : option string :=
  if negb (truthy question) || (List.length (trim question) <? 3) then
    Some msg_question_short
  else if List.length options <? 2 then
    Some msg_few_options
  else if existsb (fun opt => negb (truthy opt) || (List.length (trim opt) =? 0))
                  options then
    Some msg_empty_option
  else if 500 <? List.length question then
    Some msg_question_long
  else if existsb (fun opt => 200 <? List.length opt) options then
    Some msg_option_long
  else
    None.

(** ** Regular expressions of the identifier check *)

Module RegExp.

(** Canonicalisation under the [i] flag.  Only ASCII letters are mapped:
    a code unit outside ASCII never canonicalises into ASCII, so against
    a class of ASCII characters it can stay as it is. *)
Definition canonicalize (c : code_unit) : code_unit :=
  if ((97 <=? c) && (c <=? 122))%N then (c - 32)%N else c.

(** A character class given by its members, matched case-insensitively. *)
Definition classMatchesI (members : list code_unit) (c : code_unit) : bool :=
  existsb (fun m => (canonicalize m =? canonicalize c)%N) members.

(** One term of a pattern: a class repeated a fixed number of times. *)
Record term := { members : list code_unit; count : nat }.

Fixpoint matchCount (cls : list code_unit) (n : nat) (s : jsstring)
  : option jsstring :=
  match n with
  | O => Some s
  | S n' =>
      match s with
      | [] => None
      | c :: r => if classMatchesI cls c then matchCount cls n' r else None
      end
  end.

Fixpoint matchTerms (p : list term) (s : jsstring) : option jsstring :=
  match p with
  | [] => Some s
  | t :: p' =>
      match matchCount (members t) (count t) s with
      | Some r => matchTerms p' r
      | None => None
      end
  end.

(** [/^p$/i.test(s)]: the whole input is consumed. *)
Definition test (p : list term) (s : jsstring) : bool :=
  match matchTerms p s with
  | Some [] => true
  | _ => false
  end.

End RegExp.

Definition hexClass : list code_unit := str "0123456789abcdef".
Definition dashClass : list code_unit := str "-".

(** [/^[0-9a-f]{8}-[0-9a-f]{4}-[0-9a-f]{4}-[0-9a-f]{4}-[0-9a-f]{12}$/i] *)
Definition uuidPattern : list RegExp.term :=
  let hex n := {| RegExp.members := hexClass; RegExp.count := n |} in
  let dash := {| RegExp.members := dashClass; RegExp.count := 1 |} in
  [hex 8; dash; hex 4; dash; hex 4; dash; hex 4; dash; hex 12].

Definition isUuid (id : jsstring) : bool := RegExp.test uuidPattern id.

(** ** JavaScript numbers *)

Module JsNumber.

(** Every finite double is a rational; the three other values are kept
    apart. *)
Inductive number :=
| Finite (q : Q)
| NaN
| PosInfinity
| NegInfinity.

Definition ofNat (n : nat) : number := Finite (inject_Z (Z.of_nat n)).

(** [Number.isInteger] *)
Definition isInteger (x : number) : bool :=
  match x with
  | Finite q => (Qnum q mod Zpos (Qden q) =? 0)%Z
  | _ => false
  end.

(** [x < y] *)
Definition ltb (x y : number) : bool :=
  match x, y with
  | NaN, _ | _, NaN => false
  | Finite a, Finite b => negb (Qle_bool b a)
  | NegInfinity, NegInfinity => false
  | NegInfinity, _ => true
  | Finite _, PosInfinity => true
  | _, _ => false
  end.

(** [x >= y] *)
Definition geb (x y : number) : bool :=
  match x, y with
  | NaN, _ | _, NaN => false
  | Finite a, Finite b => Qle_bool b a
  | PosInfinity, _ => true
  | _, NegInfinity => true
  | _, _ => false
  end.

End JsNumber.
Import JsNumber.

(** ** Form data *)

Inductive FormDataEntryValue :=
| EntryString (s : jsstring)
| EntryFile (name : jsstring).

Definition FormData := list (jsstring * FormDataEntryValue).

(** [formData.get(name)]: the first entry of that name, or null. *)
Fixpoint get (formData : FormData) (name : jsstring)
  : option FormDataEntryValue :=
  match formData with
  | [] => None
  | (k, v) :: rest => if JsString.eqb k name then Some v else get rest name
  end.

(** [formData.getAll(name)] *)
Definition getAll (formData : FormData) (name : jsstring)
  : list FormDataEntryValue :=
  map snd (filter (fun kv => JsString.eqb (fst kv) name) formData).

(** [Boolean(v)] on an entry: an object is truthy, a string unless empty. *)
Definition Boolean (v : FormDataEntryValue) : bool :=
  match v with
  | EntryString s => truthy s
  | EntryFile _ => true
  end.

(** ** Rows, replies and the world *)

Module User.
Record t := { id : jsstring }.
End User.

Module Poll.
Record t := {
  id : jsstring;
  user_id : jsstring;
  question : jsstring;
  options : list jsstring;
  created_at : nat
}.
End Poll.

(** The identifier and the timestamp of a vote are assigned by the database
    and never read back by the handlers; the row keeps the three columns the
    handlers write. *)
Module Vote.
Record t := {
  poll_id : jsstring;
  user_id : option jsstring;
  option_index : number
}.
End Vote.

Inductive AuthError := AuthFailure.

Module AuthReply.
Record t := { user : option User.t; userError : option AuthError }.
End AuthReply.

Inductive BackendError :=
| RequestFailed
| NotSingleRow.

Module Response.
Record t (A : Type) := { data : option A; error : option BackendError }.
Arguments data {A} _.
Arguments error {A} _.
End Response.

(** The requests a handler sends to the backend client. *)
Inductive Call :=
| AuthGetUser
| PollsInsert (user_id question : jsstring) (options : list jsstring)
| PollsSelectByUser (user_id : jsstring)
| PollsSelectById (id : jsstring)
| PollsSelectOptionsById (id : jsstring)
| VotesSelect (poll_id user_id : jsstring)
| VotesInsert (poll_id : jsstring) (user_id : option jsstring)
              (option_index : number)
| PollsDelete (id user_id : jsstring)
| PollsUpdate (id user_id question : jsstring) (options : list jsstring).

Record World := {
  polls : list Poll.t;
  votes : list Vote.t;
  (** what [auth.getUser()] answers for the caller of the request *)
  session : AuthReply.t;
  (** outcome of the coming table requests, in order: [true] is a request
      the backend fails; past the end every request is served *)
  faults : list bool;
  (** requests sent so far, oldest first *)
  trace : list Call;
  (** primary keys the database assigns to new polls, and how many it has
      handed out *)
  gen_random_uuid : nat -> jsstring;
  serial : nat;
  clock : nat;
  (** paths passed to [revalidatePath] *)
  revalidated : list string
}.

Definition with_polls (ps : list Poll.t) (w : World) : World :=
  {| polls := ps; votes := votes w; session := session w; faults := faults w;
     trace := trace w; gen_random_uuid := gen_random_uuid w;
     serial := serial w; clock := clock w; revalidated := revalidated w |}.

Definition with_votes (vs : list Vote.t) (w : World) : World :=
  {| polls := polls w; votes := vs; session := session w; faults := faults w;
     trace := trace w; gen_random_uuid := gen_random_uuid w;
     serial := serial w; clock := clock w; revalidated := revalidated w |}.

Definition with_session (s : AuthReply.t) (w : World) : World :=
  {| polls := polls w; votes := votes w; session := s; faults := faults w;
     trace := trace w; gen_random_uuid := gen_random_uuid w;
     serial := serial w; clock := clock w; revalidated := revalidated w |}.

Definition with_faults (fs : list bool) (w : World) : World :=
  {| polls := polls w; votes := votes w; session := session w; faults := fs;
     trace := trace w; gen_random_uuid := gen_random_uuid w;
     serial := serial w; clock := clock w; revalidated := revalidated w |}.

Definition with_trace (t : list Call) (w : World) : World :=
  {| polls := polls w; votes := votes w; session := session w;
     faults := faults w; trace := t; gen_random_uuid := gen_random_uuid w;
     serial := serial w; clock := clock w; revalidated := revalidated w |}.

Definition with_revalidated (r : list string) (w : World) : World :=
  {| polls := polls w; votes := votes w; session := session w;
     faults := faults w; trace := trace w;
     gen_random_uuid := gen_random_uuid w; serial := serial w;
     clock := clock w; revalidated := r |}.

Definition tick (w : World) : World :=
  {| polls := polls w; votes := votes w; session := session w;
     faults := faults w; trace := trace w;
     gen_random_uuid := gen_random_uuid w; serial := S (serial w);
     clock := S (clock w); revalidated := revalidated w |}.

(** ** Computations: state and exceptions *)

Inductive Exn := TypeError.

Inductive Completion (A : Type) :=
| Normal (a : A)
| Throw (e : Exn).
Arguments Normal {A} a.
Arguments Throw {A} e.

Definition M (A : Type) : Type := World -> Completion A * World.

Definition ret {A} (a : A) : M A := fun w => (Normal a, w).

Definition throw {A} (e : Exn) : M A := fun w => (Throw e, w).

Definition bind {A B} (m : M A) (k : A -> M B) : M B :=
  fun w =>
    match m w with
    | (Normal a, w') => k a w'
    | (Throw e, w') => (Throw e, w')
    end.

Notation "x <- m ;; k" := (bind m (fun x => k))
  (at level 61, m at next level, right associativity).
Notation "m ;;; k" := (bind m (fun _ => k))
  (at level 61, right associativity).

Fixpoint mapM {A B} (f : A -> M B) (l : list A) : M (list B) :=
  match l with
  | [] => ret []
  | x :: r => y <- f x ;; ys <- mapM f r ;; ret (y :: ys)
  end.

(** ** The backend client *)

(** The client is a collaborator of the handlers, not part of them.  The
    module fixes what its calls do, as far as the handlers depend on it: a
    table request is recorded in the trace and then either failed, leaving
    the tables alone, or served on the two tables; filters compare for
    equality; [single] wants exactly one row; a delete or update that
    matches no row is served without error; deleting a poll deletes the
    votes that reference it.  A call always resolves to a reply. *)
Module Supabase.

Definition ok {A} (d : option A) : Response.t A :=
  {| Response.data := d; Response.error := None |}.

Definition failed {A} (e : BackendError) : Response.t A :=
  {| Response.data := None; Response.error := Some e |}.

(** [.single()]: exactly one row, or an error. *)
Definition single {A} (rows : list A) : Response.t A :=
  match rows with
  | [r] => ok (Some r)
  | _ => failed NotSingleRow
  end.

Definition log (c : Call) (w : World) : World :=
  with_trace (trace w ++ [c]) w.

(** [auth.getUser()] *)
Definition auth_getUser : M AuthReply.t :=
  fun w => (Normal (session w), log AuthGetUser w).

(** A request on a table: recorded, then failed or served as the fault
    schedule says. *)
Definition tableRequest {A} (c : Call)
           (serve : World -> Response.t A * World) : M (Response.t A) :=
  fun w =>
    let w1 := with_faults (tl (faults w)) (log c w) in
    if hd false (faults w) then (Normal (failed RequestFailed), w1)
    else let (r, w2) := serve w1 in (Normal r, w2).

(** [from("polls").insert([{user_id, question, options}])] *)
Definition polls_insert (user_id question : jsstring)
           (options : list jsstring) : M (Response.t unit) :=
  tableRequest (PollsInsert user_id question options)
    (fun w =>
       let row := {| Poll.id := gen_random_uuid w (serial w);
                     Poll.user_id := user_id;
                     Poll.question := question;
                     Poll.options := options;
                     Poll.created_at := clock w |} in
       (ok None, tick (with_polls (polls w ++ [row]) w))).

Fixpoint insertDesc (p : Poll.t) (l : list Poll.t) : list Poll.t :=
  match l with
  | [] => [p]
  | x :: r =>
      if Poll.created_at x <? Poll.created_at p then p :: l
      else x :: insertDesc p r
  end.

(** [.order("created_at", { ascending: false })] *)
Definition orderByCreatedAtDesc (l : list Poll.t) : list Poll.t :=
  fold_right insertDesc [] l.

(** [from("polls").select("*").eq("user_id", uid).order(...)] *)
Definition polls_select_by_user (uid : jsstring)
  : M (Response.t (list Poll.t)) :=
  tableRequest (PollsSelectByUser uid)
    (fun w =>
       (ok (Some (orderByCreatedAtDesc
                    (filter (fun p => JsString.eqb (Poll.user_id p) uid)
                            (polls w)))), w)).

Definition pollsById (id : jsstring) (w : World) : list Poll.t :=
  filter (fun p => JsString.eqb (Poll.id p) id) (polls w).

(** [from("polls").select("*").eq("id", id).single()] *)
Definition polls_select_by_id (id : jsstring) : M (Response.t Poll.t) :=
  tableRequest (PollsSelectById id)
    (fun w => (single (pollsById id w), w)).

(** [from("polls").select("options").eq("id", id).single()] *)
Definition polls_select_options (id : jsstring)
  : M (Response.t (list jsstring)) :=
  tableRequest (PollsSelectOptionsById id)
    (fun w => (single (map Poll.options (pollsById id w)), w)).

Definition voteOf (poll_id user_id : jsstring) (v : Vote.t) : bool :=
  JsString.eqb (Vote.poll_id v) poll_id
  && match Vote.user_id v with
     | Some u => JsString.eqb u user_id
     | None => false
     end.

(** [from("votes").select("*").eq("poll_id", p).eq("user_id", u).single()] *)
Definition votes_select (poll_id user_id : jsstring)
  : M (Response.t Vote.t) :=
  tableRequest (VotesSelect poll_id user_id)
    (fun w => (single (filter (voteOf poll_id user_id) (votes w)), w)).

(** [from("votes").insert([{poll_id, user_id, option_index}])] *)
Definition votes_insert (poll_id : jsstring) (user_id : option jsstring)
           (option_index : number) : M (Response.t unit) :=
  tableRequest (VotesInsert poll_id user_id option_index)
    (fun w =>
       let row := {| Vote.poll_id := poll_id; Vote.user_id := user_id;
                     Vote.option_index := option_index |} in
       (ok None, with_votes (votes w ++ [row]) w)).

Definition ownedPoll (id user_id : jsstring) (p : Poll.t) : bool :=
  JsString.eqb (Poll.id p) id && JsString.eqb (Poll.user_id p) user_id.

(** [from("polls").delete().eq("id", id).eq("user_id", uid)].  Rows that
    match are removed, and with them the votes that reference them (the
    cascade of the foreign key); matching no row is not an error. *)
Definition polls_delete (id user_id : jsstring) : M (Response.t unit) :=
  tableRequest (PollsDelete id user_id)
    (fun w =>
       let gone := map Poll.id (filter (ownedPoll id user_id) (polls w)) in
       let kept_polls :=
         filter (fun p => negb (ownedPoll id user_id p)) (polls w) in
       let kept_votes :=
         filter (fun v => negb (existsb (JsString.eqb (Vote.poll_id v)) gone))
                (votes w) in
       (ok None, with_votes kept_votes (with_polls kept_polls w))).

(** [from("polls").update({question, options}).eq("id", id)
      .eq("user_id", uid)] *)
Definition polls_update (id user_id question : jsstring)
           (options : list jsstring) : M (Response.t unit) :=
  tableRequest (PollsUpdate id user_id question options)
    (fun w =>
       let upd p :=
         if ownedPoll id user_id p then
           {| Poll.id := Poll.id p; Poll.user_id := Poll.user_id p;
              Poll.question := question; Poll.options := options;
              Poll.created_at := Poll.created_at p |}
         else p in
       (ok None, with_polls (map upd (polls w)) w)).

End Supabase.

(** [revalidatePath(path)] *)
Definition revalidatePath (path : string) : M unit :=
  fun w => (Normal tt, with_revalidated (revalidated w ++ [path]) w).

(** ** The handlers *)

(** What a handler returns: [{error}], [{poll, error}] or [{polls, error}];
    the payload is [tt] where the object has the [error] field alone. *)
Module Result.
Record t (A : Type) := { payload : A; error : option string }.
Arguments payload {A} _.
Arguments error {A} _.
End Result.

Definition failure (msg : string) : Result.t unit :=
  {| Result.payload := tt; Result.error := Some msg |}.

Definition success : Result.t unit :=
  {| Result.payload := tt; Result.error := None |}.

(** The call [sanitizeInput(v as string)] on a value taken from the form.
    The cast leaves no check behind: [input.trim()] raises a TypeError
    when the value is null or a file. *)
Definition sanitizeInputCall (v : option FormDataEntryValue) : M jsstring :=
  match v with
  | Some (EntryString s) => ret (sanitizeInput s)
  | Some (EntryFile _) => throw TypeError
  | None => throw TypeError
  end.

(** [(formData.getAll("options") as string[]).filter(Boolean)
       .map(opt => sanitizeInput(opt))] *)
Definition readOptions (formData : FormData) : M (list jsstring) :=
  mapM (fun opt => sanitizeInputCall (Some opt))
       (filter Boolean (getAll formData (str "options"))).

Definition createPoll (formData : FormData) : M (Result.t unit) :=
  question <- sanitizeInputCall (get formData (str "question")) ;;
  options <- readOptions formData ;;
  match validatePollInput question options with
  | Some validationError => ret (failure validationError)
  | None =>
      reply <- Supabase.auth_getUser ;;
      match AuthReply.userError reply, AuthReply.user reply with
      | Some _, _ => ret (failure "Authentication error. Please try again.")
      | None, None => ret (failure "You must be logged in to create a poll.")
      | None, Some user =>
          r <- Supabase.polls_insert (User.id user) question options ;;
          match Response.error r with
          | Some _ => ret (failure "Failed to create poll. Please try again.")
          | None => revalidatePath "/polls" ;;; ret success
          end
      end
  end.

Definition getUserPolls : M (Result.t (list Poll.t)) :=
  reply <- Supabase.auth_getUser ;;
  match AuthReply.user reply with
  | None =>
      ret {| Result.payload := []; Result.error := Some "Not authenticated" |}
  | Some user =>
      r <- Supabase.polls_select_by_user (User.id user) ;;
      match Response.error r with
      | Some _ =>
          ret {| Result.payload := [];
                 Result.error := Some "Failed to fetch polls." |}
      | None =>
          ret {| Result.payload :=
                   match Response.data r with Some d => d | None => [] end;
                 Result.error := None |}
      end
  end.

Definition getPollById (id : jsstring) : M (Result.t (option Poll.t)) :=
  if negb (isUuid id) then
    ret {| Result.payload := None;
           Result.error := Some "Invalid poll ID format." |}
  else
    r <- Supabase.polls_select_by_id id ;;
    match Response.error r with
    | Some _ =>
        ret {| Result.payload := None; Result.error := Some "Poll not found." |}
    | None =>
        ret {| Result.payload := Response.data r; Result.error := None |}
    end.

Definition submitVote (pollId : jsstring) (optionIndex : number)
  : M (Result.t unit) :=
  if negb (isUuid pollId) then
    ret (failure "Invalid poll ID format.")
  else if negb (isInteger optionIndex) || ltb optionIndex (ofNat 0) then
    ret (failure "Invalid option selection.")
  else
    reply <- Supabase.auth_getUser ;;
    let user := AuthReply.user reply in
    r <- Supabase.polls_select_options pollId ;;
    match Response.error r, Response.data r with
    | Some _, _ | None, None => ret (failure "Poll not found.")
    | None, Some poll_options =>
        if geb optionIndex (ofNat (List.length poll_options)) then
          ret (failure "Invalid option selection.")
        else
          let insertVote :=
            i <- Supabase.votes_insert pollId (option_map User.id user)
                                       optionIndex ;;
            match Response.error i with
            | Some _ => ret (failure "Failed to submit vote. Please try again.")
            | None => ret success
            end in
          match user with
          | Some u =>
              e <- Supabase.votes_select pollId (User.id u) ;;
              match Response.data e with
              | Some existingVote =>
                  ret (failure "You have already voted on this poll.")
              | None => insertVote
              end
          | None => insertVote
          end
    end.

Definition deletePoll (id : jsstring) : M (Result.t unit) :=
  if negb (isUuid id) then
    ret (failure "Invalid poll ID format.")
  else
    reply <- Supabase.auth_getUser ;;
    match AuthReply.userError reply, AuthReply.user reply with
    | Some _, _ => ret (failure "Authentication error. Please try again.")
    | None, None => ret (failure "You must be logged in to delete a poll.")
    | None, Some user =>
        r <- Supabase.polls_delete id (User.id user) ;;
        match Response.error r with
        | Some _ => ret (failure "Failed to delete poll or poll not found.")
        | None => revalidatePath "/polls" ;;; ret success
        end
    end.

Definition updatePoll (pollId : jsstring) (formData : FormData)
  : M (Result.t unit) :=
  if negb (isUuid pollId) then
    ret (failure "Invalid poll ID format.")
  else
    question <- sanitizeInputCall (get formData (str "question")) ;;
    options <- readOptions formData ;;
    match validatePollInput question options with
    | Some validationError => ret (failure validationError)
    | None =>
        reply <- Supabase.auth_getUser ;;
        match AuthReply.userError reply, AuthReply.user reply with
        | Some _, _ => ret (failure "Authentication error. Please try again.")
        | None, None => ret (failure "You must be logged in to update a poll.")
        | None, Some user =>
            r <- Supabase.polls_update pollId (User.id user) question options ;;
            match Response.error r with
            | Some _ => ret (failure "Failed to update poll or poll not found.")
            | None => revalidatePath "/polls" ;;; ret success
            end
        end
    end.

(** ** Sequential executions *)

Inductive Request :=
| CreatePoll (formData : FormData)
| GetUserPolls
| GetPollById (id : jsstring)
| SubmitVote (pollId : jsstring) (optionIndex : number)
| DeletePoll (id : jsstring)
| UpdatePoll (pollId : jsstring) (formData : FormData).

(** The world a handler leaves behind, whether it returns or throws. *)
Definition handle (r : Request) (w : World) : World :=
  match r with
  | CreatePoll formData => snd (createPoll formData w)
  | GetUserPolls => snd (getUserPolls w)
  | GetPollById id => snd (getPollById id w)
  | SubmitVote pollId optionIndex => snd (submitVote pollId optionIndex w)
  | DeletePoll id => snd (deletePoll id w)
  | UpdatePoll pollId formData => snd (updatePoll pollId formData w)
  end.

(** A request arrives with the session of its caller. *)
Record Invocation := { caller : AuthReply.t; request : Request }.

Definition step (w : World) (i : Invocation) : World :=
  handle (request i) (with_session (caller i) w).

Definition execute (l : list Invocation) (w : World) : World :=
  fold_left step l w.

Definition signedIn (uid : jsstring) : AuthReply.t :=
  {| AuthReply.user := Some {| User.id := uid |};
     AuthReply.userError := None |}.

Definition anonymous : AuthReply.t :=
  {| AuthReply.user := None; AuthReply.userError := None |}.

(** ** Notions the properties are stated with *)

(** [t] is [s] without its leading and trailing white space. *)
Definition Trimmed (s t : jsstring) : Prop :=
  exists pre post,
    s = pre ++ t ++ post
    /\ Forall (fun c => isWhiteSpace c = true) pre
    /\ Forall (fun c => isWhiteSpace c = true) post
    /\ (forall c r, t = c :: r -> isWhiteSpace c = false)
    /\ (forall r c, t = r ++ [c] -> isWhiteSpace c = false).

(** The five characters the sanitiser removes: < > double quote,
    apostrophe and ampersand. *)
Definition fiveChars : list code_unit := [60; 62; 34; 39; 38]%N.

(** [t] is [s] with every occurrence of the five characters deleted and
    everything else kept in place. *)
Inductive Stripped : jsstring -> jsstring -> Prop :=
| Stripped_nil : Stripped [] []
| Stripped_drop c s t : In c fiveChars -> Stripped s t -> Stripped (c :: s) t
| Stripped_keep c s t :
    ~ In c fiveChars -> Stripped s t -> Stripped (c :: s) (c :: t).

(** A hexadecimal digit in either case. *)
Definition hexDigit (c : code_unit) : Prop :=
  (48 <= c <= 57 \/ 97 <= c <= 102 \/ 65 <= c <= 70)%N.

(** The 8-4-4-4-12 shape: five groups of hexadecimal digits joined by
    dashes. *)
Definition UuidShape (id : jsstring) : Prop :=
  exists g1 g2 g3 g4 g5,
    id = g1 ++ [45%N] ++ g2 ++ [45%N] ++ g3 ++ [45%N] ++ g4 ++ [45%N] ++ g5
    /\ List.length g1 = 8 /\ List.length g2 = 4 /\ List.length g3 = 4
    /\ List.length g4 = 4 /\ List.length g5 = 12
    /\ Forall hexDigit (g1 ++ g2 ++ g3 ++ g4 ++ g5).

(** The number [x] is the integer [k]. *)
Definition isInt (x : number) (k : Z) : Prop :=
  match x with
  | Finite q => Qeq q (inject_Z k)
  | _ => False
  end.

(** At most one vote per signed-in user and poll. *)
Definition oneVotePerUser (vs : list Vote.t) : Prop :=
  forall poll_id user_id,
    List.length (filter (Supabase.voteOf poll_id user_id) vs) <= 1.

(** The primary key of the polls table. *)
Definition uniqueIds (ps : list Poll.t) : Prop :=
  NoDup (map Poll.id ps).

(** ** Sample data *)

Definition alice : jsstring := str "alice".
Definition bob : jsstring := str "bob".

Definition colorPollId : jsstring :=
  str "123e4567-e89b-12d3-a456-426614174000".

Definition missingPollId : jsstring :=
  str "9f8b7c6d-0000-4000-8000-ABCDEF012345".

Definition colorPoll : Poll.t :=
  {| Poll.id := colorPollId; Poll.user_id := alice;
     Poll.question := str "What is your favorite color?";
     Poll.options := [str "Red"; str "Blue"];
     Poll.created_at := 0 |}.

(** Keys handed out by the sample database: a fixed prefix and one digit. *)
Definition sampleUuid (n : nat) : jsstring :=
  str "00000000-0000-4000-8000-00000000000" ++ [N.of_nat (48 + n mod 10)].

(** An empty database nobody is signed in to. *)
Definition emptyWorld : World :=
  {| polls := []; votes := []; session := anonymous; faults := [];
     trace := []; gen_random_uuid := sampleUuid; serial := 0; clock := 1;
     revalidated := [] |}.

(** Alice's poll, no vote yet, the caller anonymous. *)
Definition colorWorld : World := with_polls [colorPoll] emptyWorld.

(** The input of the specification's sanitiser example: an opening script
    tag, a quoted a, an ampersand, a double-quoted b and a closing angle. *)
Definition scriptSample : jsstring :=
  str "<script>'a'&" ++ [34%N] ++ str "b" ++ [34%N] ++ str ">".

(** The row an anonymous vote leaves in the votes table. *)
Definition anonymousVote (pollId : jsstring) (optionIndex : number) : Vote.t :=
  {| Vote.poll_id := pollId; Vote.user_id := None;
     Vote.option_index := optionIndex |}.

(** The world after [n] successive calls of [submitVote]. *)
Definition afterVotes (pollId : jsstring) (optionIndex : number) (n : nat)
           (w : World) : World :=
  Nat.iter n (fun w' => snd (submitVote pollId optionIndex w')) w.

Definition colorForm : FormData :=
  [(str "question", EntryString (str "What is your favorite color?"));
   (str "options", EntryString (str "Red"));
   (str "options", EntryString (str "Blue"))].

(** Alice's poll with Alice signed in, and with Bob signed in. *)
Definition aliceWorld : World := with_session (signedIn alice) colorWorld.
Definition bobWorld : World := with_session (signedIn bob) colorWorld.

(** Bob has voted once on Alice's poll and is signed in. *)
Definition bobVote : Vote.t :=
  {| Vote.poll_id := colorPollId; Vote.user_id := Some bob;
     Vote.option_index := ofNat 0 |}.

Definition votedWorld : World := with_votes [bobVote] bobWorld.

(** ** Frames *)

(** From [w] to [w'] votes were at most removed, and a backend that served
    every request still does. *)
Definition shrinks (w w' : World) : Prop :=
  (exists keep, votes w' = filter keep (votes w))
  /\ (faults w = [] -> faults w' = []).

(** A computation that never adds a vote. *)
Definition quiet {A} (m : M A) : Prop :=
  forall w, shrinks w (snd (m w)).

(** ** Forms *)

Definition isStringEntry (v : FormDataEntryValue) : Prop :=
  exists s, v = EntryString s.

(** A form whose question field is present and whose question and options
    entries are all strings, as the casts of the handlers take them. *)
Definition stringForm (formData : FormData) : Prop :=
  (exists s, get formData (str "question") = Some (EntryString s))
  /\ Forall isStringEntry (getAll formData (str "options")).

(** A form without a question field. *)
Definition optionsOnlyForm : FormData :=
  [(str "options", EntryString (str "Red"));
   (str "options", EntryString (str "Blue"))].

(** ** Forms and their options *)

(** An options entry whose value is the empty string. *)
Definition isEmptyOption (kv : jsstring * FormDataEntryValue) : bool :=
  JsString.eqb (fst kv) (str "options")
  && match snd kv with
     | EntryString [] => true
     | _ => false
     end.

(** The form without its empty options entries. *)
Definition dropEmptyOptions (formData : FormData) : FormData :=
  filter (fun kv => negb (isEmptyOption kv)) formData.

(** The form a page submits: one question and the options in order. *)
Definition pollForm (question : jsstring) (options : list jsstring)
  : FormData :=
  (str "question", EntryString question)
    :: map (fun o => (str "options", EntryString o)) options.

(** The non-empty strings among the options entries, in order. *)
Definition optionStrings (formData : FormData) : list jsstring :=
  flat_map (fun v => match v with
                     | EntryString s => if truthy s then [s] else []
                     | EntryFile _ => []
                     end)
           (getAll formData (str "options")).

(** Bob has voted; the backend serves the fetch of the poll, fails the
    lookup of his vote and serves the insert. *)
Definition flakyWorld : World := with_faults [false; true; false] votedWorld.

(** ** Outcomes of a computation *)

(** [wp m Q w]: run from [w], the computation [m] ends in a completion and
    a world that satisfy [Q]. *)
Definition wp {A} (m : M A) (Q : Completion A -> World -> Prop) (w : World)
  : Prop :=
  Q (fst (m w)) (snd (m w)).

(** The two tables of [w'] are those of [w]. *)
Definition sameTables (w w' : World) : Prop :=
  polls w' = polls w /\ votes w' = votes w.

(** Newest first, as [getUserPolls] orders its answer. *)
Definition newestFirst (l : list Poll.t) : Prop :=
  StronglySorted (fun a b => Poll.created_at b <= Poll.created_at a) l.

(** The polls of a user. *)
Definition pollsOf (uid : jsstring) (ps : list Poll.t) : list Poll.t :=
  filter (fun p => JsString.eqb (Poll.user_id p) uid) ps.


(** The row [createPoll] makes the database insert in world [w]. *)
Definition newPoll (w : World) (u : User.t) (question : jsstring)
           (options : list jsstring) : Poll.t :=
  {| Poll.id := gen_random_uuid w (serial w); Poll.user_id := User.id u;
     Poll.question := question; Poll.options := options;
     Poll.created_at := clock w |}.

(** The row an update leaves in place of [p]. *)
Definition editedPoll (p : Poll.t) (question : jsstring)
           (options : list jsstring) : Poll.t :=
  {| Poll.id := Poll.id p; Poll.user_id := Poll.user_id p;
     Poll.question := question; Poll.options := options;
     Poll.created_at := Poll.created_at p |}.

(** A text the sanitiser has been through. *)
Definition sanitized (s : jsstring) : Prop :=
  exists raw, s = sanitizeInput raw.

(** What the handlers let into the polls table: a question and options
    that come out of the sanitiser and pass the validator. *)
Definition acceptedContent (question : jsstring) (options : list jsstring)
  : Prop :=
  sanitized question /\ Forall sanitized options
  /\ validatePollInput question options = None.

(** What a served update of the polls that [u] owns under [id] leaves of
    the polls table. *)
Definition updatedPolls (id : jsstring) (u : User.t) (question : jsstring)
           (options : list jsstring) (ps : list Poll.t) : list Poll.t :=
  map (fun p => if Supabase.ownedPoll id (User.id u) p
                then editedPoll p question options else p) ps.

(** What a served delete of the polls that [u] owns under [id] leaves of
    the two tables. *)
Definition remainingPolls (id : jsstring) (u : User.t) (ps : list Poll.t)
  : list Poll.t :=
  filter (fun p => negb (Supabase.ownedPoll id (User.id u) p)) ps.

Definition remainingVotes (id : jsstring) (u : User.t) (ps : list Poll.t)
           (vs : list Vote.t) : list Vote.t :=
  filter (fun v =>
            negb (existsb (JsString.eqb (Vote.poll_id v))
                          (map Poll.id
                               (filter (Supabase.ownedPoll id (User.id u))
                                       ps))))
         vs.

(** A text free of the five characters the sanitiser removes. *)
Definition harmless (s : jsstring) : Prop :=
  forall c, In c s -> ~ In c fiveChars.

(** The shape of a stored poll: harmless texts, a question of 3 to 500
    characters (3 counted after trimming), at least two options, each of
    them not blank and of at most 200 characters. *)
Definition wellFormedPoll (p : Poll.t) : Prop :=
  harmless (Poll.question p)
  /\ 3 <= List.length (trim (Poll.question p))
  /\ List.length (Poll.question p) <= 500
  /\ 2 <= List.length (Poll.options p)
  /\ Forall (fun o => harmless o /\ trim o <> [] /\ List.length o <= 200)
            (Poll.options p).

(** A form that passes the validator. *)
Definition teaForm : FormData :=
  pollForm (str "Tea or coffee?") [str "Tea"; str "Coffee"].

(** Alice's poll with one vote of Bob on it, Alice signed in. *)
Definition aliceVotedWorld : World := with_votes [bobVote] aliceWorld.

(** A computation that never calls [revalidatePath]. *)
Definition keepsCache {A} (m : M A) : Prop :=
  forall w, revalidated (snd (m w)) = revalidated w.

(** The vote [submitVote] stores for the caller of world [w]. *)
Definition castVote (w : World) (pollId : jsstring) (optionIndex : number)
  : Vote.t :=
  {| Vote.poll_id := pollId;
     Vote.user_id := option_map User.id (AuthReply.user (session w));
     Vote.option_index := optionIndex |}.

(** A computation that leaves the component [f] of the world as it is. *)
Definition keeps {A B} (f : World -> B) (m : M A) : Prop :=
  forall w, f (snd (m w)) = f w.

(** Every vote is on a poll of the store. *)
Definition votesReferPolls (w : World) : Prop :=
  forall v, In v (votes w) -> In (Vote.poll_id v) (map Poll.id (polls w)).

(** ** The current user *)

(** [getCurrentUser] of auth-actions.ts: the user of the session lookup,
    or null. *)
Definition getCurrentUser : M (option User.t) :=
  reply <- Supabase.auth_getUser ;;
  ret (AuthReply.user reply).

(** * Properties *)

(** ** Strings *)

Lemma jsstring_eqb_eq (a b : jsstring) : JsString.eqb a b = true <-> a = b.
Proof.
  revert b; induction a as [|x a IH]; intros [|y b]; simpl;
    try (split; [discriminate | congruence]); try tauto.
  unfold code_unit_eqb. rewrite andb_true_iff, N.eqb_eq, IH.
  split; [intros [-> ->]; reflexivity | intros H; inversion H; auto].
Qed.

Lemma jsstring_eqb_refl (a : jsstring) : JsString.eqb a a = true.
Proof. apply jsstring_eqb_eq; reflexivity. Qed.

Lemma jsstring_eqb_neq (a b : jsstring) : JsString.eqb a b = false <-> a <> b.
Proof.
  rewrite <- jsstring_eqb_eq. destruct (JsString.eqb a b); split; congruence.
Qed.

Lemma trimStart_ws (pre s : jsstring) :
  Forall (fun c => isWhiteSpace c = true) pre ->
  trimStart (pre ++ s) = trimStart s.
Proof.
  induction 1 as [|c pre Hc _ IH]; simpl; [reflexivity|].
  rewrite Hc; exact IH.
Qed.

Lemma trimStart_head (c : code_unit) (r : jsstring) :
  isWhiteSpace c = false -> trimStart (c :: r) = c :: r.
Proof. intros H; simpl; rewrite H; reflexivity. Qed.

Lemma trimStart_split (s : jsstring) :
  exists pre,
    s = pre ++ trimStart s
    /\ Forall (fun c => isWhiteSpace c = true) pre
    /\ (forall c r, trimStart s = c :: r -> isWhiteSpace c = false).
Proof.
  induction s as [|c s (pre & E & Hpre & Hhd)].
  - exists []; simpl; repeat split; auto; discriminate.
  - simpl. destruct (isWhiteSpace c) eqn:Hc.
    + exists (c :: pre); simpl; repeat split; auto.
      congruence.
    + exists []; simpl; repeat split; auto.
      intros c' r E'; inversion E'; subst; assumption.
Qed.

Lemma trim_Trimmed (s : jsstring) : Trimmed s (trim s).
Proof.
  destruct (trimStart_split s) as (pre & Es & Hpre & Hhd).
  destruct (trimStart_split (rev (trimStart s))) as (post & Er & Hpost & Hlast).
  assert (Eu : trimStart s = trim s ++ rev post).
  { rewrite <- (rev_involutive (trimStart s)), Er at 1.
    rewrite rev_app_distr. reflexivity. }
  exists pre, (rev post). repeat split.
  - rewrite <- Eu. exact Es.
  - exact Hpre.
  - apply Forall_rev. exact Hpost.
  - intros c r E. apply (Hhd c (r ++ rev post)).
    rewrite Eu, E. reflexivity.
  - intros r c E. apply (Hlast c (rev r)).
    unfold trim, trimEnd in E.
    rewrite <- (rev_involutive (trimStart (rev (trimStart s)))), E.
    rewrite rev_app_distr. reflexivity.
Qed.

Lemma Trimmed_trim (s t : jsstring) : Trimmed s t -> t = trim s.
Proof.
  intros (pre & post & -> & Hpre & Hpost & Hhd & Hlast).
  unfold trim, trimEnd. rewrite trimStart_ws by assumption.
  destruct t as [|c r].
  - simpl. rewrite <- (app_nil_r post), trimStart_ws by assumption.
    reflexivity.
  - rewrite <- app_comm_cons, trimStart_head by (eapply Hhd; reflexivity).
    rewrite app_comm_cons, rev_app_distr.
    rewrite trimStart_ws by (apply Forall_rev; assumption).
    destruct (exists_last (l := c :: r)) as (r' & c' & E); [discriminate|].
    rewrite E, rev_app_distr. simpl.
    rewrite (Hlast r' c' E). simpl. rewrite rev_involutive. reflexivity.
Qed.

Lemma dangerous_fiveChars (c : code_unit) :
  dangerous c = true <-> In c fiveChars.
Proof.
  unfold dangerous, fiveChars. simpl.
  rewrite !orb_true_iff, !N.eqb_eq. intuition congruence.
Qed.

Lemma removeAll_Stripped (s : jsstring) : Stripped s (removeAll dangerous s).
Proof.
  induction s as [|c s IH]; simpl; [constructor|].
  destruct (dangerous c) eqn:Hc; simpl.
  - apply Stripped_drop; [apply dangerous_fiveChars|]; assumption.
  - apply Stripped_keep; [|assumption].
    rewrite <- dangerous_fiveChars. congruence.
Qed.

Lemma Stripped_removeAll (s t : jsstring) :
  Stripped s t -> t = removeAll dangerous s.
Proof.
  induction 1 as [|c s t Hc _ IH|c s t Hc _ IH]; simpl.
  - reflexivity.
  - apply dangerous_fiveChars in Hc. rewrite Hc. exact IH.
  - destruct (dangerous c) eqn:E.
    + apply dangerous_fiveChars in E. contradiction.
    + simpl. f_equal. exact IH.
Qed.

Lemma removeAll_clean (s : jsstring) (c : code_unit) :
  In c (removeAll dangerous s) -> ~ In c fiveChars.
Proof.
  unfold removeAll. rewrite filter_In, negb_true_iff. intros [_ H] Hin.
  apply dangerous_fiveChars in Hin. congruence.
Qed.

(** C9. For every string, [sanitizeInput] returns the input with its
    leading and trailing white space trimmed and then every occurrence of
    the five characters removed; that description determines the result,
    which contains none of the five characters (it may be empty, as for a
    blank input); on the sample of the specification the result is
    [scriptab].  The function is total and has no state. *)
Theorem sanitizeInput_trims_then_strips (s : jsstring) :
  (exists t, Trimmed s t /\ Stripped t (sanitizeInput s))
  /\ (forall t r, Trimmed s t -> Stripped t r -> r = sanitizeInput s)
  /\ (forall c, In c (sanitizeInput s) -> ~ In c fiveChars)
  /\ sanitizeInput (str "   ") = []
  /\ sanitizeInput scriptSample = str "scriptab".
Proof.
  repeat split.
  - exists (trim s). split; [apply trim_Trimmed | apply removeAll_Stripped].
  - intros t r Ht Hr. apply Trimmed_trim in Ht. subst t.
    apply Stripped_removeAll in Hr. exact Hr.
  - apply removeAll_clean.
Qed.

(** ** The validator *)

Lemma blank_question_short (q : jsstring) :
  negb (truthy q) || (List.length (trim q) <? 3) = true
  <-> List.length (trim q) < 3.
Proof.
  rewrite orb_true_iff, Nat.ltb_lt. split; [|auto].
  intros [H|H]; [|exact H].
  destruct q; [cbn; lia | discriminate].
Qed.

Lemma blank_option (o : jsstring) :
  negb (truthy o) || (List.length (trim o) =? 0) = true <-> trim o = [].
Proof.
  rewrite orb_true_iff, Nat.eqb_eq, length_zero_iff_nil. split; [|auto].
  intros [H|H]; [|exact H].
  destruct o; [reflexivity | discriminate].
Qed.

Lemma some_blank_option (opts : list jsstring) :
  existsb (fun opt => negb (truthy opt) || (List.length (trim opt) =? 0)) opts
  = true
  <-> Exists (fun o => trim o = []) opts.
Proof.
  rewrite existsb_exists, Exists_exists.
  split; intros (o & Hin & H); exists o; split; auto; apply blank_option; auto.
Qed.

Lemma some_long_option (opts : list jsstring) :
  existsb (fun opt => 200 <? List.length opt) opts = true
  <-> Exists (fun o => 200 < List.length o) opts.
Proof.
  rewrite existsb_exists, Exists_exists.
  split; intros (o & Hin & H); exists o; split; auto; apply Nat.ltb_lt; auto.
Qed.

Lemma not_Exists_Forall {A} (P Q : A -> Prop) (l : list A) :
  (forall x, P x \/ Q x) -> (forall x, P x -> Q x -> False) ->
  ~ Exists P l <-> Forall Q l.
Proof.
  intros Hdec Hex. rewrite Forall_forall, Exists_exists. split.
  - intros H x Hin. destruct (Hdec x) as [HP|HQ]; [|exact HQ].
    exfalso. apply H. exists x. auto.
  - intros H (x & Hin & HP). exact (Hex x HP (H x Hin)).
Qed.

Lemma no_blank_option (opts : list jsstring) :
  ~ Exists (fun o => trim o = []) opts <-> Forall (fun o => trim o <> []) opts.
Proof.
  apply not_Exists_Forall.
  - intros o. destruct (trim o); [left; reflexivity | right; discriminate].
  - intros o H1 H2. exact (H2 H1).
Qed.

Lemma no_long_option (opts : list jsstring) :
  ~ Exists (fun o => 200 < List.length o) opts
  <-> Forall (fun o => List.length o <= 200) opts.
Proof.
  apply not_Exists_Forall; intros; lia.
Qed.

(** C4. [validatePollInput] returns null exactly when the trimmed question
    has at least 3 characters, there are at least 2 options, no option is
    empty after trimming, the question has at most 500 characters and every
    option at most 200; otherwise it returns the message of the first
    failing check, in that order.  In particular fewer than two options
    always give an error, whatever the question. *)
Theorem validatePollInput_first_failing_check
        (question : jsstring) (options : list jsstring) :
  let short := List.length (trim question) < 3 in
  let few := List.length options < 2 in
  let blank := Exists (fun o => trim o = []) options in
  let long := 500 < List.length question in
  let longOpt := Exists (fun o => 200 < List.length o) options in
  let r := validatePollInput question options in
  (r = None <->
     3 <= List.length (trim question)
     /\ 2 <= List.length options
     /\ Forall (fun o => trim o <> []) options
     /\ List.length question <= 500
     /\ Forall (fun o => List.length o <= 200) options)
  /\ (short -> r = Some msg_question_short)
  /\ (~ short -> few -> r = Some msg_few_options)
  /\ (~ short -> ~ few -> blank -> r = Some msg_empty_option)
  /\ (~ short -> ~ few -> ~ blank -> long -> r = Some msg_question_long)
  /\ (~ short -> ~ few -> ~ blank -> ~ long -> longOpt ->
      r = Some msg_option_long)
  /\ (few -> r <> None).
Proof.
  intros short few blank long longOpt r.
  subst short few blank long longOpt r. unfold validatePollInput.
  destruct (negb (truthy question) || (List.length (trim question) <? 3))
    eqn:E1.
  { apply blank_question_short in E1.
    repeat split; try discriminate; try (intros; lia); tauto. }
  assert (N1 : ~ List.length (trim question) < 3)
    by (rewrite <- blank_question_short; congruence).
  destruct (List.length options <? 2) eqn:E2.
  { apply Nat.ltb_lt in E2.
    repeat split; try discriminate; try (intros; lia); tauto. }
  apply Nat.ltb_ge in E2.
  destruct (existsb (fun opt => negb (truthy opt)
                                 || (List.length (trim opt) =? 0)) options)
    eqn:E3.
  { apply some_blank_option in E3.
    repeat split; try discriminate; try (intros; lia); try tauto.
    intros (_ & _ & H & _). apply no_blank_option in H. tauto. }
  assert (N3 : ~ Exists (fun o => trim o = []) options)
    by (rewrite <- some_blank_option; congruence).
  destruct (500 <? List.length question) eqn:E4.
  { apply Nat.ltb_lt in E4.
    repeat split; try discriminate; try (intros; lia); tauto. }
  apply Nat.ltb_ge in E4.
  destruct (existsb (fun opt => 200 <? List.length opt) options) eqn:E5.
  { apply some_long_option in E5.
    repeat split; try discriminate; try (intros; lia); try tauto.
    intros (_ & _ & _ & _ & H). apply no_long_option in H. tauto. }
  assert (N5 : ~ Exists (fun o => 200 < List.length o) options)
    by (rewrite <- some_long_option; congruence).
  repeat split; try (intros; lia); try tauto.
  - apply no_blank_option; assumption.
  - apply no_long_option; assumption.
Qed.

Lemma validatePollInput_first_failing_check_witness :
  validatePollInput (str "Hi") [] = Some msg_question_short
  /\ validatePollInput (str "Tea or coffee?") [str "Tea"]
     = Some msg_few_options
  /\ validatePollInput (str "Tea or coffee?") [str "Tea"; str "Coffee"]
     = None.
Proof.
  split; [|split].
  - apply (validatePollInput_first_failing_check (str "Hi") []).
    vm_compute. lia.
  - apply (validatePollInput_first_failing_check
             (str "Tea or coffee?") [str "Tea"]); vm_compute; lia.
  - apply (validatePollInput_first_failing_check
             (str "Tea or coffee?") [str "Tea"; str "Coffee"]).
    vm_compute. repeat split; try lia; repeat constructor; discriminate.
Defined.

(** ** The identifier check *)

Lemma hexClass_hexDigit (c : code_unit) :
  RegExp.classMatchesI hexClass c = true <-> hexDigit c.
Proof.
  unfold RegExp.classMatchesI, hexDigit.
  change hexClass
    with [48; 49; 50; 51; 52; 53; 54; 55; 56; 57; 97; 98; 99; 100; 101; 102]%N.
  cbn [existsb]. rewrite !orb_true_iff, !N.eqb_eq.
  unfold RegExp.canonicalize. cbn [N.leb N.compare Pos.compare Pos.compare_cont
                                   andb N.sub].
  destruct ((97 <=? c) && (c <=? 122))%N eqn:E.
  - apply andb_true_iff in E. destruct E as [E1 E2].
    apply N.leb_le in E1, E2. cbn. lia.
  - apply andb_false_iff in E.
    rewrite !N.leb_gt in E. cbn. lia.
Qed.

Lemma dashClass_dash (c : code_unit) :
  RegExp.classMatchesI dashClass c = true <-> c = 45%N.
Proof.
  unfold RegExp.classMatchesI. change dashClass with [45%N].
  cbn [existsb]. rewrite orb_false_r, N.eqb_eq.
  unfold RegExp.canonicalize. cbn [N.leb N.compare Pos.compare Pos.compare_cont
                                   andb].
  destruct ((97 <=? c) && (c <=? 122))%N eqn:E.
  - apply andb_true_iff in E. destruct E as [E1 E2].
    apply N.leb_le in E1, E2. lia.
  - split; congruence.
Qed.

Lemma matchCount_Some (cls : list code_unit) (n : nat) (s r : jsstring) :
  RegExp.matchCount cls n s = Some r ->
  exists g, s = g ++ r /\ List.length g = n
            /\ Forall (fun c => RegExp.classMatchesI cls c = true) g.
Proof.
  revert s. induction n as [|n IH]; simpl; intros s H.
  - inversion H; subst. exists []. auto.
  - destruct s as [|c s']; [discriminate|].
    destruct (RegExp.classMatchesI cls c) eqn:Hc; [|discriminate].
    destruct (IH _ H) as (g & -> & Hlen & Hall).
    exists (c :: g). simpl. auto.
Qed.

Lemma matchCount_app (cls : list code_unit) (g r : jsstring) :
  Forall (fun c => RegExp.classMatchesI cls c = true) g ->
  RegExp.matchCount cls (List.length g) (g ++ r) = Some r.
Proof.
  induction 1 as [|c g Hc _ IH]; simpl; [reflexivity|].
  rewrite Hc. exact IH.
Qed.

Lemma isUuid_shape (id : jsstring) : isUuid id = true -> UuidShape id.
Proof.
  unfold isUuid, RegExp.test, uuidPattern. cbn [RegExp.matchTerms
    RegExp.members RegExp.count].
  repeat match goal with
  | |- context [RegExp.matchCount ?c ?n ?s] =>
      let E := fresh "E" in
      destruct (RegExp.matchCount c n s) eqn:E; [|discriminate];
      apply matchCount_Some in E;
      let g := fresh "g" in
      let Hl := fresh "Hl" in
      let Hh := fresh "Hh" in
      destruct E as (g & -> & Hl & Hh)
  end.
  match goal with |- context [match ?l with [] => _ | _ :: _ => _ end] =>
    destruct l; [|discriminate] end.
  intros _.
  repeat match goal with
  | H : List.length ?g = 1, F : Forall _ ?g |- _ =>
      destruct g as [|? [|? ?]]; try discriminate H;
      apply Forall_inv in F; apply dashClass_dash in F; subst; clear H
  end.
  exists g, g1, g3, g5, g7. rewrite app_nil_r.
  repeat split; auto.
  repeat rewrite Forall_app. repeat split;
    (eapply Forall_impl; [|eassumption]); intros; apply hexClass_hexDigit;
    assumption.
Qed.

Lemma shape_isUuid (id : jsstring) : UuidShape id -> isUuid id = true.
Proof.
  intros (g1 & g2 & g3 & g4 & g5 & -> & L1 & L2 & L3 & L4 & L5 & H).
  repeat rewrite Forall_app in H.
  destruct H as (H1 & H2 & H3 & H4 & H5).
  assert (hex : forall g, Forall hexDigit g ->
                  Forall (fun c => RegExp.classMatchesI hexClass c = true) g).
  { intros g Hg. eapply Forall_impl; [|exact Hg].
    intros c Hc. apply hexClass_hexDigit. exact Hc. }
  assert (dash : forall r, RegExp.matchCount dashClass 1 ([45%N] ++ r) = Some r).
  { intros r. apply (@matchCount_app dashClass [45%N] r).
    constructor; [apply dashClass_dash; reflexivity | constructor]. }
  assert (grp : forall n g r, List.length g = n -> Forall hexDigit g ->
                  RegExp.matchCount hexClass n (g ++ r) = Some r).
  { intros n g r <- Hg. apply matchCount_app. auto. }
  unfold isUuid, RegExp.test, uuidPattern.
  cbn [RegExp.matchTerms RegExp.members RegExp.count].
  rewrite (grp 8 g1), dash by assumption.
  rewrite (grp 4 g2), dash by assumption.
  rewrite (grp 4 g3), dash by assumption.
  rewrite (grp 4 g4), dash by assumption.
  rewrite <- (app_nil_r g5), (grp 12 g5) by assumption.
  reflexivity.
Qed.

Lemma isUuid_iff_shape (id : jsstring) : isUuid id = true <-> UuidShape id.
Proof. split; [apply isUuid_shape | apply shape_isUuid]. Qed.

Lemma colorPollId_shape : UuidShape colorPollId.
Proof. apply isUuid_shape. vm_compute. reflexivity. Qed.

Lemma colorPoll_only : uniqueIds [colorPoll].
Proof. unfold uniqueIds. simpl. constructor; [simpl; tauto | constructor]. Qed.

(** C6. An identifier that is not of the 8-4-4-4-12 hexadecimal shape
    (letters in either case) makes [getPollById], [submitVote],
    [deletePoll] and [updatePoll] return the error "Invalid poll ID
    format." at once: the world is left as it was, so no request was sent
    and no row changed.  [getPollById] of the string abc is such a call. *)
Theorem malformed_id_rejected_at_once
        (id : jsstring) (optionIndex : number) (formData : FormData)
        (w : World) :
  ~ UuidShape id ->
  getPollById id w
  = (Normal {| Result.payload := None;
               Result.error := Some "Invalid poll ID format." |}, w)
  /\ submitVote id optionIndex w
     = (Normal (failure "Invalid poll ID format."), w)
  /\ deletePoll id w = (Normal (failure "Invalid poll ID format."), w)
  /\ updatePoll id formData w
     = (Normal (failure "Invalid poll ID format."), w)
  /\ getPollById (str "abc") w
     = (Normal {| Result.payload := None;
                  Result.error := Some "Invalid poll ID format." |}, w).
Proof.
  intros H.
  assert (E : isUuid id = false).
  { destruct (isUuid id) eqn:E; [|reflexivity].
    apply isUuid_shape in E. contradiction. }
  unfold getPollById, submitVote, deletePoll, updatePoll. rewrite E.
  repeat split; reflexivity.
Qed.

Lemma malformed_id_rejected_at_once_witness :
  ~ UuidShape (str "abc")
  /\ getPollById (str "abc") colorWorld
     = (Normal {| Result.payload := None;
                  Result.error := Some "Invalid poll ID format." |},
        colorWorld).
Proof.
  assert (H : ~ UuidShape (str "abc")).
  { intros H. apply shape_isUuid in H. vm_compute in H. discriminate. }
  split; [exact H|].
  exact (proj1 (malformed_id_rejected_at_once (Finite 0) [] colorWorld H)).
Defined.

(** ** Numbers *)

Lemma isInt_isInteger (x : number) (k : Z) : isInt x k -> isInteger x = true.
Proof.
  destruct x as [q| | |]; simpl; try contradiction.
  unfold Qeq; simpl. intros H. apply Z.eqb_eq.
  replace (Qnum q) with (k * Z.pos (Qden q))%Z by lia.
  apply Z.mod_mul. discriminate.
Qed.

Lemma isInt_nonneg (x : number) (k : Z) :
  isInt x k -> (0 <= k)%Z -> ltb x (ofNat 0) = false.
Proof.
  destruct x as [q| | |]; simpl; try contradiction.
  intros H Hk. apply negb_false_iff, Qle_bool_iff.
  unfold Qeq in H; unfold Qle; simpl in *. nia.
Qed.

Lemma isInt_geb (x : number) (k : Z) (n : nat) :
  isInt x k -> (Z.of_nat n <= k)%Z -> geb x (ofNat n) = true.
Proof.
  destruct x as [q| | |]; simpl; try contradiction.
  intros H Hk. apply Qle_bool_iff.
  unfold Qeq in H; unfold Qle; simpl in *. nia.
Qed.

Lemma isInt_below (x : number) (k : Z) (n : nat) :
  isInt x k -> (k < Z.of_nat n)%Z -> geb x (ofNat n) = false.
Proof.
  destruct x as [q| | |]; simpl; try contradiction.
  intros H Hk. destruct (Qle_bool (inject_Z (Z.of_nat n)) q) eqn:E; [|reflexivity].
  apply Qle_bool_iff in E.
  unfold Qeq in H; unfold Qle in E; simpl in *. nia.
Qed.

Lemma accepted_index_isInt (x : number) :
  negb (isInteger x) || ltb x (ofNat 0) = false ->
  exists k, (0 <= k)%Z /\ isInt x k.
Proof.
  rewrite orb_false_iff, negb_false_iff.
  destruct x as [q| | |]; simpl; intros [Hi Hn]; try discriminate.
  apply Z.eqb_eq in Hi. apply negb_false_iff, Qle_bool_iff in Hn.
  unfold Qle in Hn; simpl in Hn.
  exists (Qnum q / Z.pos (Qden q))%Z. split.
  - apply Z.div_pos; lia.
  - unfold Qeq; simpl.
    pose proof (Z.div_mod (Qnum q) (Z.pos (Qden q))) as D.
    rewrite Hi in D. specialize (D ltac:(discriminate)). lia.
Qed.

Lemma not_nonneg_integer_rejected (x : number) :
  (forall k, (0 <= k)%Z -> ~ isInt x k) ->
  negb (isInteger x) || ltb x (ofNat 0) = true.
Proof.
  intros H. destruct (negb (isInteger x) || ltb x (ofNat 0)) eqn:E; auto.
  destruct (accepted_index_isInt _ E) as (k & Hk & Hx).
  exfalso. exact (H k Hk Hx).
Qed.

(** ** Requests on the tables *)

Lemma tableRequest_served {A} (c : Call)
      (serve : World -> Response.t A * World) (w : World) :
  hd false (faults w) = false ->
  Supabase.tableRequest c serve w
  = (Normal (fst (serve (with_faults (tl (faults w)) (Supabase.log c w)))),
     snd (serve (with_faults (tl (faults w)) (Supabase.log c w)))).
Proof.
  intros H. unfold Supabase.tableRequest. rewrite H.
  destruct (serve _); reflexivity.
Qed.

Lemma tableRequest_failed {A} (c : Call)
      (serve : World -> Response.t A * World) (w : World) :
  hd false (faults w) = true ->
  Supabase.tableRequest c serve w
  = (Normal (Supabase.failed RequestFailed),
     with_faults (tl (faults w)) (Supabase.log c w)).
Proof.
  intros H. unfold Supabase.tableRequest. rewrite H. reflexivity.
Qed.

Lemma filter_id_absent (ps : list Poll.t) (i : jsstring) :
  ~ In i (map Poll.id ps) ->
  filter (fun p => JsString.eqb (Poll.id p) i) ps = [].
Proof.
  induction ps as [|p ps IH]; simpl; [reflexivity|]. intros H.
  destruct (JsString.eqb (Poll.id p) i) eqn:E.
  - apply jsstring_eqb_eq in E. tauto.
  - apply IH. tauto.
Qed.

Lemma filter_id_unique (ps : list Poll.t) (P : Poll.t) :
  uniqueIds ps -> In P ps ->
  filter (fun p => JsString.eqb (Poll.id p) (Poll.id P)) ps = [P].
Proof.
  unfold uniqueIds. induction ps as [|p ps IH]; simpl; [contradiction|].
  intros Hnd Hin. inversion Hnd as [|? ? Hnotin Hnd']; subst.
  destruct Hin as [->|Hin].
  - rewrite jsstring_eqb_refl, filter_id_absent by assumption. reflexivity.
  - destruct (JsString.eqb (Poll.id p) (Poll.id P)) eqn:E.
    + apply jsstring_eqb_eq in E. exfalso. apply Hnotin. rewrite E.
      apply in_map. exact Hin.
    + apply IH; assumption.
Qed.

Lemma pollsById_unique (w : World) (P : Poll.t) :
  uniqueIds (polls w) -> In P (polls w) ->
  Supabase.pollsById (Poll.id P) w = [P].
Proof. apply filter_id_unique. Qed.

(** ** Vote submission *)

Lemma submitVote_not_an_index (pollId : jsstring) (x : number) (w : World) :
  isUuid pollId = true ->
  (forall k, (0 <= k)%Z -> ~ isInt x k) ->
  submitVote pollId x w = (Normal (failure "Invalid option selection."), w).
Proof.
  intros Hid Hbad. unfold submitVote. rewrite Hid.
  rewrite (@not_nonneg_integer_rejected x Hbad). reflexivity.
Qed.

Lemma submitVote_index_too_large (w : World) (P : Poll.t) (x : number)
      (k : Z) :
  In P (polls w) -> uniqueIds (polls w) -> isUuid (Poll.id P) = true ->
  isInt x k ->
  (Z.of_nat (List.length (Poll.options P)) <= k)%Z ->
  hd false (faults w) = false ->
  exists w',
    submitVote (Poll.id P) x w
    = (Normal (failure "Invalid option selection."), w')
    /\ polls w' = polls w /\ votes w' = votes w
    /\ trace w'
       = trace w ++ [AuthGetUser; PollsSelectOptionsById (Poll.id P)].
Proof.
  intros Hin Huniq Hid Hx Hk Hserved.
  unfold submitVote. rewrite Hid.
  rewrite (@isInt_isInteger x k Hx), (@isInt_nonneg x k Hx) by lia.
  cbn [negb orb]. unfold bind at 1. cbn [Supabase.auth_getUser].
  unfold bind at 1. unfold Supabase.polls_select_options.
  rewrite tableRequest_served by exact Hserved.
  cbn [fst snd].
  replace (Supabase.pollsById (Poll.id P) _) with [P]
    by (symmetry; apply pollsById_unique; assumption).
  cbn [map Supabase.single Supabase.ok Response.error Response.data].
  rewrite (@isInt_geb x k _ Hx Hk).
  eexists. split; [reflexivity|].
  cbn. rewrite <- app_assoc. auto.
Qed.

(** C5. For a poll of the store with [n] options, [submitVote] answers
    "Invalid option selection." and inserts no vote when the index is not
    a non-negative integer (the world is untouched: nothing was sent to the
    backend), and when the index is an integer [k >= n] (after the session
    lookup and the fetch of the poll's options, the only requests sent; the
    tables are unchanged).  Index 5 against a poll with 2 options is such a
    call. *)
Theorem submitVote_invalid_option
        (w : World) (P : Poll.t) (optionIndex : number) :
  In P (polls w) -> uniqueIds (polls w) -> UuidShape (Poll.id P) ->
  ((forall k, (0 <= k)%Z -> ~ isInt optionIndex k) ->
   submitVote (Poll.id P) optionIndex w
   = (Normal (failure "Invalid option selection."), w))
  /\ (forall k,
         isInt optionIndex k ->
         (Z.of_nat (List.length (Poll.options P)) <= k)%Z ->
         hd false (faults w) = false ->
         exists w',
           submitVote (Poll.id P) optionIndex w
           = (Normal (failure "Invalid option selection."), w')
           /\ polls w' = polls w /\ votes w' = votes w
           /\ trace w'
              = trace w ++ [AuthGetUser; PollsSelectOptionsById (Poll.id P)])
  /\ (List.length (Poll.options P) = 2 ->
      hd false (faults w) = false ->
      fst (submitVote (Poll.id P) (ofNat 5) w)
      = Normal (failure "Invalid option selection.")).
Proof.
  intros Hin Huniq Hid. apply shape_isUuid in Hid.
  split; [|split].
  - apply submitVote_not_an_index. exact Hid.
  - intros k. apply submitVote_index_too_large; assumption.
  - intros Hlen Hserved.
    destruct (@submitVote_index_too_large w P (ofNat 5) 5%Z)
      as (w' & E & _); auto.
    + simpl. reflexivity.
    + rewrite Hlen. simpl. lia.
    + rewrite E. reflexivity.
Qed.

Lemma submitVote_invalid_option_witness :
  fst (submitVote colorPollId (ofNat 5) colorWorld)
  = Normal (failure "Invalid option selection.").
Proof.
  assert (Hin : In colorPoll (polls colorWorld)) by (left; reflexivity).
  assert (Huniq : uniqueIds (polls colorWorld)) by exact colorPoll_only.
  assert (Hid : UuidShape (Poll.id colorPoll)) by exact colorPollId_shape.
  exact (proj2 (proj2 (@submitVote_invalid_option colorWorld colorPoll
                                                   (ofNat 5) Hin Huniq Hid))
               eq_refl eq_refl).
Defined.

Lemma anonymous_vote_step (w : World) (P : Poll.t) (x : number) (k : Z) :
  In P (polls w) -> uniqueIds (polls w) -> isUuid (Poll.id P) = true ->
  AuthReply.user (session w) = None -> faults w = [] ->
  isInt x k -> (0 <= k < Z.of_nat (List.length (Poll.options P)))%Z ->
  exists w',
    submitVote (Poll.id P) x w = (Normal success, w')
    /\ polls w' = polls w /\ session w' = session w /\ faults w' = []
    /\ votes w' = votes w ++ [anonymousVote (Poll.id P) x]
    /\ trace w'
       = trace w ++ [AuthGetUser; PollsSelectOptionsById (Poll.id P);
                     VotesInsert (Poll.id P) None x].
Proof.
  intros Hin Huniq Hid Hanon Hf Hx Hk.
  unfold submitVote. rewrite Hid.
  rewrite (@isInt_isInteger x k Hx), (@isInt_nonneg x k Hx) by lia.
  cbn [negb orb]. unfold bind at 1. cbn [Supabase.auth_getUser].
  rewrite Hanon.
  unfold bind at 1. unfold Supabase.polls_select_options.
  rewrite tableRequest_served by (cbn; rewrite Hf; reflexivity).
  cbn [fst snd].
  replace (Supabase.pollsById (Poll.id P) _) with [P]
    by (symmetry; apply pollsById_unique; assumption).
  cbn [map Supabase.single Supabase.ok Response.error Response.data].
  rewrite (@isInt_below x k _ Hx) by lia.
  unfold bind at 1. unfold Supabase.votes_insert.
  rewrite tableRequest_served by (cbn; rewrite Hf; reflexivity).
  cbn [fst snd Supabase.ok Response.error option_map].
  eexists. split; [reflexivity|].
  cbn. rewrite Hf. repeat split; auto.
  rewrite <- !app_assoc. reflexivity.
Qed.

Lemma afterVotes_anonymous (w : World) (P : Poll.t) (x : number) (k : Z)
      (n : nat) :
  In P (polls w) -> uniqueIds (polls w) -> isUuid (Poll.id P) = true ->
  AuthReply.user (session w) = None -> faults w = [] ->
  isInt x k -> (0 <= k < Z.of_nat (List.length (Poll.options P)))%Z ->
  let w' := afterVotes (Poll.id P) x n w in
  polls w' = polls w /\ session w' = session w /\ faults w' = []
  /\ votes w' = votes w ++ repeat (anonymousVote (Poll.id P) x) n.
Proof.
  intros Hin Huniq Hid Hanon Hf Hx Hk. induction n as [|n IH].
  - simpl. rewrite app_nil_r. auto.
  - destruct IH as (Hp & Hs & Hfl & Hv). cbn zeta.
    unfold afterVotes in *. simpl Nat.iter.
    destruct (@anonymous_vote_step
                (Nat.iter n (fun w' => snd (submitVote (Poll.id P) x w')) w)
                P x k)
      as (w' & E & Hp' & Hs' & Hf' & Hv' & _); try assumption;
      try congruence.
    rewrite E. cbn [snd].
    repeat split; try congruence.
    rewrite Hv', Hv, <- app_assoc. f_equal.
    change [anonymousVote (Poll.id P) x]
      with (repeat (anonymousVote (Poll.id P) x) 1).
    rewrite <- repeat_app. f_equal. lia.
Qed.

(** Whatever the arguments and the backend do, a call without a session
    never asks for an earlier vote. *)
Lemma anonymous_submitVote_no_lookup (pollId : jsstring) (x : number)
      (w : World) :
  AuthReply.user (session w) = None ->
  exists sent,
    trace (snd (submitVote pollId x w)) = trace w ++ sent
    /\ forall p u, ~ In (VotesSelect p u) sent.
Proof.
  intros Hanon.
  assert (leaf : forall w' sent,
             trace w' = trace w ++ sent ->
             (forall p u, ~ In (VotesSelect p u) sent) ->
             exists sent', trace w' = trace w ++ sent'
                           /\ forall p u, ~ In (VotesSelect p u) sent').
  { intros w' sent E H. exists sent. auto. }
  unfold submitVote.
  destruct (isUuid pollId); cbn [negb];
    [|apply (leaf _ []); [cbn; rewrite app_nil_r; reflexivity | auto]].
  destruct (negb (isInteger x) || ltb x (ofNat 0));
    [apply (leaf _ []); [cbn; rewrite app_nil_r; reflexivity | auto]|].
  unfold bind at 1. cbn [Supabase.auth_getUser]. rewrite Hanon.
  unfold bind at 1.
  unfold Supabase.polls_select_options, Supabase.tableRequest.
  cbn [faults Supabase.log with_trace].
  destruct (hd false (faults w)).
  { apply (leaf _ [AuthGetUser; PollsSelectOptionsById pollId]).
    - cbn. rewrite <- app_assoc. reflexivity.
    - intros p u [H|[H|[]]]; discriminate H. }
  destruct (Supabase.single _) as [[opts|] [e|]];
    cbn [Response.error Response.data];
    try (apply (leaf _ [AuthGetUser; PollsSelectOptionsById pollId]);
         [cbn; rewrite <- app_assoc; reflexivity
         |intros p u [H|[H|[]]]; discriminate H]).
  destruct (geb x (ofNat (List.length opts))).
  { apply (leaf _ [AuthGetUser; PollsSelectOptionsById pollId]).
    - cbn. rewrite <- app_assoc. reflexivity.
    - intros p u [H|[H|[]]]; discriminate H. }
  unfold bind at 1. unfold Supabase.votes_insert, Supabase.tableRequest.
  cbn [faults Supabase.log with_trace with_faults].
  destruct (hd false (tl (faults w)));
    (apply (leaf _ [AuthGetUser; PollsSelectOptionsById pollId;
                    VotesInsert pollId None x]);
     [cbn; rewrite <- !app_assoc; reflexivity
     |intros p u [H|[H|[H|[]]]]; discriminate H]).
Qed.

(** C7. A call of [submitVote] without a session never looks an earlier
    vote up.  On a poll of the store with a valid option index it sends
    three requests (session, poll options, insert), inserts a vote whose
    user id is null and returns [{error: null}].  Hence any number of
    successive anonymous calls on the same poll all succeed, each adding
    one more vote. *)
Theorem anonymous_votes_unconstrained
        (w : World) (P : Poll.t) (optionIndex : number) (k : Z) :
  AuthReply.user (session w) = None ->
  (forall pollId x,
      exists sent,
        trace (snd (submitVote pollId x w)) = trace w ++ sent
        /\ forall p u, ~ In (VotesSelect p u) sent)
  /\ (In P (polls w) -> uniqueIds (polls w) -> UuidShape (Poll.id P) ->
      faults w = [] ->
      isInt optionIndex k ->
      (0 <= k < Z.of_nat (List.length (Poll.options P)))%Z ->
      (exists w',
          submitVote (Poll.id P) optionIndex w = (Normal success, w')
          /\ votes w' = votes w ++ [anonymousVote (Poll.id P) optionIndex]
          /\ polls w' = polls w
          /\ trace w'
             = trace w ++ [AuthGetUser; PollsSelectOptionsById (Poll.id P);
                           VotesInsert (Poll.id P) None optionIndex])
      /\ (forall n,
             fst (submitVote (Poll.id P) optionIndex
                             (afterVotes (Poll.id P) optionIndex n w))
             = Normal success
             /\ votes (afterVotes (Poll.id P) optionIndex n w)
                = votes w
                  ++ repeat (anonymousVote (Poll.id P) optionIndex) n)).
Proof.
  intros Hanon. split.
  { intros pollId x. apply anonymous_submitVote_no_lookup. exact Hanon. }
  intros Hin Huniq Hid Hf Hx Hk. apply shape_isUuid in Hid. split.
  - destruct (@anonymous_vote_step w P optionIndex k)
      as (w' & E & Hp & _ & _ & Hv & Ht); try assumption.
    exists w'. auto.
  - intros n.
    destruct (@afterVotes_anonymous w P optionIndex k n)
      as (Hp & Hs & Hfl & Hv); try assumption.
    split; [|exact Hv].
    destruct (@anonymous_vote_step
                (afterVotes (Poll.id P) optionIndex n w) P optionIndex k)
      as (w' & E & _); try assumption; try congruence.
    rewrite E. reflexivity.
Qed.

Lemma anonymous_votes_unconstrained_witness :
  fst (submitVote colorPollId (ofNat 1)
                  (afterVotes colorPollId (ofNat 1) 3 colorWorld))
  = Normal success
  /\ votes (afterVotes colorPollId (ofNat 1) 3 colorWorld)
     = repeat (anonymousVote colorPollId (ofNat 1)) 3.
Proof.
  assert (Hin : In colorPoll (polls colorWorld)) by (left; reflexivity).
  assert (Huniq : uniqueIds (polls colorWorld)) by exact colorPoll_only.
  assert (Hid : UuidShape (Poll.id colorPoll)) by exact colorPollId_shape.
  assert (Hx : isInt (ofNat 1) 1) by (simpl; reflexivity).
  assert (Hk : (0 <= 1 < Z.of_nat (List.length (Poll.options colorPoll)))%Z)
    by (simpl; lia).
  exact (proj2 (proj2 (@anonymous_votes_unconstrained colorWorld colorPoll
                         (ofNat 1) 1%Z eq_refl)
                      Hin Huniq Hid eq_refl Hx Hk) 3).
Defined.

(** ** Creating and reading back a poll *)

Lemma bind_normal {A B} (m : M A) (k : A -> M B) (w : World) (a : A)
      (w' : World) :
  m w = (Normal a, w') -> bind m k w = k a w'.
Proof. intros H. unfold bind. rewrite H. reflexivity. Qed.

Lemma readOptions_strings (formData : FormData) (w : World) :
  Forall isStringEntry (getAll formData (str "options")) ->
  readOptions formData w
  = (Normal (map sanitizeInput (optionStrings formData)), w).
Proof.
  unfold readOptions, optionStrings.
  induction 1 as [|v l [s ->] _ IH]; [reflexivity|].
  cbn [filter Boolean flat_map].
  destruct (truthy s); [|exact IH].
  cbn [mapM app map].
  rewrite (@bind_normal _ _ _ _ w (sanitizeInput s) w eq_refl).
  rewrite (@bind_normal _ _ _ _ w _ w IH). reflexivity.
Qed.

(** Reading back what [createPoll] stored, for any form that passes the
    validator. *)
Lemma createPoll_then_getPollById (w : World) (u : User.t)
      (formData : FormData) (q : jsstring) :
  AuthReply.user (session w) = Some u ->
  AuthReply.userError (session w) = None ->
  faults w = [] ->
  isUuid (gen_random_uuid w (serial w)) = true ->
  ~ In (gen_random_uuid w (serial w)) (map Poll.id (polls w)) ->
  get formData (str "question") = Some (EntryString q) ->
  Forall isStringEntry (getAll formData (str "options")) ->
  validatePollInput (sanitizeInput q)
                    (map sanitizeInput (optionStrings formData)) = None ->
  exists w1 p w2,
    createPoll formData w = (Normal success, w1)
    /\ polls w1 = polls w ++ [p]
    /\ getPollById (Poll.id p) w1
       = (Normal {| Result.payload := Some p; Result.error := None |}, w2)
    /\ Poll.question p = sanitizeInput q
    /\ Poll.options p = map sanitizeInput (optionStrings formData)
    /\ Poll.user_id p = User.id u.
Proof.
  intros Hu He Hf Hid Hfresh Hq Hopts Hvalid.
  set (p := {| Poll.id := gen_random_uuid w (serial w);
               Poll.user_id := User.id u;
               Poll.question := sanitizeInput q;
               Poll.options := map sanitizeInput (optionStrings formData);
               Poll.created_at := clock w |}).
  assert (Ec : exists w1,
             createPoll formData w = (Normal success, w1)
             /\ polls w1 = polls w ++ [p] /\ faults w1 = []).
  { unfold createPoll. rewrite Hq.
    rewrite (@bind_normal _ _ _ _ w (sanitizeInput q) w eq_refl).
    rewrite (@bind_normal _ _ _ _ w _ w
               (@readOptions_strings formData w Hopts)).
    rewrite Hvalid.
    unfold bind at 1. cbn [Supabase.auth_getUser]. rewrite He, Hu.
    unfold bind at 1. unfold Supabase.polls_insert.
    rewrite tableRequest_served by (cbn; rewrite Hf; reflexivity).
    cbn [fst snd Supabase.ok Response.error].
    unfold bind at 1. cbn [revalidatePath ret].
    eexists. split; [reflexivity|]. cbn. rewrite Hf. auto. }
  destruct Ec as (w1 & E1 & Hp1 & Hf1).
  exists w1, p.
  assert (Eg : exists w2,
             getPollById (Poll.id p) w1
             = (Normal {| Result.payload := Some p; Result.error := None |},
                w2)).
  { unfold getPollById.
    change (Poll.id p) with (gen_random_uuid w (serial w)).
    rewrite Hid. cbn [negb].
    unfold bind at 1. unfold Supabase.polls_select_by_id.
    rewrite tableRequest_served by (rewrite Hf1; reflexivity).
    cbn [fst snd].
    replace (Supabase.pollsById _ _) with [p].
    - cbn [Supabase.single Supabase.ok Response.error Response.data].
      eexists. reflexivity.
    - unfold Supabase.pollsById.
      cbn [polls with_faults Supabase.log with_trace]. rewrite Hp1.
      rewrite filter_app, filter_id_absent by assumption.
      cbn [filter app].
      change (Poll.id p) with (gen_random_uuid w (serial w)).
      rewrite jsstring_eqb_refl. reflexivity. }
  destruct Eg as (w2 & E2). exists w2.
  repeat split; auto.
Qed.

Lemma colorForm_valid :
  get colorForm (str "question")
  = Some (EntryString (str "What is your favorite color?"))
  /\ Forall isStringEntry (getAll colorForm (str "options"))
  /\ sanitizeInput (str "What is your favorite color?")
     = str "What is your favorite color?"
  /\ map sanitizeInput (optionStrings colorForm) = [str "Red"; str "Blue"]
  /\ map sanitizeInput [str "Red"; str "Blue"] = [str "Red"; str "Blue"]
  /\ validatePollInput (str "What is your favorite color?")
                       [str "Red"; str "Blue"] = None.
Proof.
  split; [reflexivity|].
  split; [cbn; repeat constructor; eexists; reflexivity|].
  repeat split; vm_compute; reflexivity.
Qed.

(** C8. Round trip.  A signed-in caller creates a poll with the question
    "What is your favorite color?" and the options Red and Blue; the call
    succeeds and adds one row to the polls table.  [getPollById] on the
    identifier of that row then returns it without error, and its question
    and options are the sanitised inputs, which here are the inputs
    themselves. *)
Theorem createPoll_getPollById_roundtrip (w : World) (u : User.t) :
  AuthReply.user (session w) = Some u ->
  AuthReply.userError (session w) = None ->
  faults w = [] ->
  UuidShape (gen_random_uuid w (serial w)) ->
  ~ In (gen_random_uuid w (serial w)) (map Poll.id (polls w)) ->
  exists w1 p w2,
    createPoll colorForm w = (Normal success, w1)
    /\ polls w1 = polls w ++ [p]
    /\ getPollById (Poll.id p) w1
       = (Normal {| Result.payload := Some p; Result.error := None |}, w2)
    /\ Poll.question p = sanitizeInput (str "What is your favorite color?")
    /\ Poll.options p = map sanitizeInput [str "Red"; str "Blue"]
    /\ Poll.question p = str "What is your favorite color?"
    /\ Poll.options p = [str "Red"; str "Blue"]
    /\ Poll.user_id p = User.id u.
Proof.
  intros Hu He Hf Hid Hfresh. apply shape_isUuid in Hid.
  destruct colorForm_valid as (Hq & Hopts & Esq & Eso & Eso' & Hvalid).
  assert (Hv : validatePollInput
                 (sanitizeInput (str "What is your favorite color?"))
                 (map sanitizeInput (optionStrings colorForm)) = None)
    by (rewrite Esq, Eso; exact Hvalid).
  destruct (@createPoll_then_getPollById w u colorForm
              (str "What is your favorite color?")
              Hu He Hf Hid Hfresh Hq Hopts Hv)
    as (w1 & p & w2 & E1 & Hp & E2 & Hpq & Hpo & Hpu).
  exists w1, p, w2.
  split; [exact E1|]. split; [exact Hp|]. split; [exact E2|].
  split; [exact Hpq|].
  split; [rewrite Hpo, Eso, Eso'; reflexivity|].
  split; [rewrite Hpq; exact Esq|].
  split; [rewrite Hpo; exact Eso | exact Hpu].
Qed.

Lemma createPoll_getPollById_roundtrip_witness :
  exists w1 p w2,
    createPoll colorForm aliceWorld = (Normal success, w1)
    /\ polls w1 = polls aliceWorld ++ [p]
    /\ getPollById (Poll.id p) w1
       = (Normal {| Result.payload := Some p; Result.error := None |}, w2)
    /\ Poll.question p = sanitizeInput (str "What is your favorite color?")
    /\ Poll.options p = map sanitizeInput [str "Red"; str "Blue"]
    /\ Poll.question p = str "What is your favorite color?"
    /\ Poll.options p = [str "Red"; str "Blue"]
    /\ Poll.user_id p = alice.
Proof.
  assert (Hid : UuidShape (gen_random_uuid aliceWorld (serial aliceWorld))).
  { apply isUuid_shape. vm_compute. reflexivity. }
  assert (Hfresh : ~ In (gen_random_uuid aliceWorld (serial aliceWorld))
                        (map Poll.id (polls aliceWorld))).
  { intros [H|[]]. vm_compute in H. discriminate H. }
  exact (@createPoll_getPollById_roundtrip aliceWorld {| User.id := alice |}
           eq_refl eq_refl eq_refl Hid Hfresh).
Defined.

(** ** Deleting a poll *)

Lemma filter_none {A} (f : A -> bool) (l : list A) :
  (forall x, In x l -> f x = false) -> filter f l = [].
Proof.
  induction l as [|x l IH]; simpl; intros H; [reflexivity|].
  rewrite (H x) by auto. apply IH. auto.
Qed.

Lemma filter_all {A} (f : A -> bool) (l : list A) :
  (forall x, In x l -> f x = true) -> filter f l = l.
Proof.
  induction l as [|x l IH]; simpl; intros H; [reflexivity|].
  rewrite (H x) by auto. f_equal. apply IH. auto.
Qed.

(** A caller who owns no poll of that identifier deletes nothing. *)
Lemma polls_delete_foreign (id uid : jsstring) (w : World) :
  (forall p, In p (polls w) -> Poll.id p = id -> Poll.user_id p <> uid) ->
  let w' := snd (Supabase.polls_delete id uid w) in
  polls w' = polls w /\ votes w' = votes w.
Proof.
  intros H.
  assert (Hnone : forall p, In p (polls w) ->
                            Supabase.ownedPoll id uid p = false).
  { intros p Hp. unfold Supabase.ownedPoll.
    destruct (JsString.eqb (Poll.id p) id) eqn:E1; [|reflexivity].
    apply jsstring_eqb_eq in E1. simpl.
    apply jsstring_eqb_neq. auto. }
  unfold Supabase.polls_delete, Supabase.tableRequest.
  destruct (hd false (faults w)); cbn; [auto|].
  rewrite (filter_none _ _ Hnone). cbn.
  split; apply filter_all; intros x Hx; [|reflexivity].
  rewrite Hnone by assumption. reflexivity.
Qed.

Lemma uniqueIds_same (ps : list Poll.t) (p q : Poll.t) :
  uniqueIds ps -> In p ps -> In q ps -> Poll.id p = Poll.id q -> p = q.
Proof.
  unfold uniqueIds. induction ps as [|x ps IH]; simpl; [contradiction|].
  intros Hnd Hp Hq E. inversion Hnd as [|? ? Hnotin Hnd']; subst.
  destruct Hp as [->|Hp], Hq as [->|Hq]; auto.
  - exfalso. apply Hnotin. rewrite E. apply in_map. assumption.
  - exfalso. apply Hnotin. rewrite <- E. apply in_map. assumption.
Qed.

Lemma deletePoll_signed_in (id : jsstring) (u : User.t) (w : World) :
  isUuid id = true ->
  AuthReply.user (session w) = Some u ->
  AuthReply.userError (session w) = None ->
  deletePoll id w
  = (r <- Supabase.polls_delete id (User.id u) ;;
     match Response.error r with
     | Some _ => ret (failure "Failed to delete poll or poll not found.")
     | None => revalidatePath "/polls" ;;; ret success
     end) (Supabase.log AuthGetUser w).
Proof.
  intros Hid Hu He. unfold deletePoll. rewrite Hid. cbn [negb].
  unfold bind at 1. cbn [Supabase.auth_getUser]. rewrite He, Hu. reflexivity.
Qed.

(** C1, as the code has it.  When a signed-in caller who does not own poll
    [P] calls [deletePoll] on its identifier, [P] and every vote stay in
    the store.  The call reports no error when the backend serves the
    delete request, and the generic message "Failed to delete poll or poll
    not found." only when the backend fails it.  The same call on a
    well-formed identifier that no poll carries gives the same result and
    changes nothing either, so the caller cannot tell the two apart. *)
Theorem deletePoll_by_non_owner (w : World) (P : Poll.t) (u : User.t) :
  In P (polls w) -> uniqueIds (polls w) -> UuidShape (Poll.id P) ->
  AuthReply.user (session w) = Some u ->
  AuthReply.userError (session w) = None ->
  User.id u <> Poll.user_id P ->
  let r := fst (deletePoll (Poll.id P) w) in
  let w' := snd (deletePoll (Poll.id P) w) in
  polls w' = polls w /\ votes w' = votes w /\ In P (polls w')
  /\ (hd false (faults w) = false -> r = Normal success)
  /\ (hd false (faults w) = true ->
      r = Normal (failure "Failed to delete poll or poll not found."))
  /\ (forall w0 missing,
         UuidShape missing -> ~ In missing (map Poll.id (polls w0)) ->
         session w0 = session w -> faults w0 = faults w ->
         fst (deletePoll missing w0) = r
         /\ polls (snd (deletePoll missing w0)) = polls w0
         /\ votes (snd (deletePoll missing w0)) = votes w0).
Proof.
  intros Hin Huniq Hid Hu He Hown r w'. apply shape_isUuid in Hid.
  assert (Hforeign : forall p, In p (polls w) -> Poll.id p = Poll.id P ->
                               Poll.user_id p <> User.id u).
  { intros p Hp E. rewrite (@uniqueIds_same (polls w) p P Huniq Hp Hin E). congruence. }
  assert (Hrun : forall id w1,
             isUuid id = true -> session w1 = session w ->
             (forall p, In p (polls w1) -> Poll.id p = id ->
                        Poll.user_id p <> User.id u) ->
             polls (snd (deletePoll id w1)) = polls w1
             /\ votes (snd (deletePoll id w1)) = votes w1
             /\ fst (deletePoll id w1)
                = if hd false (faults w1)
                  then Normal (failure "Failed to delete poll or poll not found.")
                  else Normal success).
  { intros id w1 Hid1 Hs Hf.
    rewrite (@deletePoll_signed_in id u w1) by (rewrite ?Hs; assumption).
    pose proof (@polls_delete_foreign id (User.id u)
                  (Supabase.log AuthGetUser w1) Hf) as Hdel.
    cbn zeta in Hdel. unfold bind.
    unfold Supabase.polls_delete in *.
    destruct (hd false (faults w1)) eqn:Hh.
    - rewrite tableRequest_failed in * by exact Hh. cbn in *. tauto.
    - rewrite tableRequest_served in * by exact Hh. cbn in *. tauto. }
  destruct (Hrun (Poll.id P) w Hid eq_refl Hforeign) as (Hp & Hv & Hr).
  subst r w'. rewrite Hp, Hv, Hr.
  repeat split; auto.
  - intros ->. reflexivity.
  - intros ->. reflexivity.
  - apply shape_isUuid in H.
    destruct (Hrun missing w0 H H1) as (_ & _ & Hr0).
    + intros p Hp0 E. exfalso. apply H0. rewrite <- E. apply in_map. exact Hp0.
    + rewrite Hr0, H2. reflexivity.
  - apply shape_isUuid in H. apply (Hrun missing w0 H H1).
    intros p Hp0 E. exfalso. apply H0. rewrite <- E. apply in_map. exact Hp0.
  - apply shape_isUuid in H. apply (Hrun missing w0 H H1).
    intros p Hp0 E. exfalso. apply H0. rewrite <- E. apply in_map. exact Hp0.
Qed.

Lemma deletePoll_by_non_owner_witness :
  polls (snd (deletePoll colorPollId bobWorld)) = polls bobWorld
  /\ votes (snd (deletePoll colorPollId bobWorld)) = votes bobWorld
  /\ fst (deletePoll colorPollId bobWorld) = Normal success
  /\ fst (deletePoll missingPollId bobWorld)
     = fst (deletePoll colorPollId bobWorld).
Proof.
  assert (Hin : In colorPoll (polls bobWorld)) by (left; reflexivity).
  assert (Huniq : uniqueIds (polls bobWorld)) by exact colorPoll_only.
  assert (Hid : UuidShape (Poll.id colorPoll)) by exact colorPollId_shape.
  assert (Hown : User.id {| User.id := bob |} <> Poll.user_id colorPoll).
  { intros H. vm_compute in H. discriminate H. }
  pose proof (@deletePoll_by_non_owner bobWorld colorPoll {| User.id := bob |}
                Hin Huniq Hid eq_refl eq_refl Hown) as H.
  cbv zeta in H. destruct H as (Hp & Hv & _ & Hr & _ & Hmissing).
  split; [exact Hp|]. split; [exact Hv|]. split; [exact (Hr eq_refl)|].
  assert (Hshape : UuidShape missingPollId).
  { apply isUuid_shape. vm_compute. reflexivity. }
  assert (Habsent : ~ In missingPollId (map Poll.id (polls bobWorld))).
  { intros [E|[]]. vm_compute in E. discriminate E. }
  exact (proj1 (Hmissing bobWorld missingPollId Hshape Habsent
                         eq_refl eq_refl)).
Defined.

(** Bob, signed in, deletes Alice's poll: the poll stays, and the call
    reports no error at all, where C1 expects a failure message. *)
Lemma deletePoll_by_non_owner_reports_no_error :
  In colorPoll (polls bobWorld)
  /\ AuthReply.user (session bobWorld) = Some {| User.id := bob |}
  /\ bob <> Poll.user_id colorPoll
  /\ fst (deletePoll (Poll.id colorPoll) bobWorld) = Normal success
  /\ Result.error success = None
  /\ ~ (exists msg,
           fst (deletePoll (Poll.id colorPoll) bobWorld)
           = Normal (failure msg)).
Proof.
  assert (E : fst (deletePoll (Poll.id colorPoll) bobWorld) = Normal success)
    by (vm_compute; reflexivity).
  split; [left; reflexivity|].
  split; [reflexivity|].
  split; [intros H; vm_compute in H; discriminate H|].
  split; [exact E|].
  split; [reflexivity|].
  intros (msg & H). rewrite E in H. discriminate H.
Qed.

(** ** Computations that add no vote *)

Lemma shrinks_refl (w : World) : shrinks w w.
Proof.
  split; [|auto]. exists (fun _ => true).
  symmetry. apply filter_all. auto.
Qed.

Lemma shrinks_trans (a b c : World) : shrinks a b -> shrinks b c -> shrinks a c.
Proof.
  intros [[f Hf] Hfa] [[g Hg] Hfb]. split; [|auto].
  exists (fun v => f v && g v). rewrite Hg, Hf. clear.
  induction (votes a) as [|v l IH]; simpl; [reflexivity|].
  destruct (f v); simpl; [|exact IH].
  destruct (g v); [f_equal|]; exact IH.
Qed.

Lemma shrinks_same (w w' : World) :
  votes w' = votes w -> (faults w = [] -> faults w' = []) -> shrinks w w'.
Proof.
  intros Hv Hf. split; [|exact Hf]. exists (fun _ => true).
  rewrite Hv. symmetry. apply filter_all. auto.
Qed.

Lemma quiet_ret {A} (a : A) : quiet (ret a).
Proof. intros w. apply shrinks_refl. Qed.

Lemma quiet_throw {A} (e : Exn) : quiet (@throw A e).
Proof. intros w. apply shrinks_refl. Qed.

Lemma quiet_bind {A B} (m : M A) (k : A -> M B) :
  quiet m -> (forall a, quiet (k a)) -> quiet (bind m k).
Proof.
  intros Hm Hk w. unfold bind. specialize (Hm w).
  destruct (m w) as [[a|e] w1]; simpl in *; [|exact Hm].
  apply (shrinks_trans Hm). apply Hk.
Qed.

Lemma quiet_auth_getUser : quiet Supabase.auth_getUser.
Proof. intros w. apply shrinks_same; auto. Qed.

Lemma quiet_revalidatePath (path : string) : quiet (revalidatePath path).
Proof. intros w. apply shrinks_same; auto. Qed.

Lemma quiet_tableRequest {A} (c : Call)
      (serve : World -> Response.t A * World) :
  (forall w, shrinks w (snd (serve w))) ->
  quiet (Supabase.tableRequest c serve).
Proof.
  intros Hs w. unfold Supabase.tableRequest.
  set (w1 := with_faults (tl (faults w)) (Supabase.log c w)).
  assert (H1 : shrinks w w1).
  { apply shrinks_same; [reflexivity|]. cbn. intros ->. reflexivity. }
  destruct (hd false (faults w)); [exact H1|].
  specialize (Hs w1). destruct (serve w1) as [r w2]. simpl in *.
  exact (shrinks_trans H1 Hs).
Qed.

Lemma quiet_mapM {A B} (f : A -> M B) (l : list A) :
  (forall a, quiet (f a)) -> quiet (mapM f l).
Proof.
  intros Hf. induction l as [|x l IH]; simpl.
  - apply quiet_ret.
  - apply quiet_bind; [apply Hf|]. intros y.
    apply quiet_bind; [exact IH|]. intros ys. apply quiet_ret.
Qed.

Lemma quiet_sanitizeInputCall (v : option FormDataEntryValue) :
  quiet (sanitizeInputCall v).
Proof.
  destruct v as [[s|n]|]; simpl;
    [apply quiet_ret | apply quiet_throw | apply quiet_throw].
Qed.

Lemma quiet_readOptions (formData : FormData) : quiet (readOptions formData).
Proof.
  apply quiet_mapM. intros a. apply quiet_sanitizeInputCall.
Qed.

Ltac quiet_step :=
  match goal with
  | |- quiet (ret _) => apply quiet_ret
  | |- quiet (throw _) => apply quiet_throw
  | |- quiet Supabase.auth_getUser => apply quiet_auth_getUser
  | |- quiet (revalidatePath _) => apply quiet_revalidatePath
  | |- quiet (sanitizeInputCall _) => apply quiet_sanitizeInputCall
  | |- quiet (readOptions _) => apply quiet_readOptions
  | |- quiet (bind _ _) => apply quiet_bind; [|intros ?]
  | |- quiet (Supabase.tableRequest _ _) =>
      apply quiet_tableRequest; intros ?; cbn [snd]
  | |- quiet (match ?x with _ => _ end) => destruct x
  end.

Lemma quiet_createPoll (formData : FormData) : quiet (createPoll formData).
Proof.
  unfold createPoll, Supabase.polls_insert. repeat quiet_step.
  apply shrinks_same; auto.
Qed.

Lemma quiet_getUserPolls : quiet getUserPolls.
Proof.
  unfold getUserPolls, Supabase.polls_select_by_user. repeat quiet_step.
  apply shrinks_refl.
Qed.

Lemma quiet_getPollById (id : jsstring) : quiet (getPollById id).
Proof.
  unfold getPollById, Supabase.polls_select_by_id. repeat quiet_step.
  apply shrinks_refl.
Qed.

Lemma quiet_updatePoll (pollId : jsstring) (formData : FormData) :
  quiet (updatePoll pollId formData).
Proof.
  unfold updatePoll, Supabase.polls_update. repeat quiet_step.
  apply shrinks_same; auto.
Qed.

Lemma quiet_deletePoll (id : jsstring) : quiet (deletePoll id).
Proof.
  unfold deletePoll, Supabase.polls_delete. repeat quiet_step.
  split; [|auto]. eexists. cbn. reflexivity.
Qed.

(** ** One vote per signed-in user *)

Lemma oneVotePerUser_filter (keep : Vote.t -> bool) (vs : list Vote.t) :
  oneVotePerUser vs -> oneVotePerUser (filter keep vs).
Proof.
  intros H p u. specialize (H p u).
  assert (L : forall l,
             List.length (filter (Supabase.voteOf p u) (filter keep l))
             <= List.length (filter (Supabase.voteOf p u) l)).
  { induction l as [|v l IH]; simpl; [lia|].
    destruct (keep v); simpl; destruct (Supabase.voteOf p u v); simpl; lia. }
  specialize (L vs). lia.
Qed.

Lemma shrinks_oneVotePerUser (w w' : World) :
  shrinks w w' -> oneVotePerUser (votes w) -> oneVotePerUser (votes w').
Proof.
  intros [[keep E] _] H. rewrite E. apply oneVotePerUser_filter. exact H.
Qed.

Lemma single_None_nil {A} (l : list A) :
  List.length l <= 1 -> Response.data (Supabase.single l) = None -> l = [].
Proof.
  destruct l as [|x [|y l]]; simpl; intros; try reflexivity;
    [discriminate | lia].
Qed.

Lemma oneVotePerUser_insert (vs : list Vote.t) (pid : jsstring)
      (uid : option jsstring) (x : number) :
  oneVotePerUser vs ->
  (forall u, uid = Some u ->
             Response.data (Supabase.single (filter (Supabase.voteOf pid u) vs))
             = None) ->
  oneVotePerUser
    (vs ++ [{| Vote.poll_id := pid; Vote.user_id := uid;
               Vote.option_index := x |}]).
Proof.
  intros H Hnew p u. rewrite filter_app, length_app. specialize (H p u).
  cbn [filter]. unfold Supabase.voteOf at 2. cbn [Vote.poll_id Vote.user_id].
  destruct (JsString.eqb pid p) eqn:Ep; [|simpl; lia].
  destruct uid as [u'|]; [|simpl; lia].
  destruct (JsString.eqb u' u) eqn:Eu; [|simpl; lia].
  apply jsstring_eqb_eq in Ep, Eu. subst p u'.
  rewrite (@single_None_nil _ _ H (Hnew u eq_refl)). simpl. lia.
Qed.

(** What [submitVote] does to the tables of a backend that serves every
    request: nothing, or one vote added after a lookup that found none. *)
Lemma submitVote_votes (pollId : jsstring) (x : number) (w : World) :
  faults w = [] ->
  let w' := snd (submitVote pollId x w) in
  faults w' = [] /\ polls w' = polls w
  /\ (votes w' = votes w
      \/ (votes w'
          = votes w
            ++ [{| Vote.poll_id := pollId;
                   Vote.user_id :=
                     option_map User.id (AuthReply.user (session w));
                   Vote.option_index := x |}]
          /\ forall u,
              option_map User.id (AuthReply.user (session w)) = Some u ->
              Response.data
                (Supabase.single
                   (filter (Supabase.voteOf pollId u) (votes w)))
              = None)).
Proof.
  intros Hf. cbn zeta.
  match goal with |- ?G =>
    match eval pattern (snd (submitVote pollId x w)) in G with
    | ?Q _ => set (Post := Q); change (Post (snd (submitVote pollId x w)))
    end
  end.
  assert (Hsame : forall w', faults w' = [] -> polls w' = polls w ->
                             votes w' = votes w -> Post w').
  { intros w' H1 H2 H3. unfold Post. auto. }
  unfold submitVote.
  destruct (isUuid pollId); cbn [negb]; [|apply Hsame; auto].
  destruct (negb (isInteger x) || ltb x (ofNat 0)); [apply Hsame; auto|].
  unfold bind at 1. cbn [Supabase.auth_getUser].
  unfold bind at 1. unfold Supabase.polls_select_options.
  rewrite tableRequest_served by (cbn; rewrite Hf; reflexivity).
  cbn [fst snd].
  destruct (Supabase.single _) as [[opts|] [e|]];
    cbn [Response.error Response.data];
    try (apply Hsame; cbn; rewrite ?Hf; reflexivity).
  destruct (geb x (ofNat (List.length opts)));
    [apply Hsame; cbn; rewrite ?Hf; reflexivity|].
  destruct (AuthReply.user (session w)) as [u|] eqn:Hu.
  - unfold bind at 1. unfold Supabase.votes_select.
    rewrite tableRequest_served by (cbn; rewrite Hf; reflexivity).
    cbn [fst snd].
    cbn [votes with_faults Supabase.log with_trace faults tl].
    destruct (Response.data (Supabase.single
                               (filter (Supabase.voteOf pollId (User.id u))
                                       (votes w)))) eqn:Hlook.
    + apply Hsame; cbn; rewrite ?Hf; reflexivity.
    + unfold bind at 1. unfold Supabase.votes_insert.
      rewrite tableRequest_served by (cbn; rewrite Hf; reflexivity).
      unfold Post. cbn. rewrite ?Hf, ?Hu.
      split; [reflexivity|]. split; [reflexivity|].
      right. split; [reflexivity|].
      intros u' E. inversion E; subst. exact Hlook.
  - unfold bind at 1. unfold Supabase.votes_insert.
    rewrite tableRequest_served by (cbn; rewrite Hf; reflexivity).
    unfold Post. cbn. rewrite ?Hf, ?Hu.
    split; [reflexivity|]. split; [reflexivity|].
    right. split; [reflexivity|]. discriminate.
Qed.

Lemma step_preserves (w : World) (i : Invocation) :
  faults w = [] -> oneVotePerUser (votes w) ->
  faults (step w i) = [] /\ oneVotePerUser (votes (step w i)).
Proof.
  intros Hf Hinv. unfold step.
  set (w0 := with_session (caller i) w).
  assert (Hf0 : faults w0 = []) by exact Hf.
  assert (Hinv0 : oneVotePerUser (votes w0)) by exact Hinv.
  assert (Hquiet : forall w', shrinks w0 w' ->
                     faults w' = [] /\ oneVotePerUser (votes w')).
  { intros w' Hs. split; [apply Hs; exact Hf0|].
    exact (shrinks_oneVotePerUser Hs Hinv0). }
  destruct (request i) as [fd| |id|id x|id|id fd]; cbn [handle].
  - apply Hquiet, quiet_createPoll.
  - apply Hquiet, quiet_getUserPolls.
  - apply Hquiet, quiet_getPollById.
  - destruct (@submitVote_votes id x w0 Hf0) as (Hf' & _ & [Hv|[Hv Hnone]]).
    + split; [exact Hf'|]. rewrite Hv. exact Hinv0.
    + split; [exact Hf'|]. rewrite Hv.
      apply oneVotePerUser_insert; assumption.
  - apply Hquiet, quiet_deletePoll.
  - apply Hquiet, quiet_updatePoll.
Qed.

Lemma execute_preserves (l : list Invocation) (w : World) :
  faults w = [] -> oneVotePerUser (votes w) ->
  faults (execute l w) = [] /\ oneVotePerUser (votes (execute l w)).
Proof.
  revert w. induction l as [|i l IH]; intros w Hf Hinv; simpl; [auto|].
  destruct (@step_preserves w i Hf Hinv) as [Hf' Hinv'].
  apply IH; assumption.
Qed.

Lemma existing_vote_found (vs : list Vote.t) (pid uid : jsstring)
      (v : Vote.t) :
  oneVotePerUser vs -> In v vs -> Supabase.voteOf pid uid v = true ->
  Supabase.single (filter (Supabase.voteOf pid uid) vs) = Supabase.ok (Some v).
Proof.
  intros Hinv Hin Hv. specialize (Hinv pid uid).
  assert (Hf : In v (filter (Supabase.voteOf pid uid) vs))
    by (apply filter_In; auto).
  destruct (filter (Supabase.voteOf pid uid) vs) as [|a [|b l]];
    simpl in *; try contradiction; [|lia].
  destruct Hf as [->|[]]. reflexivity.
Qed.

Lemma submitVote_again (w : World) (P : Poll.t) (u : User.t) (v : Vote.t)
      (x : number) (k : Z) :
  In P (polls w) -> uniqueIds (polls w) -> isUuid (Poll.id P) = true ->
  AuthReply.user (session w) = Some u -> faults w = [] ->
  oneVotePerUser (votes w) ->
  In v (votes w) -> Supabase.voteOf (Poll.id P) (User.id u) v = true ->
  isInt x k -> (0 <= k < Z.of_nat (List.length (Poll.options P)))%Z ->
  exists w',
    submitVote (Poll.id P) x w
    = (Normal (failure "You have already voted on this poll."), w')
    /\ votes w' = votes w
    /\ trace w'
       = trace w ++ [AuthGetUser; PollsSelectOptionsById (Poll.id P);
                     VotesSelect (Poll.id P) (User.id u)].
Proof.
  intros Hin Huniq Hid Hu Hf Hinv Hv Hmine Hx Hk.
  unfold submitVote. rewrite Hid.
  rewrite (@isInt_isInteger x k Hx), (@isInt_nonneg x k Hx) by lia.
  cbn [negb orb]. unfold bind at 1. cbn [Supabase.auth_getUser].
  rewrite Hu.
  unfold bind at 1. unfold Supabase.polls_select_options.
  rewrite tableRequest_served by (cbn; rewrite Hf; reflexivity).
  cbn [fst snd].
  replace (Supabase.pollsById (Poll.id P) _) with [P]
    by (symmetry; apply pollsById_unique; assumption).
  cbn [map Supabase.single Supabase.ok Response.error Response.data].
  rewrite (@isInt_below x k _ Hx) by lia.
  unfold bind at 1. unfold Supabase.votes_select.
  rewrite tableRequest_served by (cbn; rewrite Hf; reflexivity).
  cbn [fst snd votes with_faults Supabase.log with_trace].
  rewrite (@existing_vote_found (votes w) (Poll.id P) (User.id u) v)
    by assumption.
  cbn [Supabase.ok Response.data].
  eexists. split; [reflexivity|]. cbn. rewrite <- !app_assoc. auto.
Qed.

(** C2, as the code has it.  With a backend that serves every request, any
    sequence of handler calls, each under the session of its caller, keeps
    the votes table at no more than one vote per signed-in user and poll.
    A signed-in user who already has a vote on poll [P] and calls
    [submitVote] again adds no vote, whatever the index; when the index is
    one of the poll's options the answer is "You have already voted on this
    poll.", otherwise it is "Invalid option selection.", the range check
    coming first. *)
Theorem one_vote_per_user_preserved :
  (forall (l : list Invocation) (w : World),
      faults w = [] -> oneVotePerUser (votes w) ->
      oneVotePerUser (votes (execute l w)))
  /\ (forall (w : World) (P : Poll.t) (u : User.t) (v : Vote.t)
             (optionIndex : number),
         In P (polls w) -> uniqueIds (polls w) -> UuidShape (Poll.id P) ->
         AuthReply.user (session w) = Some u -> faults w = [] ->
         oneVotePerUser (votes w) ->
         In v (votes w) ->
         Supabase.voteOf (Poll.id P) (User.id u) v = true ->
         votes (snd (submitVote (Poll.id P) optionIndex w)) = votes w
         /\ (forall k,
                isInt optionIndex k ->
                (0 <= k < Z.of_nat (List.length (Poll.options P)))%Z ->
                fst (submitVote (Poll.id P) optionIndex w)
                = Normal (failure "You have already voted on this poll."))
         /\ ((forall k,
                 isInt optionIndex k ->
                 ~ (0 <= k < Z.of_nat (List.length (Poll.options P)))%Z) ->
             fst (submitVote (Poll.id P) optionIndex w)
             = Normal (failure "Invalid option selection."))).
Proof.
  split.
  - intros l w Hf Hinv. apply execute_preserves; assumption.
  - intros w P u v x Hin Huniq Hid Hu Hf Hinv Hv Hmine.
    apply shape_isUuid in Hid. split; [|split].
    + destruct (@submitVote_votes (Poll.id P) x w Hf)
        as (_ & _ & [E|[_ Hnone]]); [exact E|].
      exfalso. specialize (Hnone (User.id u)). rewrite Hu in Hnone.
      specialize (Hnone eq_refl).
      rewrite (@existing_vote_found (votes w) (Poll.id P) (User.id u) v)
        in Hnone by assumption.
      discriminate Hnone.
    + intros k Hx Hk.
      destruct (@submitVote_again w P u v x k) as (w' & E & _);
        try assumption.
      rewrite E. reflexivity.
    + intros Hbad.
      destruct (negb (isInteger x) || ltb x (ofNat 0)) eqn:G.
      * unfold submitVote. rewrite Hid, G. reflexivity.
      * destruct (accepted_index_isInt _ G) as (k & Hk & Hx).
        destruct (@submitVote_index_too_large w P x k) as (w' & E & _);
          try assumption.
        -- specialize (Hbad k Hx). lia.
        -- rewrite Hf. reflexivity.
        -- rewrite E. reflexivity.
Qed.

Lemma one_vote_per_user_preserved_witness :
  votes (snd (submitVote colorPollId (ofNat 1) votedWorld)) = votes votedWorld
  /\ fst (submitVote colorPollId (ofNat 1) votedWorld)
     = Normal (failure "You have already voted on this poll.").
Proof.
  assert (Hin : In colorPoll (polls votedWorld)) by (left; reflexivity).
  assert (Huniq : uniqueIds (polls votedWorld)) by exact colorPoll_only.
  assert (Hid : UuidShape (Poll.id colorPoll)) by exact colorPollId_shape.
  assert (Hinv : oneVotePerUser (votes votedWorld)).
  { intros p u. simpl. destruct (Supabase.voteOf p u bobVote); simpl; lia. }
  assert (Hv : In bobVote (votes votedWorld)) by (left; reflexivity).
  assert (Hmine : Supabase.voteOf (Poll.id colorPoll)
                                  (User.id {| User.id := bob |}) bobVote
                  = true) by (vm_compute; reflexivity).
  pose proof (proj2 one_vote_per_user_preserved votedWorld colorPoll
                {| User.id := bob |} bobVote (ofNat 1)
                Hin Huniq Hid eq_refl eq_refl Hinv Hv Hmine) as H.
  destruct H as (Hvotes & Hagain & _).
  split; [exact Hvotes|].
  apply (Hagain 1%Z); [simpl; reflexivity | simpl; lia].
Defined.

(** Bob has voted on the two-option poll and submits index 5: the answer is
    the range error, not the duplicate-vote error C2 expects for any
    index. *)
Lemma second_vote_out_of_range_counterexample :
  In bobVote (votes votedWorld)
  /\ Supabase.voteOf colorPollId bob bobVote = true
  /\ AuthReply.user (session votedWorld) = Some {| User.id := bob |}
  /\ fst (submitVote colorPollId (ofNat 5) votedWorld)
     = Normal (failure "Invalid option selection.")
  /\ fst (submitVote colorPollId (ofNat 5) votedWorld)
     <> Normal (failure "You have already voted on this poll.").
Proof.
  assert (E : fst (submitVote colorPollId (ofNat 5) votedWorld)
              = Normal (failure "Invalid option selection."))
    by (vm_compute; reflexivity).
  split; [left; reflexivity|].
  split; [vm_compute; reflexivity|].
  split; [reflexivity|].
  split; [exact E|].
  rewrite E. intros H. inversion H.
Qed.

(** The lookup of an earlier vote is the one read whose failure goes
    unnoticed: when the backend fails it, the second vote is inserted. *)
Lemma failed_lookup_admits_second_vote :
  oneVotePerUser (votes flakyWorld)
  /\ fst (submitVote colorPollId (ofNat 1) flakyWorld) = Normal success
  /\ List.length
       (filter (Supabase.voteOf colorPollId bob)
               (votes (snd (submitVote colorPollId (ofNat 1) flakyWorld))))
     = 2.
Proof.
  split; [|split; vm_compute; reflexivity].
  intros p u. simpl. destruct (Supabase.voteOf p u bobVote); simpl; lia.
Qed.

(** ** A form without a question *)

Lemma sanitizeInputCall_not_a_string (v : option FormDataEntryValue)
      (w : World) :
  ~ (exists s, v = Some (EntryString s)) ->
  sanitizeInputCall v w = (Throw TypeError, w).
Proof.
  intros H. destruct v as [[s|n]|]; try reflexivity.
  exfalso. apply H. exists s. reflexivity.
Qed.

Lemma get_question_cons (v : FormDataEntryValue) (formData : FormData) :
  get ((str "question", v) :: formData) (str "question") = Some v.
Proof. reflexivity. Qed.

Lemma getAll_options_question_cons (v : FormDataEntryValue)
      (formData : FormData) :
  getAll ((str "question", v) :: formData) (str "options")
  = getAll formData (str "options").
Proof. reflexivity. Qed.

(** C3 does not hold of the code.  A form whose question entry is missing,
    or is a file, is a value of the type [FormData] like any other, yet
    [createPoll] answers it with a TypeError and no result object: the
    sanitiser is called on the entry before the validator is, and
    [input.trim()] raises on a value that is no string.  [updatePoll] does
    the same once the identifier has passed the format check.  The world is
    left as it was: no request is sent.  The validator is written to answer
    a question that is not there, as its guard on a falsy question shows:
    the empty question is rejected with the message of the first check
    whatever the options are, and a form that carries the empty string
    as its question gets that message back as data from both handlers. *)
Theorem missing_question_raises_TypeError (formData : FormData) (w : World) :
  ~ (exists s, get formData (str "question") = Some (EntryString s)) ->
  createPoll formData w = (Throw TypeError, w)
  /\ (forall r, fst (createPoll formData w) <> Normal r)
  /\ (forall pollId,
         UuidShape pollId ->
         updatePoll pollId formData w = (Throw TypeError, w)
         /\ forall r, fst (updatePoll pollId formData w) <> Normal r)
  /\ (forall options,
         validatePollInput [] options
         = Some "Question must be at least 3 characters long.")
  /\ (Forall isStringEntry (getAll formData (str "options")) ->
      createPoll ((str "question", EntryString []) :: formData) w
      = (Normal (failure "Question must be at least 3 characters long."), w)
      /\ forall pollId,
           UuidShape pollId ->
           updatePoll pollId ((str "question", EntryString []) :: formData) w
           = (Normal (failure "Question must be at least 3 characters long."),
              w)).
Proof.
  intros H.
  assert (Ec : createPoll formData w = (Throw TypeError, w)).
  { unfold createPoll, bind.
    rewrite sanitizeInputCall_not_a_string by exact H. reflexivity. }
  assert (Eu : forall pollId, UuidShape pollId ->
                 updatePoll pollId formData w = (Throw TypeError, w)).
  { intros pollId Hid. apply shape_isUuid in Hid.
    unfold updatePoll. rewrite Hid. cbn [negb]. unfold bind.
    rewrite sanitizeInputCall_not_a_string by exact H. reflexivity. }
  split; [exact Ec|].
  split; [intros r; rewrite Ec; discriminate|].
  split.
  { intros pollId Hid. split; [exact (Eu pollId Hid)|].
    intros r. rewrite (Eu pollId Hid). discriminate. }
  split; [intros options; reflexivity|].
  intros Hopts.
  assert (Hopts' : Forall isStringEntry
                     (getAll ((str "question", EntryString []) :: formData)
                             (str "options")))
    by (rewrite getAll_options_question_cons; exact Hopts).
  split.
  - unfold createPoll. rewrite get_question_cons.
    rewrite (@bind_normal _ _ _ _ w (sanitizeInput []) w eq_refl).
    rewrite (@bind_normal _ _ _ _ w _ w
               (@readOptions_strings _ w Hopts')).
    reflexivity.
  - intros pollId Hid. apply shape_isUuid in Hid.
    unfold updatePoll. rewrite Hid. cbn [negb]. rewrite get_question_cons.
    rewrite (@bind_normal _ _ _ _ w (sanitizeInput []) w eq_refl).
    rewrite (@bind_normal _ _ _ _ w _ w
               (@readOptions_strings _ w Hopts')).
    reflexivity.
Qed.

Lemma missing_question_raises_TypeError_witness :
  get optionsOnlyForm (str "question") = None
  /\ createPoll optionsOnlyForm aliceWorld = (Throw TypeError, aliceWorld)
  /\ updatePoll colorPollId optionsOnlyForm aliceWorld
     = (Throw TypeError, aliceWorld).
Proof.
  assert (H : ~ (exists s, get optionsOnlyForm (str "question")
                           = Some (EntryString s))).
  { intros (s & E). discriminate E. }
  split; [reflexivity|].
  split.
  - exact (proj1 (@missing_question_raises_TypeError
                    optionsOnlyForm aliceWorld H)).
  - exact (proj1 (proj1 (proj2 (proj2 (@missing_question_raises_TypeError
                                         optionsOnlyForm aliceWorld H)))
                        colorPollId colorPollId_shape)).
Defined.

(** ** Options of a form *)

Lemma get_dropEmptyOptions (formData : FormData) :
  get (dropEmptyOptions formData) (str "question")
  = get formData (str "question").
Proof.
  induction formData as [|[k v] fd IH]; simpl; [reflexivity|].
  destruct (isEmptyOption (k, v)) eqn:E; simpl.
  - unfold isEmptyOption in E. simpl in E.
    apply andb_true_iff in E. destruct E as [E _].
    apply jsstring_eqb_eq in E. subst k.
    change (JsString.eqb (str "options") (str "question")) with false.
    exact IH.
  - rewrite IH. reflexivity.
Qed.

Lemma options_dropEmptyOptions (formData : FormData) :
  filter Boolean (getAll (dropEmptyOptions formData) (str "options"))
  = filter Boolean (getAll formData (str "options")).
Proof.
  unfold getAll. induction formData as [|[k v] fd IH]; simpl; [reflexivity|].
  unfold isEmptyOption at 1. simpl.
  destruct (JsString.eqb k (str "options")) eqn:Ek; simpl.
  - destruct v as [[|c s]|n]; simpl; rewrite ?Ek; simpl; rewrite IH;
      reflexivity.
  - rewrite Ek. exact IH.
Qed.

Lemma readOptions_dropEmptyOptions (formData : FormData) :
  readOptions (dropEmptyOptions formData) = readOptions formData.
Proof.
  unfold readOptions. rewrite options_dropEmptyOptions. reflexivity.
Qed.

Lemma optionStrings_In (formData : FormData) (o : jsstring) :
  In (str "options", EntryString o) formData -> o <> [] ->
  In o (optionStrings formData).
Proof.
  intros Hin Ho. unfold optionStrings. apply in_flat_map.
  exists (EntryString o). split.
  - unfold getAll.
    change (EntryString o) with (snd (str "options", EntryString o)).
    apply in_map. apply filter_In. split; [exact Hin|]. reflexivity.
  - destruct o; [congruence|]. simpl. auto.
Qed.

Lemma sanitizeInput_blank (o : jsstring) :
  Forall (fun c => isWhiteSpace c = true) o -> sanitizeInput o = [].
Proof.
  intros H. unfold sanitizeInput, trim.
  rewrite <- (app_nil_r o), trimStart_ws by exact H. reflexivity.
Qed.

Lemma validatePollInput_empty_option (question : jsstring)
      (options : list jsstring) :
  In [] options ->
  validatePollInput question options = Some msg_question_short
  \/ validatePollInput question options = Some msg_few_options
  \/ validatePollInput question options = Some msg_empty_option.
Proof.
  intros Hin. unfold validatePollInput.
  destruct (negb (truthy question) || _); [auto|].
  destruct (List.length options <? 2); [auto|].
  replace (existsb _ options) with true; [auto|].
  symmetry. apply existsb_exists. exists []. auto.
Qed.

Lemma createPoll_dropEmptyOptions (formData : FormData) (w : World) :
  createPoll (dropEmptyOptions formData) w = createPoll formData w.
Proof.
  unfold createPoll.
  rewrite get_dropEmptyOptions, readOptions_dropEmptyOptions. reflexivity.
Qed.

Lemma updatePoll_dropEmptyOptions (pollId : jsstring) (formData : FormData)
      (w : World) :
  updatePoll pollId (dropEmptyOptions formData) w
  = updatePoll pollId formData w.
Proof.
  unfold updatePoll.
  rewrite get_dropEmptyOptions, readOptions_dropEmptyOptions. reflexivity.
Qed.

Lemma blank_option_rejected (formData : FormData) (o : jsstring) :
  stringForm formData ->
  In (str "options", EntryString o) formData ->
  o <> [] -> Forall (fun c => isWhiteSpace c = true) o ->
  exists question options msg,
    (forall w, sanitizeInputCall (get formData (str "question")) w
               = (Normal question, w))
    /\ (forall w, readOptions formData w = (Normal options, w))
    /\ validatePollInput question options = Some msg
    /\ (msg = msg_question_short \/ msg = msg_few_options
        \/ msg = msg_empty_option).
Proof.
  intros [[q Hq] Hopts] Hin Ho Hws.
  exists (sanitizeInput q), (map sanitizeInput (optionStrings formData)).
  assert (Hempty : In [] (map sanitizeInput (optionStrings formData))).
  { rewrite <- (sanitizeInput_blank Hws). apply in_map.
    apply optionStrings_In; assumption. }
  destruct (@validatePollInput_empty_option (sanitizeInput q) _ Hempty)
    as [E|[E|E]]; eexists; (split; [|split; [|split; [exact E|]]]);
    auto using readOptions_strings; rewrite Hq; reflexivity.
Qed.

(** C10.  [createPoll] and [updatePoll] drop every options entry that is
    the empty string before they sanitise and validate: the outcome is
    that of the form without those entries.  Options A, empty, B are
    processed as A, B and pass the validator; options A, empty leave one
    option and fail the two-options check, not the empty-option one.  An
    option made of white space only is kept by the filter, sanitises to
    the empty string and makes the validator reject the form with one of
    its first three messages, the empty-option one when the question and
    the number of options are in order; nothing is sent to the backend. *)
Theorem empty_options_dropped_before_validation :
  (forall formData w,
      createPoll (dropEmptyOptions formData) w = createPoll formData w)
  /\ (forall pollId formData w,
         updatePoll pollId (dropEmptyOptions formData) w
         = updatePoll pollId formData w)
  /\ (forall q w,
         readOptions (pollForm q [str "A"; []; str "B"]) w
         = (Normal [str "A"; str "B"], w)
         /\ createPoll (pollForm q [str "A"; []; str "B"]) w
            = createPoll (pollForm q [str "A"; str "B"]) w
         /\ updatePoll colorPollId (pollForm q [str "A"; []; str "B"]) w
            = updatePoll colorPollId (pollForm q [str "A"; str "B"]) w)
  /\ fst (createPoll (pollForm (str "What is your favorite color?")
                               [str "A"; []; str "B"]) aliceWorld)
     = Normal success
  /\ (forall w,
         createPoll (pollForm (str "What is your favorite color?")
                              [str "A"; []]) w
         = (Normal (failure msg_few_options), w))
  /\ (forall formData o,
         stringForm formData ->
         In (str "options", EntryString o) formData ->
         o <> [] -> Forall (fun c => isWhiteSpace c = true) o ->
         Boolean (EntryString o) = true
         /\ sanitizeInput o = []
         /\ exists msg,
             (msg = msg_question_short \/ msg = msg_few_options
              \/ msg = msg_empty_option)
             /\ (forall w,
                    createPoll formData w = (Normal (failure msg), w))
             /\ (forall w,
                    updatePoll colorPollId formData w
                    = (Normal (failure msg), w)))
  /\ (forall w,
         createPoll (pollForm (str "What is your favorite color?")
                              [str "A"; str "   "]) w
         = (Normal (failure msg_empty_option), w)).
Proof.
  split; [exact createPoll_dropEmptyOptions|].
  split; [exact updatePoll_dropEmptyOptions|].
  split.
  { intros q w. split; [reflexivity|]. split.
    - rewrite <- createPoll_dropEmptyOptions. reflexivity.
    - rewrite <- updatePoll_dropEmptyOptions. reflexivity. }
  split; [vm_compute; reflexivity|].
  split; [intros w; reflexivity|].
  split; [|intros w; reflexivity].
  intros fd o Hform Hin Ho Hws.
  split; [destruct o; [congruence | reflexivity]|].
  split; [apply sanitizeInput_blank; exact Hws|].
  destruct (blank_option_rejected Hform Hin Ho Hws)
    as (q & opts & msg & Hq & Hopts & Hv & Hmsg).
  exists msg. split; [exact Hmsg|]. split; intros w.
  - unfold createPoll.
    rewrite (@bind_normal _ _ _ _ w q w (Hq w)).
    rewrite (@bind_normal _ _ _ _ w opts w (Hopts w)).
    rewrite Hv. reflexivity.
  - unfold updatePoll.
    change (isUuid colorPollId) with true. cbn [negb].
    rewrite (@bind_normal _ _ _ _ w q w (Hq w)).
    rewrite (@bind_normal _ _ _ _ w opts w (Hopts w)).
    rewrite Hv. reflexivity.
Qed.

Lemma empty_options_dropped_before_validation_witness :
  createPoll (pollForm (str "Tea or coffee?") [str "Tea"; str " "; str "Coffee"])
             aliceWorld
  = (Normal (failure msg_empty_option), aliceWorld).
Proof.
  pose (fd := pollForm (str "Tea or coffee?")
                       [str "Tea"; str " "; str "Coffee"]).
  assert (Hform : stringForm fd).
  { split.
    - exists (str "Tea or coffee?"). reflexivity.
    - cbn. repeat constructor; eexists; reflexivity. }
  assert (Hin : In (str "options", EntryString (str " ")) fd)
    by (right; right; left; reflexivity).
  assert (Ho : str " " <> []) by discriminate.
  assert (Hws : Forall (fun c => isWhiteSpace c = true) (str " "))
    by (repeat constructor).
  destruct (proj1 (proj2 (proj2 (proj2 (proj2
              (proj2 empty_options_dropped_before_validation)))))
              fd (str " ") Hform Hin Ho Hws)
    as (_ & _ & msg & _ & Hc & _).
  specialize (Hc aliceWorld).
  assert (E : fst (createPoll fd aliceWorld)
              = Normal (failure msg_empty_option))
    by (vm_compute; reflexivity).
  rewrite Hc in E. simpl in E. inversion E. subst msg. exact Hc.
Defined.

(** * Further properties of the handlers *)

(** ** Reasoning on outcomes *)

Lemma wp_ret {A} (a : A) (Q : Completion A -> World -> Prop) (w : World) :
  Q (Normal a) w -> wp (ret a) Q w.
Proof. exact (fun H => H). Qed.

Lemma wp_throw {A} (e : Exn) (Q : Completion A -> World -> Prop) (w : World) :
  Q (Throw e) w -> wp (throw e) Q w.
Proof. exact (fun H => H). Qed.

Lemma wp_bind {A B} (m : M A) (k : A -> M B)
      (Q : Completion B -> World -> Prop) (w : World) :
  wp m (fun c w' => match c with
                    | Normal a => wp (k a) Q w'
                    | Throw e => Q (Throw e) w'
                    end) w ->
  wp (bind m k) Q w.
Proof.
  unfold wp, bind. destruct (m w) as [[a|e] w']; simpl; auto.
Qed.

Lemma wp_auth_getUser (Q : Completion AuthReply.t -> World -> Prop)
      (w : World) :
  Q (Normal (session w)) (Supabase.log AuthGetUser w) ->
  wp Supabase.auth_getUser Q w.
Proof. exact (fun H => H). Qed.

Lemma wp_revalidatePath (path : string) (Q : Completion unit -> World -> Prop)
      (w : World) :
  Q (Normal tt) (with_revalidated (revalidated w ++ [path]) w) ->
  wp (revalidatePath path) Q w.
Proof. exact (fun H => H). Qed.

Lemma wp_tableRequest {A} (c : Call) (serve : World -> Response.t A * World)
      (Q : Completion (Response.t A) -> World -> Prop) (w : World) :
  (hd false (faults w) = true ->
   Q (Normal (Supabase.failed RequestFailed))
     (with_faults (tl (faults w)) (Supabase.log c w))) ->
  (hd false (faults w) = false ->
   Q (Normal (fst (serve (with_faults (tl (faults w)) (Supabase.log c w)))))
     (snd (serve (with_faults (tl (faults w)) (Supabase.log c w))))) ->
  wp (Supabase.tableRequest c serve) Q w.
Proof.
  intros Hfail Hserved. unfold wp.
  destruct (hd false (faults w)) eqn:E.
  - rewrite tableRequest_failed by exact E. apply Hfail. reflexivity.
  - rewrite tableRequest_served by exact E. apply Hserved. reflexivity.
Qed.

Lemma wp_sanitizeInputCall (v : option FormDataEntryValue)
      (Q : Completion jsstring -> World -> Prop) (w : World) :
  (forall s, v = Some (EntryString s) -> Q (Normal (sanitizeInput s)) w) ->
  ((forall s, v <> Some (EntryString s)) -> Q (Throw TypeError) w) ->
  wp (sanitizeInputCall v) Q w.
Proof.
  intros Hs Ht. destruct v as [[s|n]|]; unfold wp; simpl.
  - apply Hs. reflexivity.
  - apply Ht. discriminate.
  - apply Ht. discriminate.
Qed.

Lemma readOptions_world (formData : FormData) (w : World) :
  snd (readOptions formData w) = w.
Proof.
  unfold readOptions.
  induction (filter Boolean (getAll formData (str "options"))) as [|v l IH];
    [reflexivity|].
  cbn [mapM]. unfold bind at 1.
  destruct v as [s|n]; cbn [sanitizeInputCall ret throw]; [|reflexivity].
  unfold bind at 1. destruct (mapM _ l w) as [[ys|e] w']; simpl in *; auto.
Qed.

Lemma wp_readOptions (formData : FormData)
      (Q : Completion (list jsstring) -> World -> Prop) (w : World) :
  (forall c, Q c w) -> wp (readOptions formData) Q w.
Proof.
  intros H. unfold wp. rewrite readOptions_world. apply H.
Qed.

(** One step through a handler: the rule of the construct at its head. *)
Ltac wp_step :=
  lazymatch goal with
  | |- wp (bind _ _) _ _ => apply wp_bind
  | |- wp (ret _) _ _ => apply wp_ret
  | |- wp (throw _) _ _ => apply wp_throw
  | |- wp Supabase.auth_getUser _ _ => apply wp_auth_getUser
  | |- wp (revalidatePath _) _ _ => apply wp_revalidatePath
  | |- wp (Supabase.tableRequest _ _) _ _ =>
      apply wp_tableRequest; intros ?
  | |- wp (match ?x with _ => _ end) _ _ => destruct x eqn:?
  end; cbv beta iota.

(** ** Listing one's polls *)

Lemma insertDesc_perm (p : Poll.t) (l : list Poll.t) :
  Permutation (Supabase.insertDesc p l) (p :: l).
Proof.
  induction l as [|x l IH]; simpl; [reflexivity|].
  destruct (Poll.created_at x <? Poll.created_at p); [reflexivity|].
  rewrite IH. apply perm_swap.
Qed.

Lemma orderByCreatedAtDesc_perm (l : list Poll.t) :
  Permutation (Supabase.orderByCreatedAtDesc l) l.
Proof.
  unfold Supabase.orderByCreatedAtDesc.
  induction l as [|x l IH]; simpl; [reflexivity|].
  rewrite insertDesc_perm. constructor. exact IH.
Qed.

Lemma insertDesc_newestFirst (p : Poll.t) (l : list Poll.t) :
  newestFirst l -> newestFirst (Supabase.insertDesc p l).
Proof.
  unfold newestFirst. induction 1 as [|x l Hl IH Hx]; simpl.
  - repeat constructor.
  - destruct (Poll.created_at x <? Poll.created_at p) eqn:E.
    + apply Nat.ltb_lt in E. constructor; [constructor; assumption|].
      constructor; [lia|].
      eapply Forall_impl; [|exact Hx]. simpl. intros; lia.
    + apply Nat.ltb_ge in E. constructor; [exact IH|].
      apply (Permutation_Forall (Permutation_sym (insertDesc_perm p l))).
      constructor; assumption.
Qed.

Lemma orderByCreatedAtDesc_newestFirst (l : list Poll.t) :
  newestFirst (Supabase.orderByCreatedAtDesc l).
Proof.
  unfold Supabase.orderByCreatedAtDesc.
  induction l as [|x l IH]; simpl; [constructor|].
  apply insertDesc_newestFirst. exact IH.
Qed.

Lemma getUserPolls_served (w : World) (u : User.t) :
  AuthReply.user (session w) = Some u ->
  hd false (faults w) = false ->
  getUserPolls w
  = (Normal {| Result.payload :=
                 Supabase.orderByCreatedAtDesc (pollsOf (User.id u) (polls w));
               Result.error := None |},
     with_faults (tl (faults w))
       (Supabase.log (PollsSelectByUser (User.id u))
                     (Supabase.log AuthGetUser w))).
Proof.
  intros Hu Hserved. unfold getUserPolls.
  unfold bind at 1. cbn [Supabase.auth_getUser]. rewrite Hu.
  unfold bind at 1. unfold Supabase.polls_select_by_user.
  rewrite tableRequest_served by exact Hserved. reflexivity.
Qed.

(** A signed-in caller whose request the backend serves gets, without
    error, exactly the polls of the store that carry the caller's id, each
    once, newest first; the tables are not touched.  An error of the session
    lookup is not looked at. *)
Theorem getUserPolls_lists_own_polls (w : World) (u : User.t) :
  AuthReply.user (session w) = Some u ->
  hd false (faults w) = false ->
  exists r w',
    getUserPolls w = (Normal r, w')
    /\ Result.error r = None
    /\ Permutation (Result.payload r) (pollsOf (User.id u) (polls w))
    /\ (forall p, In p (Result.payload r)
                  <-> In p (polls w) /\ Poll.user_id p = User.id u)
    /\ newestFirst (Result.payload r)
    /\ sameTables w w'.
Proof.
  intros Hu Hserved. rewrite (getUserPolls_served w Hu Hserved).
  eexists. eexists. split; [reflexivity|].
  cbn [Result.error Result.payload polls with_faults Supabase.log with_trace].
  split; [reflexivity|].
  assert (P : Permutation
                (Supabase.orderByCreatedAtDesc
                   (pollsOf (User.id u) (polls w)))
                (pollsOf (User.id u) (polls w)))
    by apply orderByCreatedAtDesc_perm.
  split; [exact P|]. split; [|split].
  - intros p. split.
    + intros H. apply (Permutation_in _ P) in H.
      apply filter_In in H. destruct H as [H1 H2].
      apply jsstring_eqb_eq in H2. auto.
    + intros [H1 H2]. apply (Permutation_in _ (Permutation_sym P)).
      apply filter_In. split; [exact H1|]. apply jsstring_eqb_eq. exact H2.
  - apply orderByCreatedAtDesc_newestFirst.
  - split; reflexivity.
Qed.

Lemma getUserPolls_lists_own_polls_witness :
  exists r w',
    getUserPolls aliceWorld = (Normal r, w')
    /\ Result.error r = None
    /\ Permutation (Result.payload r) (pollsOf alice (polls aliceWorld))
    /\ (forall p, In p (Result.payload r)
                  <-> In p (polls aliceWorld) /\ Poll.user_id p = alice)
    /\ newestFirst (Result.payload r)
    /\ sameTables aliceWorld w'.
Proof.
  exact (@getUserPolls_lists_own_polls aliceWorld {| User.id := alice |}
           eq_refl eq_refl).
Defined.

Lemma getUserPolls_anonymous (w : World) :
  AuthReply.user (session w) = None ->
  getUserPolls w
  = (Normal {| Result.payload := [];
               Result.error := Some "Not authenticated" |},
     Supabase.log AuthGetUser w).
Proof.
  intros Hu. unfold getUserPolls. unfold bind at 1.
  cbn [Supabase.auth_getUser]. rewrite Hu. reflexivity.
Qed.

Lemma getUserPolls_failed (w : World) (u : User.t) :
  AuthReply.user (session w) = Some u ->
  hd false (faults w) = true ->
  getUserPolls w
  = (Normal {| Result.payload := [];
               Result.error := Some "Failed to fetch polls." |},
     with_faults (tl (faults w))
       (Supabase.log (PollsSelectByUser (User.id u))
                     (Supabase.log AuthGetUser w))).
Proof.
  intros Hu Hfail. unfold getUserPolls. unfold bind at 1.
  cbn [Supabase.auth_getUser]. rewrite Hu.
  unfold bind at 1. unfold Supabase.polls_select_by_user.
  rewrite tableRequest_failed by exact Hfail. reflexivity.
Qed.

(** Whenever [getUserPolls] reports an error its list is empty.  Without a
    signed-in user the error is "Not authenticated" and no table request is
    sent; with one, the error is "Failed to fetch polls." exactly when the
    backend fails the request.  In no case is a table changed. *)
Theorem getUserPolls_errors_give_empty_list (w : World) :
  exists r,
    fst (getUserPolls w) = Normal r
    /\ (Result.error r <> None -> Result.payload r = [])
    /\ (AuthReply.user (session w) = None ->
        getUserPolls w
        = (Normal {| Result.payload := [];
                     Result.error := Some "Not authenticated" |},
           Supabase.log AuthGetUser w))
    /\ (AuthReply.user (session w) <> None ->
        (hd false (faults w) = true
         <-> Result.error r = Some "Failed to fetch polls.")
        /\ (hd false (faults w) = false <-> Result.error r = None))
    /\ sameTables w (snd (getUserPolls w)).
Proof.
  destruct (AuthReply.user (session w)) as [u|] eqn:Hu.
  - destruct (hd false (faults w)) eqn:E.
    + rewrite (getUserPolls_failed w Hu E). eexists.
      split; [reflexivity|]. cbn [Result.error Result.payload snd].
      split; [auto|]. split; [discriminate|].
      split; [|split; reflexivity].
      intros _. split; split; intros; congruence.
    + rewrite (getUserPolls_served w Hu E). eexists.
      split; [reflexivity|]. cbn [Result.error Result.payload snd].
      split; [congruence|]. split; [discriminate|].
      split; [|split; reflexivity].
      intros _. split; split; intros; congruence.
  - rewrite (getUserPolls_anonymous w Hu). eexists.
    split; [reflexivity|]. cbn [Result.error Result.payload snd].
    split; [auto|]. split; [auto|]. split; [congruence|].
    split; reflexivity.
Qed.

(** ** Reading one poll *)

(** Any poll of the store is returned by [getPollById] on its identifier,
    whoever asks: the handler sends one request, the fetch, and no session
    lookup, and leaves the tables alone. *)
Theorem getPollById_returns_stored_poll (w : World) (P : Poll.t) :
  In P (polls w) -> uniqueIds (polls w) -> UuidShape (Poll.id P) ->
  hd false (faults w) = false ->
  exists w',
    getPollById (Poll.id P) w
    = (Normal {| Result.payload := Some P; Result.error := None |}, w')
    /\ sameTables w w'
    /\ trace w' = trace w ++ [PollsSelectById (Poll.id P)].
Proof.
  intros Hin Huniq Hid Hserved. apply shape_isUuid in Hid.
  unfold getPollById. rewrite Hid. cbn [negb].
  unfold bind at 1. unfold Supabase.polls_select_by_id.
  rewrite tableRequest_served by exact Hserved.
  cbn [fst snd].
  replace (Supabase.pollsById (Poll.id P) _) with [P]
    by (symmetry; apply pollsById_unique; assumption).
  cbn [Supabase.single Supabase.ok Response.error Response.data ret].
  eexists. split; [reflexivity|]. split; [split; reflexivity|]. reflexivity.
Qed.

Lemma getPollById_returns_stored_poll_witness :
  exists w',
    getPollById colorPollId colorWorld
    = (Normal {| Result.payload := Some colorPoll; Result.error := None |}, w')
    /\ sameTables colorWorld w'
    /\ trace w' = trace colorWorld ++ [PollsSelectById colorPollId].
Proof.
  exact (@getPollById_returns_stored_poll colorWorld colorPoll
           (or_introl eq_refl) colorPoll_only colorPollId_shape eq_refl).
Defined.

(** On a well-formed identifier that no poll carries, and on any
    well-formed identifier when the backend fails the fetch, [getPollById]
    answers with no poll and the one message "Poll not found."; the two
    cases cannot be told apart from the answer, and no table changes. *)
Theorem getPollById_not_found (w : World) (id : jsstring) :
  UuidShape id ->
  ~ In id (map Poll.id (polls w)) \/ hd false (faults w) = true ->
  fst (getPollById id w)
  = Normal {| Result.payload := None; Result.error := Some "Poll not found." |}
  /\ sameTables w (snd (getPollById id w)).
Proof.
  intros Hid Hcase. apply shape_isUuid in Hid.
  unfold getPollById. rewrite Hid. cbn [negb].
  unfold bind. unfold Supabase.polls_select_by_id.
  destruct (hd false (faults w)) eqn:E.
  - rewrite tableRequest_failed by exact E. cbn. split; [|split]; reflexivity.
  - destruct Hcase as [Habsent|Hfail]; [|discriminate Hfail].
    rewrite tableRequest_served by exact E. cbn [fst snd].
    unfold Supabase.pollsById.
    cbn [polls with_faults Supabase.log with_trace].
    rewrite filter_id_absent by exact Habsent.
    cbn. split; [|split]; reflexivity.
Qed.

Lemma getPollById_not_found_witness :
  fst (getPollById missingPollId colorWorld)
  = Normal {| Result.payload := None; Result.error := Some "Poll not found." |}
  /\ sameTables colorWorld (snd (getPollById missingPollId colorWorld)).
Proof.
  assert (Hshape : UuidShape missingPollId).
  { apply isUuid_shape. vm_compute. reflexivity. }
  assert (Habsent : ~ In missingPollId (map Poll.id (polls colorWorld))).
  { intros [E|[]]. vm_compute in E. discriminate E. }
  exact (@getPollById_not_found colorWorld missingPollId Hshape
           (or_introl Habsent)).
Defined.

(** ** Voting *)




(** A vote on a well-formed identifier that no poll carries is answered
    "Poll not found.", for signed-in and anonymous callers alike, and so is
    any vote whose fetch of the poll the backend fails; no vote is stored
    and no lookup of an earlier vote is made. *)
Theorem submitVote_poll_not_found
        (w : World) (pollId : jsstring) (optionIndex : number) (k : Z) :
  UuidShape pollId -> isInt optionIndex k -> (0 <= k)%Z ->
  ~ In pollId (map Poll.id (polls w)) \/ hd false (faults w) = true ->
  exists w',
    submitVote pollId optionIndex w = (Normal (failure "Poll not found."), w')
    /\ sameTables w w'
    /\ trace w' = trace w ++ [AuthGetUser; PollsSelectOptionsById pollId].
Proof.
  intros Hid Hx Hk Hcase. apply shape_isUuid in Hid.
  unfold submitVote. rewrite Hid.
  rewrite (@isInt_isInteger optionIndex k Hx),
    (@isInt_nonneg optionIndex k Hx) by lia.
  cbn [negb orb]. unfold bind at 1. cbn [Supabase.auth_getUser].
  unfold bind at 1. unfold Supabase.polls_select_options.
  destruct (hd false (faults w)) eqn:E.
  - rewrite tableRequest_failed by exact E.
    cbn [Supabase.failed Response.error Response.data ret].
    eexists. split; [reflexivity|]. cbn. rewrite <- app_assoc.
    repeat split.
  - destruct Hcase as [Habsent|Hfail]; [|discriminate Hfail].
    rewrite tableRequest_served by exact E. cbn [fst snd].
    unfold Supabase.pollsById.
    cbn [polls with_faults Supabase.log with_trace].
    rewrite filter_id_absent by exact Habsent.
    cbn [map Supabase.single Supabase.failed Response.error Response.data ret].
    eexists. split; [reflexivity|]. cbn. rewrite <- app_assoc.
    repeat split.
Qed.

Lemma submitVote_poll_not_found_witness :
  exists w',
    submitVote missingPollId (ofNat 0) bobWorld
    = (Normal (failure "Poll not found."), w')
    /\ sameTables bobWorld w'
    /\ trace w'
       = trace bobWorld ++ [AuthGetUser; PollsSelectOptionsById missingPollId].
Proof.
  assert (Hshape : UuidShape missingPollId).
  { apply isUuid_shape. vm_compute. reflexivity. }
  assert (Habsent : ~ In missingPollId (map Poll.id (polls bobWorld))).
  { intros [E|[]]. vm_compute in E. discriminate E. }
  assert (Hx : isInt (ofNat 0) 0) by (simpl; reflexivity).
  exact (@submitVote_poll_not_found bobWorld missingPollId (ofNat 0) 0%Z
           Hshape Hx (Z.le_refl 0) (or_introl Habsent)).
Defined.

Lemma single_Some {A} (l : list A) (a : A) :
  Response.data (Supabase.single l) = Some a -> l = [a].
Proof.
  destruct l as [|x [|y l]]; simpl; intros H; try discriminate.
  inversion H. reflexivity.
Qed.

(** [submitVote] either stores nothing and reports an error, or stores one
    vote and reports success. *)
Lemma submitVote_effect
      (pollId : jsstring) (optionIndex : number) (w : World) :
  let c := fst (submitVote pollId optionIndex w) in
  let w' := snd (submitVote pollId optionIndex w) in
  polls w' = polls w
  /\ ((exists msg, c = Normal (failure msg) /\ votes w' = votes w)
      \/ (c = Normal success
          /\ votes w'
             = votes w
               ++ [{| Vote.poll_id := pollId;
                      Vote.user_id :=
                        option_map User.id (AuthReply.user (session w));
                      Vote.option_index := optionIndex |}]
          /\ UuidShape pollId
          /\ exists P k,
              Supabase.pollsById pollId w = [P]
              /\ isInt optionIndex k
              /\ (0 <= k < Z.of_nat (List.length (Poll.options P)))%Z)).
Proof.
  cbn zeta.
  set (Q := fun (c : Completion (Result.t unit)) (w' : World) =>
    polls w' = polls w
    /\ ((exists msg, c = Normal (failure msg) /\ votes w' = votes w)
        \/ (c = Normal success
            /\ votes w'
               = votes w
                 ++ [{| Vote.poll_id := pollId;
                        Vote.user_id :=
                          option_map User.id (AuthReply.user (session w));
                        Vote.option_index := optionIndex |}]
            /\ UuidShape pollId
            /\ exists P k,
                Supabase.pollsById pollId w = [P]
                /\ isInt optionIndex k
                /\ (0 <= k < Z.of_nat (List.length (Poll.options P)))%Z))).
  change (wp (submitVote pollId optionIndex) Q w).
  assert (Hfail : forall msg w', polls w' = polls w -> votes w' = votes w ->
                                 Q (Normal (failure msg)) w').
  { intros msg w' Hp Hv. split; [exact Hp|]. left. exists msg. auto. }
  unfold submitVote.
  destruct (isUuid pollId) eqn:Hid; cbn [negb];
    [|apply wp_ret, Hfail; reflexivity].
  destruct (negb (isInteger optionIndex) || ltb optionIndex (ofNat 0)) eqn:G;
    [apply wp_ret, Hfail; reflexivity|].
  destruct (accepted_index_isInt _ G) as (k & Hk & Hx).
  wp_step. wp_step. wp_step. unfold Supabase.polls_select_options.
  wp_step; [apply wp_ret, Hfail; reflexivity|].
  cbn [fst snd].
  destruct (Supabase.single _) as [d e] eqn:Es.
  cbn [Response.error Response.data].
  destruct e as [e|]; [apply wp_ret, Hfail; reflexivity|].
  destruct d as [opts|]; [|apply wp_ret, Hfail; reflexivity].
  assert (Hrows : exists P, Supabase.pollsById pollId w = [P]
                            /\ Poll.options P = opts).
  { pose proof (f_equal (@Response.data _) Es) as Hd. cbn in Hd.
    apply single_Some in Hd.
    unfold Supabase.pollsById in *.
    cbn [polls with_faults Supabase.log with_trace] in Hd.
    destruct (filter _ (polls w)) as [|P [|P' l]]; try discriminate Hd.
    exists P. inversion Hd. auto. }
  destruct Hrows as (P & HP & Hopts).
  destruct (geb optionIndex (ofNat (List.length opts))) eqn:Hgeb;
    [apply wp_ret, Hfail; reflexivity|].
  assert (Hrange : (0 <= k < Z.of_nat (List.length (Poll.options P)))%Z).
  { rewrite Hopts. split; [exact Hk|].
    destruct (Z_lt_le_dec k (Z.of_nat (List.length opts))) as [Hlt|Hge];
      [exact Hlt|].
    rewrite (@isInt_geb optionIndex k _ Hx Hge) in Hgeb. discriminate. }
  assert (Hins : forall w1,
             polls w1 = polls w -> votes w1 = votes w ->
             wp (i <- Supabase.votes_insert pollId
                        (option_map User.id
                           (AuthReply.user (session w))) optionIndex ;;
                 match Response.error i with
                 | Some _ =>
                     ret (failure "Failed to submit vote. Please try again.")
                 | None => ret success
                 end) Q w1).
  { intros w1 Hp Hv. wp_step. unfold Supabase.votes_insert.
    wp_step; cbn [fst snd Supabase.failed Supabase.ok Response.error].
    - apply wp_ret, Hfail; cbn; assumption.
    - apply wp_ret. split; [cbn; exact Hp|]. right.
      split; [reflexivity|]. split; [cbn; rewrite Hv; reflexivity|].
      split; [apply isUuid_shape; exact Hid|].
      exists P, k. auto. }
  destruct (AuthReply.user (session w)) as [u|] eqn:Hu.
  - cbn [AuthReply.user]. wp_step. unfold Supabase.votes_select.
    wp_step; cbn [fst snd Supabase.failed Response.data].
    + apply Hins; reflexivity.
    + destruct (Response.data (Supabase.single _)).
      * apply wp_ret, Hfail; reflexivity.
      * apply Hins; reflexivity.
  - apply Hins; reflexivity.
Qed.

(** ** What the mutations do to the store *)

Lemma mapM_sanitized (l : list FormDataEntryValue) (w : World)
      (opts : list jsstring) :
  fst (mapM (fun opt => sanitizeInputCall (Some opt)) l w) = Normal opts ->
  Forall sanitized opts.
Proof.
  revert opts. induction l as [|v l IH]; intros opts; cbn [mapM].
  - cbn. intros H. inversion H. constructor.
  - unfold bind at 1. destruct v as [s|n]; cbn [sanitizeInputCall ret throw];
      [|discriminate].
    unfold bind at 1.
    destruct (mapM _ l w) as [[ys|e] w'] eqn:E; cbn; [|discriminate].
    intros H. inversion H; subst. constructor.
    + exists s. reflexivity.
    + apply IH. reflexivity.
Qed.

Lemma wp_readOptions_sanitized (formData : FormData)
      (Q : Completion (list jsstring) -> World -> Prop) (w : World) :
  (forall opts, Forall sanitized opts -> Q (Normal opts) w) ->
  (forall e, Q (Throw e) w) ->
  wp (readOptions formData) Q w.
Proof.
  intros Hn Ht. unfold wp. rewrite readOptions_world.
  destruct (fst (readOptions formData w)) as [opts|e] eqn:E; [|apply Ht].
  apply Hn. exact (mapM_sanitized _ _ E).
Qed.

(** [createPoll] either leaves the store as it was and reports no success,
    or reports success and has appended one row. *)
Lemma createPoll_effect (formData : FormData) (w : World) :
  let c := fst (createPoll formData w) in
  let w' := snd (createPoll formData w) in
  votes w' = votes w /\ gen_random_uuid w' = gen_random_uuid w
  /\ ((polls w' = polls w /\ serial w' = serial w /\ c <> Normal success
       /\ revalidated w' = revalidated w)
      \/ (exists u question options,
             c = Normal success
             /\ AuthReply.user (session w) = Some u
             /\ AuthReply.userError (session w) = None
             /\ acceptedContent question options
             /\ polls w' = polls w ++ [newPoll w u question options]
             /\ serial w' = S (serial w)
             /\ revalidated w' = revalidated w ++ ["/polls"])).
Proof.
  cbn zeta.
  match goal with |- ?G =>
    match eval pattern (snd (createPoll formData w)) in G with
    | ?F _ =>
        match eval pattern (fst (createPoll formData w)) in F with
        | ?F' _ => set (Q := fun c w' => F' c w')
        end
    end
  end.
  change (wp (createPoll formData) Q w).
  assert (Hsame : forall c w', c <> Normal success ->
                    polls w' = polls w -> votes w' = votes w ->
                    serial w' = serial w ->
                    gen_random_uuid w' = gen_random_uuid w ->
                    revalidated w' = revalidated w -> Q c w').
  { intros c w' Hc Hp Hv Hs Hg Hr. unfold Q. cbv beta.
    split; [exact Hv|]. split; [exact Hg|]. left. auto. }
  unfold createPoll. wp_step.
  apply wp_sanitizeInputCall;
    [intros q Hq | intros _; apply Hsame; (discriminate || reflexivity)].
  wp_step.
  apply wp_readOptions_sanitized;
    [intros opts Hopts | intros e; apply Hsame; (discriminate || reflexivity)].
  destruct (validatePollInput (sanitizeInput q) opts) as [msg|] eqn:Hv;
    [apply wp_ret, Hsame; (discriminate || reflexivity)|].
  wp_step. wp_step.
  destruct (AuthReply.userError (session w)) eqn:He;
    [apply wp_ret, Hsame; (discriminate || reflexivity)|].
  destruct (AuthReply.user (session w)) as [u|] eqn:Hu;
    [|apply wp_ret, Hsame; (discriminate || reflexivity)].
  wp_step. unfold Supabase.polls_insert.
  wp_step; cbn [fst snd Supabase.failed Supabase.ok Response.error].
  - apply wp_ret, Hsame; (discriminate || reflexivity).
  - wp_step. wp_step. apply wp_ret. unfold Q. cbv beta.
    split; [reflexivity|]. split; [reflexivity|]. right.
    exists u, (sanitizeInput q), opts.
    split; [reflexivity|]. split; [reflexivity|]. split; [reflexivity|].
    split; [|split; [|split]; reflexivity].
    split; [exists q; reflexivity|]. split; assumption.
Qed.

(** [updatePoll] either leaves the store as it was and reports no success,
    or reports success and has rewritten the question and options of the
    caller's polls under that identifier. *)
Lemma updatePoll_effect (pollId : jsstring) (formData : FormData)
      (w : World) :
  let c := fst (updatePoll pollId formData w) in
  let w' := snd (updatePoll pollId formData w) in
  votes w' = votes w /\ gen_random_uuid w' = gen_random_uuid w
  /\ serial w' = serial w
  /\ ((polls w' = polls w /\ c <> Normal success
       /\ revalidated w' = revalidated w)
      \/ (exists u question options,
             c = Normal success
             /\ UuidShape pollId
             /\ AuthReply.user (session w) = Some u
             /\ AuthReply.userError (session w) = None
             /\ acceptedContent question options
             /\ polls w' = updatedPolls pollId u question options (polls w)
             /\ revalidated w' = revalidated w ++ ["/polls"])).
Proof.
  cbn zeta.
  match goal with |- ?G =>
    match eval pattern (snd (updatePoll pollId formData w)) in G with
    | ?F _ =>
        match eval pattern (fst (updatePoll pollId formData w)) in F with
        | ?F' _ => set (Q := fun c w' => F' c w')
        end
    end
  end.
  change (wp (updatePoll pollId formData) Q w).
  assert (Hsame : forall c w', c <> Normal success ->
                    polls w' = polls w -> votes w' = votes w ->
                    serial w' = serial w ->
                    gen_random_uuid w' = gen_random_uuid w ->
                    revalidated w' = revalidated w -> Q c w').
  { intros c w' Hc Hp Hv Hs Hg Hr. unfold Q. cbv beta.
    split; [exact Hv|]. split; [exact Hg|]. split; [exact Hs|]. left. auto. }
  unfold updatePoll.
  destruct (isUuid pollId) eqn:Hid; cbn [negb];
    [|apply wp_ret, Hsame; (discriminate || reflexivity)].
  wp_step.
  apply wp_sanitizeInputCall;
    [intros q Hq | intros _; apply Hsame; (discriminate || reflexivity)].
  wp_step.
  apply wp_readOptions_sanitized;
    [intros opts Hopts | intros e; apply Hsame; (discriminate || reflexivity)].
  destruct (validatePollInput (sanitizeInput q) opts) as [msg|] eqn:Hv;
    [apply wp_ret, Hsame; (discriminate || reflexivity)|].
  wp_step. wp_step.
  destruct (AuthReply.userError (session w)) eqn:He;
    [apply wp_ret, Hsame; (discriminate || reflexivity)|].
  destruct (AuthReply.user (session w)) as [u|] eqn:Hu;
    [|apply wp_ret, Hsame; (discriminate || reflexivity)].
  wp_step. unfold Supabase.polls_update.
  wp_step; cbn [fst snd Supabase.failed Supabase.ok Response.error].
  - apply wp_ret, Hsame; (discriminate || reflexivity).
  - wp_step. wp_step. apply wp_ret. unfold Q. cbv beta.
    split; [reflexivity|]. split; [reflexivity|]. split; [reflexivity|].
    right. exists u, (sanitizeInput q), opts.
    split; [reflexivity|]. split; [apply isUuid_shape; exact Hid|].
    split; [reflexivity|]. split; [reflexivity|].
    split; [|split; reflexivity].
    split; [exists q; reflexivity|]. split; assumption.
Qed.

(** [deletePoll] either leaves the store as it was and reports no success,
    or reports success and has removed the caller's polls under that
    identifier together with the votes on them. *)
Lemma deletePoll_effect (id : jsstring) (w : World) :
  let c := fst (deletePoll id w) in
  let w' := snd (deletePoll id w) in
  gen_random_uuid w' = gen_random_uuid w /\ serial w' = serial w
  /\ ((polls w' = polls w /\ votes w' = votes w /\ c <> Normal success
       /\ revalidated w' = revalidated w)
      \/ (exists u,
             c = Normal success
             /\ UuidShape id
             /\ AuthReply.user (session w) = Some u
             /\ AuthReply.userError (session w) = None
             /\ polls w' = remainingPolls id u (polls w)
             /\ votes w' = remainingVotes id u (polls w) (votes w)
             /\ revalidated w' = revalidated w ++ ["/polls"])).
Proof.
  cbn zeta.
  match goal with |- ?G =>
    match eval pattern (snd (deletePoll id w)) in G with
    | ?F _ =>
        match eval pattern (fst (deletePoll id w)) in F with
        | ?F' _ => set (Q := fun c w' => F' c w')
        end
    end
  end.
  change (wp (deletePoll id) Q w).
  assert (Hsame : forall c w', c <> Normal success ->
                    polls w' = polls w -> votes w' = votes w ->
                    serial w' = serial w ->
                    gen_random_uuid w' = gen_random_uuid w ->
                    revalidated w' = revalidated w -> Q c w').
  { intros c w' Hc Hp Hv Hs Hg Hr. unfold Q. cbv beta.
    split; [exact Hg|]. split; [exact Hs|]. left. auto. }
  unfold deletePoll.
  destruct (isUuid id) eqn:Hid; cbn [negb];
    [|apply wp_ret, Hsame; (discriminate || reflexivity)].
  wp_step. wp_step.
  destruct (AuthReply.userError (session w)) eqn:He;
    [apply wp_ret, Hsame; (discriminate || reflexivity)|].
  destruct (AuthReply.user (session w)) as [u|] eqn:Hu;
    [|apply wp_ret, Hsame; (discriminate || reflexivity)].
  wp_step. unfold Supabase.polls_delete.
  wp_step; cbn [fst snd Supabase.failed Supabase.ok Response.error].
  - apply wp_ret, Hsame; (discriminate || reflexivity).
  - wp_step. wp_step. apply wp_ret. unfold Q. cbv beta.
    split; [reflexivity|]. split; [reflexivity|].
    right. exists u.
    split; [reflexivity|]. split; [apply isUuid_shape; exact Hid|].
    split; [reflexivity|]. split; [reflexivity|].
    split; [|split]; reflexivity.
Qed.

Lemma validatePollInput_None (question : jsstring) (options : list jsstring) :
  validatePollInput question options = None ->
  3 <= List.length (trim question)
  /\ List.length question <= 500
  /\ 2 <= List.length options
  /\ Forall (fun o => trim o <> [] /\ List.length o <= 200) options.
Proof.
  unfold validatePollInput.
  destruct (negb (truthy question) || (List.length (trim question) <? 3))
    eqn:E1; [discriminate|].
  destruct (List.length options <? 2) eqn:E2; [discriminate|].
  destruct (existsb (fun opt => negb (truthy opt)
                                || (List.length (trim opt) =? 0)) options)
    eqn:E3; [discriminate|].
  destruct (500 <? List.length question) eqn:E4; [discriminate|].
  destruct (existsb (fun opt => 200 <? List.length opt) options) eqn:E5;
    [discriminate|].
  intros _.
  apply orb_false_iff in E1. destruct E1 as [_ E1].
  apply Nat.ltb_ge in E1, E2, E4.
  repeat split; try assumption.
  apply Forall_forall. intros o Ho. split.
  - intros Hblank.
    assert (H : existsb (fun opt => negb (truthy opt)
                                    || (List.length (trim opt) =? 0)) options
                = true).
    { apply existsb_exists. exists o. split; [exact Ho|].
      rewrite Hblank. apply orb_true_r. }
    congruence.
  - destruct (Nat.le_gt_cases (List.length o) 200) as [H|H]; [exact H|].
    assert (H' : existsb (fun opt => 200 <? List.length opt) options = true).
    { apply existsb_exists. exists o. split; [exact Ho|].
      apply Nat.ltb_lt. exact H. }
    congruence.
Qed.

Lemma sanitized_harmless (s : jsstring) : sanitized s -> harmless s.
Proof.
  intros [raw ->] c Hc. unfold sanitizeInput in Hc.
  exact (@removeAll_clean _ _ Hc).
Qed.

Lemma acceptedContent_wellFormed (p : Poll.t) :
  acceptedContent (Poll.question p) (Poll.options p) -> wellFormedPoll p.
Proof.
  intros (Hq & Ho & Hv).
  destruct (@validatePollInput_None _ _ Hv) as (H1 & H2 & H3 & H4).
  split; [apply sanitized_harmless; exact Hq|].
  split; [exact H1|]. split; [exact H2|]. split; [exact H3|].
  rewrite Forall_forall in *. intros o Hin.
  destruct (H4 o Hin) as [Hb Hl].
  split; [apply sanitized_harmless, Ho; exact Hin|]. auto.
Qed.

(** [createPoll] writes at most one thing, and only on success.  The votes
    are never touched and no stored poll is changed or removed.  The call
    reports success exactly when one row has been appended; that row
    belongs to the signed-in caller and is well formed: texts free of the
    five characters, question of 3 to 500 characters, two options or more,
    none blank or longer than 200.  Otherwise the polls table is as it
    was. *)
Theorem createPoll_appends_one_well_formed_poll
        (formData : FormData) (w : World) :
  let c := fst (createPoll formData w) in
  let w' := snd (createPoll formData w) in
  votes w' = votes w
  /\ (c <> Normal success -> polls w' = polls w)
  /\ (c = Normal success ->
      exists u p,
        AuthReply.user (session w) = Some u
        /\ polls w' = polls w ++ [p]
        /\ Poll.user_id p = User.id u
        /\ Poll.id p = gen_random_uuid w (serial w)
        /\ wellFormedPoll p).
Proof.
  cbn zeta.
  destruct (createPoll_effect formData w)
    as (Hv & _ & [(Hp & _ & Hc & _)|(u & q & opts & Hc & Hu & _ & Hacc & Hp & _)]).
  - split; [exact Hv|]. split; [auto|]. intros H. contradiction.
  - split; [exact Hv|]. split; [intros H; contradiction|]. intros _.
    exists u, (newPoll w u q opts).
    split; [exact Hu|]. split; [exact Hp|].
    split; [reflexivity|]. split; [reflexivity|].
    apply acceptedContent_wellFormed. exact Hacc.
Qed.

Lemma createPoll_appends_one_well_formed_poll_witness :
  exists u p,
    AuthReply.user (session aliceWorld) = Some u
    /\ polls (snd (createPoll teaForm aliceWorld)) = polls aliceWorld ++ [p]
    /\ Poll.user_id p = User.id u
    /\ Poll.id p = gen_random_uuid aliceWorld (serial aliceWorld)
    /\ wellFormedPoll p.
Proof.
  assert (E : fst (createPoll teaForm aliceWorld) = Normal success)
    by (vm_compute; reflexivity).
  exact (proj2 (proj2 (createPoll_appends_one_well_formed_poll
                         teaForm aliceWorld)) E).
Defined.

(** ** Editing a poll *)

Lemma updatedPolls_columns (id : jsstring) (u : User.t) (q : jsstring)
      (o : list jsstring) (ps : list Poll.t) :
  map Poll.id (updatedPolls id u q o ps) = map Poll.id ps
  /\ map Poll.user_id (updatedPolls id u q o ps) = map Poll.user_id ps
  /\ map Poll.created_at (updatedPolls id u q o ps) = map Poll.created_at ps.
Proof.
  unfold updatedPolls. rewrite !map_map.
  repeat split; apply map_ext; intros p;
    destruct (Supabase.ownedPoll id (User.id u) p); reflexivity.
Qed.

Lemma updatedPolls_In (id : jsstring) (u : User.t) (q : jsstring)
      (o : list jsstring) (ps : list Poll.t) (p' : Poll.t) :
  In p' (updatedPolls id u q o ps)
  <-> exists p, In p ps
                /\ p' = if Supabase.ownedPoll id (User.id u) p
                        then editedPoll p q o else p.
Proof.
  unfold updatedPolls. rewrite in_map_iff.
  split; intros (p & H1 & H2); exists p; auto.
Qed.

Lemma ownedPoll_true (id uid : jsstring) (p : Poll.t) :
  Supabase.ownedPoll id uid p = true
  <-> Poll.id p = id /\ Poll.user_id p = uid.
Proof.
  unfold Supabase.ownedPoll.
  rewrite andb_true_iff, !jsstring_eqb_eq. reflexivity.
Qed.

Lemma updatedPolls_foreign (id : jsstring) (u : User.t) (q : jsstring)
      (o : list jsstring) (ps : list Poll.t) :
  (forall p, In p ps -> Poll.id p = id -> Poll.user_id p <> User.id u) ->
  updatedPolls id u q o ps = ps.
Proof.
  intros H. unfold updatedPolls. rewrite <- (map_id ps) at 2.
  apply map_ext_in. intros p Hp.
  destruct (Supabase.ownedPoll id (User.id u) p) eqn:E; [|reflexivity].
  apply ownedPoll_true in E. destruct E as [E1 E2].
  exfalso. exact (H p Hp E1 E2).
Qed.

(** Whatever its arguments, the caller and the backend, [updatePoll]
    leaves the votes alone and keeps every row of the polls table in place
    with its identifier, owner and creation time; a poll that is not the
    caller's own under the identifier given stays exactly as it is, and a
    row that did change is well formed. *)
Theorem updatePoll_changes_only_own_content
        (pollId : jsstring) (formData : FormData) (w : World) :
  let w' := snd (updatePoll pollId formData w) in
  votes w' = votes w
  /\ map Poll.id (polls w') = map Poll.id (polls w)
  /\ map Poll.user_id (polls w') = map Poll.user_id (polls w)
  /\ map Poll.created_at (polls w') = map Poll.created_at (polls w)
  /\ (forall p,
         In p (polls w) ->
         (forall u, AuthReply.user (session w) = Some u ->
                    Poll.id p = pollId -> Poll.user_id p <> User.id u) ->
         In p (polls w'))
  /\ (forall p', In p' (polls w') -> In p' (polls w) \/ wellFormedPoll p').
Proof.
  cbn zeta.
  destruct (updatePoll_effect pollId formData w)
    as (Hv & _ & _ & [(Hp & _)|(u & q & o & _ & _ & Hu & _ & Hacc & Hp & _)]).
  - rewrite Hp. repeat split; auto.
  - rewrite Hp.
    destruct (updatedPolls_columns pollId u q o (polls w)) as (H1 & H2 & H3).
    split; [exact Hv|]. split; [exact H1|]. split; [exact H2|].
    split; [exact H3|]. split.
    + intros p Hin Hnot. apply updatedPolls_In. exists p.
      split; [exact Hin|].
      destruct (Supabase.ownedPoll pollId (User.id u) p) eqn:E;
        [|reflexivity].
      apply ownedPoll_true in E. destruct E as [E1 E2].
      exfalso. exact (Hnot u Hu E1 E2).
    + intros p' Hin. apply updatedPolls_In in Hin.
      destruct Hin as (p & Hin & ->).
      destruct (Supabase.ownedPoll pollId (User.id u) p); [|left; exact Hin].
      right. apply acceptedContent_wellFormed. exact Hacc.
Qed.

Lemma updatePoll_changes_only_own_content_witness :
  In colorPoll (polls (snd (updatePoll colorPollId teaForm bobWorld))).
Proof.
  assert (Hnot : forall u, AuthReply.user (session bobWorld) = Some u ->
                           Poll.id colorPoll = colorPollId ->
                           Poll.user_id colorPoll <> User.id u).
  { intros u Hu _ E. inversion Hu; subst u. vm_compute in E. discriminate E. }
  exact (proj1 (proj2 (proj2 (proj2 (proj2
           (updatePoll_changes_only_own_content colorPollId teaForm
                                                bobWorld)))))
           colorPoll (or_introl eq_refl) Hnot).
Defined.

Lemma updatePoll_served (w : World) (pollId : jsstring) (u : User.t)
      (formData : FormData) (q : jsstring) :
  isUuid pollId = true ->
  AuthReply.user (session w) = Some u ->
  AuthReply.userError (session w) = None ->
  hd false (faults w) = false ->
  get formData (str "question") = Some (EntryString q) ->
  Forall isStringEntry (getAll formData (str "options")) ->
  validatePollInput (sanitizeInput q)
                    (map sanitizeInput (optionStrings formData)) = None ->
  exists w1,
    updatePoll pollId formData w = (Normal success, w1)
    /\ polls w1
       = updatedPolls pollId u (sanitizeInput q)
                      (map sanitizeInput (optionStrings formData)) (polls w)
    /\ votes w1 = votes w /\ faults w1 = tl (faults w)
    /\ revalidated w1 = revalidated w ++ ["/polls"]
    /\ trace w1
       = trace w
         ++ [AuthGetUser;
             PollsUpdate pollId (User.id u) (sanitizeInput q)
                         (map sanitizeInput (optionStrings formData))].
Proof.
  intros Hid Hu He Hserved Hq Hopts Hvalid.
  unfold updatePoll. rewrite Hid, Hq. cbn [negb].
  rewrite (@bind_normal _ _ _ _ w (sanitizeInput q) w eq_refl).
  rewrite (@bind_normal _ _ _ _ w _ w
             (@readOptions_strings formData w Hopts)).
  rewrite Hvalid.
  unfold bind at 1. cbn [Supabase.auth_getUser]. rewrite He, Hu.
  unfold bind at 1. unfold Supabase.polls_update.
  rewrite tableRequest_served by exact Hserved.
  cbn [fst snd Supabase.ok Response.error].
  unfold bind at 1. cbn [revalidatePath ret].
  eexists. split; [reflexivity|]. cbn.
  rewrite <- app_assoc. repeat split.
Qed.

(** The owner of a poll edits it: with a form that passes the validator
    and a backend that serves the requests, [updatePoll] reports success
    after the session lookup and one update; the poll keeps its
    identifier, owner and creation time and carries the sanitised question
    and options of the form, every other poll and every vote is as before,
    and [getPollById] on the identifier then returns the edited poll. *)
Theorem updatePoll_by_owner_roundtrip
        (w : World) (P : Poll.t) (u : User.t) (formData : FormData)
        (q : jsstring) :
  In P (polls w) -> uniqueIds (polls w) -> UuidShape (Poll.id P) ->
  AuthReply.user (session w) = Some u ->
  AuthReply.userError (session w) = None ->
  Poll.user_id P = User.id u ->
  faults w = [] ->
  get formData (str "question") = Some (EntryString q) ->
  Forall isStringEntry (getAll formData (str "options")) ->
  validatePollInput (sanitizeInput q)
                    (map sanitizeInput (optionStrings formData)) = None ->
  let P' := editedPoll P (sanitizeInput q)
                       (map sanitizeInput (optionStrings formData)) in
  exists w1 w2,
    updatePoll (Poll.id P) formData w = (Normal success, w1)
    /\ votes w1 = votes w
    /\ List.length (polls w1) = List.length (polls w)
    /\ In P' (polls w1)
    /\ (forall p, In p (polls w) -> Poll.id p <> Poll.id P -> In p (polls w1))
    /\ getPollById (Poll.id P) w1
       = (Normal {| Result.payload := Some P'; Result.error := None |}, w2).
Proof.
  intros Hin Huniq Hid Hu He Hown Hf Hq Hopts Hvalid P'.
  pose proof (shape_isUuid Hid) as Hid'.
  destruct (@updatePoll_served w (Poll.id P) u formData q)
    as (w1 & E & Hp & Hv & Hf1 & _); try assumption.
  { rewrite Hf. reflexivity. }
  assert (HP' : In P' (polls w1)).
  { rewrite Hp. apply updatedPolls_In. exists P. split; [exact Hin|].
    replace (Supabase.ownedPoll (Poll.id P) (User.id u) P) with true;
      [reflexivity|].
    symmetry. apply ownedPoll_true. auto. }
  assert (Huniq1 : uniqueIds (polls w1)).
  { unfold uniqueIds. rewrite Hp.
    rewrite (proj1 (updatedPolls_columns _ _ _ _ _)). exact Huniq. }
  assert (Eg : exists w2,
             getPollById (Poll.id P) w1
             = (Normal {| Result.payload := Some P'; Result.error := None |},
                w2)).
  { unfold getPollById. rewrite Hid'. cbn [negb].
    unfold bind at 1. unfold Supabase.polls_select_by_id.
    rewrite tableRequest_served by (rewrite Hf1, Hf; reflexivity).
    cbn [fst snd].
    replace (Supabase.pollsById (Poll.id P) _) with [P'].
    - cbn [Supabase.single Supabase.ok Response.error Response.data ret].
      eexists. reflexivity.
    - symmetry. change (Poll.id P) with (Poll.id P').
      apply (@filter_id_unique (polls w1) P' Huniq1 HP'). }
  destruct Eg as (w2 & E2).
  exists w1, w2. split; [exact E|]. split; [exact Hv|].
  split; [rewrite Hp; unfold updatedPolls; apply length_map|].
  split; [exact HP'|]. split; [|exact E2].
  intros p Hp0 Hne. rewrite Hp. apply updatedPolls_In. exists p.
  split; [exact Hp0|].
  destruct (Supabase.ownedPoll (Poll.id P) (User.id u) p) eqn:Eo;
    [|reflexivity].
  apply ownedPoll_true in Eo. destruct Eo as [E1 _]. contradiction.
Qed.

Lemma teaForm_valid :
  get teaForm (str "question") = Some (EntryString (str "Tea or coffee?"))
  /\ Forall isStringEntry (getAll teaForm (str "options"))
  /\ validatePollInput (sanitizeInput (str "Tea or coffee?"))
                       (map sanitizeInput (optionStrings teaForm)) = None.
Proof.
  split; [reflexivity|].
  split; [cbn; repeat constructor; eexists; reflexivity|].
  vm_compute. reflexivity.
Qed.

Lemma updatePoll_by_owner_roundtrip_witness :
  exists w1 w2,
    updatePoll colorPollId teaForm aliceVotedWorld = (Normal success, w1)
    /\ votes w1 = [bobVote]
    /\ getPollById colorPollId w1
       = (Normal {| Result.payload :=
                      Some (editedPoll colorPoll
                              (sanitizeInput (str "Tea or coffee?"))
                              (map sanitizeInput (optionStrings teaForm)));
                    Result.error := None |}, w2).
Proof.
  destruct teaForm_valid as (Hq & Hopts & Hvalid).
  destruct (@updatePoll_by_owner_roundtrip aliceVotedWorld colorPoll
              {| User.id := alice |} teaForm (str "Tea or coffee?")
              (or_introl eq_refl) colorPoll_only colorPollId_shape
              eq_refl eq_refl eq_refl eq_refl Hq Hopts Hvalid)
    as (w1 & w2 & E & Hv & _ & _ & _ & E2).
  exists w1, w2. split; [exact E|]. split; [exact Hv | exact E2].
Defined.

(** ** Deleting one's poll *)

Lemma remaining_In (id : jsstring) (u : User.t) (ps : list Poll.t)
      (vs : list Vote.t) :
  (forall p, In p (remainingPolls id u ps)
             <-> In p ps /\ ~ (Poll.id p = id /\ Poll.user_id p = User.id u))
  /\ (forall v, In v (remainingVotes id u ps vs) -> In v vs)
  /\ (forall v, In v vs -> Vote.poll_id v <> id ->
                In v (remainingVotes id u ps vs)).
Proof.
  split; [|split].
  - intros p. unfold remainingPolls. rewrite filter_In, negb_true_iff.
    rewrite <- ownedPoll_true.
    destruct (Supabase.ownedPoll id (User.id u) p); intuition congruence.
  - intros v H. apply filter_In in H. tauto.
  - intros v Hv Hne. apply filter_In. split; [exact Hv|].
    apply negb_true_iff.
    destruct (existsb _ _) eqn:E; [|reflexivity].
    apply existsb_exists in E. destruct E as (i & Hi & Ei).
    apply jsstring_eqb_eq in Ei. apply in_map_iff in Hi.
    destruct Hi as (p & Hp & Hin). apply filter_In in Hin.
    destruct Hin as [_ Ho]. apply ownedPoll_true in Ho.
    exfalso. apply Hne. rewrite Ei, <- Hp. tauto.
Qed.

(** Whatever its argument, the caller and the backend, [deletePoll] adds
    nothing to either table, keeps every poll that is not the caller's own
    under the identifier given, and keeps every vote on another poll. *)
Theorem deletePoll_removes_only_own_poll (id : jsstring) (w : World) :
  let w' := snd (deletePoll id w) in
  (forall p, In p (polls w') -> In p (polls w))
  /\ (forall v, In v (votes w') -> In v (votes w))
  /\ (forall p,
         In p (polls w) ->
         (forall u, AuthReply.user (session w) = Some u ->
                    Poll.id p = id -> Poll.user_id p <> User.id u) ->
         In p (polls w'))
  /\ (forall v, In v (votes w) -> Vote.poll_id v <> id -> In v (votes w')).
Proof.
  cbn zeta.
  destruct (deletePoll_effect id w)
    as (_ & _ & [(Hp & Hv & _)|(u & _ & _ & Hu & _ & Hp & Hv & _)]).
  - rewrite Hp, Hv. repeat split; auto.
  - rewrite Hp, Hv.
    destruct (remaining_In id u (polls w) (votes w)) as (H1 & H2 & H3).
    split; [intros p Hin; apply H1 in Hin; tauto|].
    split; [exact H2|]. split; [|exact H3].
    intros p Hin Hnot. apply H1. split; [exact Hin|].
    intros [E1 E2]. exact (Hnot u Hu E1 E2).
Qed.

Lemma deletePoll_removes_only_own_poll_witness :
  In colorPoll (polls (snd (deletePoll colorPollId bobWorld))).
Proof.
  assert (Hnot : forall u, AuthReply.user (session bobWorld) = Some u ->
                           Poll.id colorPoll = colorPollId ->
                           Poll.user_id colorPoll <> User.id u).
  { intros u Hu _ E. inversion Hu; subst u. vm_compute in E. discriminate E. }
  exact (proj1 (proj2 (proj2 (deletePoll_removes_only_own_poll
                                colorPollId bobWorld)))
               colorPoll (or_introl eq_refl) Hnot).
Defined.

Lemma deletePoll_served (w : World) (id : jsstring) (u : User.t) :
  isUuid id = true ->
  AuthReply.user (session w) = Some u ->
  AuthReply.userError (session w) = None ->
  hd false (faults w) = false ->
  exists w1,
    deletePoll id w = (Normal success, w1)
    /\ polls w1 = remainingPolls id u (polls w)
    /\ votes w1 = remainingVotes id u (polls w) (votes w)
    /\ faults w1 = tl (faults w)
    /\ session w1 = session w
    /\ trace w1 = trace w ++ [AuthGetUser; PollsDelete id (User.id u)].
Proof.
  intros Hid Hu He Hserved.
  rewrite (@deletePoll_signed_in id u w Hid Hu He).
  unfold bind at 1. unfold Supabase.polls_delete.
  rewrite tableRequest_served by exact Hserved.
  cbn [fst snd Supabase.ok Response.error].
  unfold bind at 1. cbn [revalidatePath ret].
  eexists. split; [reflexivity|]. cbn.
  rewrite <- app_assoc. repeat split.
Qed.

Lemma getPollById_absent (w : World) (id : jsstring) :
  isUuid id = true -> hd false (faults w) = false ->
  ~ In id (map Poll.id (polls w)) ->
  fst (getPollById id w)
  = Normal {| Result.payload := None; Result.error := Some "Poll not found." |}.
Proof.
  intros Hid Hserved Habsent. unfold getPollById. rewrite Hid. cbn [negb].
  unfold bind. unfold Supabase.polls_select_by_id.
  rewrite tableRequest_served by exact Hserved. cbn [fst snd].
  unfold Supabase.pollsById. cbn [polls with_faults Supabase.log with_trace].
  rewrite filter_id_absent by exact Habsent. reflexivity.
Qed.

Lemma submitVote_absent (w : World) (id : jsstring) (x : number) (k : Z) :
  isUuid id = true -> isInt x k -> (0 <= k)%Z ->
  hd false (faults w) = false ->
  ~ In id (map Poll.id (polls w)) ->
  fst (submitVote id x w) = Normal (failure "Poll not found.").
Proof.
  intros Hid Hx Hk Hserved Habsent. unfold submitVote. rewrite Hid.
  rewrite (@isInt_isInteger x k Hx), (@isInt_nonneg x k Hx) by lia.
  cbn [negb orb]. unfold bind at 1. cbn [Supabase.auth_getUser].
  unfold bind at 1. unfold Supabase.polls_select_options.
  rewrite tableRequest_served by exact Hserved. cbn [fst snd].
  unfold Supabase.pollsById. cbn [polls with_faults Supabase.log with_trace].
  rewrite filter_id_absent by exact Habsent. reflexivity.
Qed.

(** The owner deletes a poll: with a backend that serves the requests
    [deletePoll] reports success; exactly that poll leaves the polls table
    and exactly the votes on it leave the votes table, those of other
    users included; afterwards [getPollById] and [submitVote] on the
    identifier both answer "Poll not found.". *)
Theorem deletePoll_by_owner_removes_poll_and_votes
        (w : World) (P : Poll.t) (u : User.t) :
  In P (polls w) -> uniqueIds (polls w) -> UuidShape (Poll.id P) ->
  AuthReply.user (session w) = Some u ->
  AuthReply.userError (session w) = None ->
  Poll.user_id P = User.id u ->
  faults w = [] ->
  exists w1,
    deletePoll (Poll.id P) w = (Normal success, w1)
    /\ (forall p, In p (polls w1) <-> In p (polls w) /\ p <> P)
    /\ (forall v, In v (votes w1)
                  <-> In v (votes w) /\ Vote.poll_id v <> Poll.id P)
    /\ fst (getPollById (Poll.id P) w1)
       = Normal {| Result.payload := None;
                   Result.error := Some "Poll not found." |}
    /\ (forall x k,
           isInt x k -> (0 <= k)%Z ->
           fst (submitVote (Poll.id P) x w1)
           = Normal (failure "Poll not found.")).
Proof.
  intros Hin Huniq Hid Hu He Hown Hf. apply shape_isUuid in Hid.
  destruct (@deletePoll_served w (Poll.id P) u Hid Hu He)
    as (w1 & E & Hp & Hv & Hf1 & _); [rewrite Hf; reflexivity|].
  rewrite Hf in Hf1. cbn in Hf1.
  destruct (remaining_In (Poll.id P) u (polls w) (votes w)) as (H1 & H2 & H3).
  assert (Hpolls : forall p, In p (polls w1) <-> In p (polls w) /\ p <> P).
  { intros p. rewrite Hp, H1. split; intros [Hp0 Hne]; split; auto.
    - intros ->. apply Hne. auto.
    - intros [E1 _]. apply Hne.
      exact (@uniqueIds_same (polls w) p P Huniq Hp0 Hin E1). }
  assert (Habsent : ~ In (Poll.id P) (map Poll.id (polls w1))).
  { intros H. apply in_map_iff in H. destruct H as (p & E1 & Hp1).
    apply Hpolls in Hp1. destruct Hp1 as [Hp0 Hne]. apply Hne.
    exact (@uniqueIds_same (polls w) p P Huniq Hp0 Hin E1). }
  exists w1. split; [exact E|]. split; [exact Hpolls|]. split; [|split].
  - intros v. rewrite Hv. split.
    + intros H. split; [exact (H2 v H)|]. intros Ev.
      apply filter_In in H. destruct H as [_ H].
      apply negb_true_iff in H.
      assert (Hex : existsb (JsString.eqb (Vote.poll_id v))
                      (map Poll.id
                           (filter (Supabase.ownedPoll (Poll.id P) (User.id u))
                                   (polls w))) = true).
      { apply existsb_exists. exists (Poll.id P). split.
        - apply in_map. apply filter_In. split; [exact Hin|].
          apply ownedPoll_true. auto.
        - apply jsstring_eqb_eq. exact Ev. }
      congruence.
    + intros [Hv0 Hne]. exact (H3 v Hv0 Hne).
  - apply getPollById_absent; [exact Hid | rewrite Hf1; reflexivity
                              | exact Habsent].
  - intros x k Hx Hk.
    apply (@submitVote_absent w1 (Poll.id P) x k); try assumption.
    rewrite Hf1. reflexivity.
Qed.

Lemma deletePoll_by_owner_removes_poll_and_votes_witness :
  exists w1,
    deletePoll colorPollId aliceVotedWorld = (Normal success, w1)
    /\ (forall p, In p (polls w1) <-> In p (polls aliceVotedWorld)
                                      /\ p <> colorPoll)
    /\ (forall v, In v (votes w1)
                  <-> In v (votes aliceVotedWorld)
                      /\ Vote.poll_id v <> colorPollId)
    /\ fst (getPollById colorPollId w1)
       = Normal {| Result.payload := None;
                   Result.error := Some "Poll not found." |}.
Proof.
  destruct (@deletePoll_by_owner_removes_poll_and_votes aliceVotedWorld
              colorPoll {| User.id := alice |}
              (or_introl eq_refl) colorPoll_only colorPollId_shape
              eq_refl eq_refl eq_refl eq_refl)
    as (w1 & E & Hp & Hv & Hg & _).
  exists w1. split; [exact E|]. split; [exact Hp|].
  split; [exact Hv | exact Hg].
Defined.

(** ** Validation and the session *)

(** A form the validator rejects is answered with the validator's message
    before anything else happens: [createPoll], and [updatePoll] on a
    well-formed identifier, return that message and leave the world as it
    was, so no session lookup and no table request is made, signed in or
    not. *)
Theorem rejected_form_sends_no_request
        (formData : FormData) (q : jsstring) (msg : string)
        (pollId : jsstring) (w : World) :
  get formData (str "question") = Some (EntryString q) ->
  Forall isStringEntry (getAll formData (str "options")) ->
  validatePollInput (sanitizeInput q)
                    (map sanitizeInput (optionStrings formData)) = Some msg ->
  createPoll formData w = (Normal (failure msg), w)
  /\ (UuidShape pollId ->
      updatePoll pollId formData w = (Normal (failure msg), w)).
Proof.
  intros Hq Hopts Hv. split.
  - unfold createPoll. rewrite Hq.
    rewrite (@bind_normal _ _ _ _ w (sanitizeInput q) w eq_refl).
    rewrite (@bind_normal _ _ _ _ w _ w
               (@readOptions_strings formData w Hopts)).
    rewrite Hv. reflexivity.
  - intros Hid. apply shape_isUuid in Hid.
    unfold updatePoll. rewrite Hid, Hq. cbn [negb].
    rewrite (@bind_normal _ _ _ _ w (sanitizeInput q) w eq_refl).
    rewrite (@bind_normal _ _ _ _ w _ w
               (@readOptions_strings formData w Hopts)).
    rewrite Hv. reflexivity.
Qed.

Lemma rejected_form_sends_no_request_witness :
  createPoll (pollForm (str "Hi") [str "Tea"; str "Coffee"]) colorWorld
  = (Normal (failure msg_question_short), colorWorld).
Proof.
  assert (Hopts : Forall isStringEntry
                    (getAll (pollForm (str "Hi") [str "Tea"; str "Coffee"])
                            (str "options")))
    by (cbn; repeat constructor; eexists; reflexivity).
  assert (Hv : validatePollInput
                 (sanitizeInput (str "Hi"))
                 (map sanitizeInput
                      (optionStrings
                         (pollForm (str "Hi") [str "Tea"; str "Coffee"])))
               = Some msg_question_short) by (vm_compute; reflexivity).
  exact (proj1 (@rejected_form_sends_no_request
                  (pollForm (str "Hi") [str "Tea"; str "Coffee"])
                  (str "Hi") msg_question_short colorPollId colorWorld
                  eq_refl Hopts Hv)).
Defined.

(** With a form that passes the validator and a well-formed identifier,
    the three mutations stop at the session lookup when it does not yield
    a user: an error of the lookup gives "Authentication error. Please try
    again." even if a user came with it, and no user without error gives
    the login message of the handler.  Only the session lookup has been
    sent; no table request follows. *)
Theorem mutations_require_session
        (formData : FormData) (q : jsstring) (id : jsstring) (w : World) :
  get formData (str "question") = Some (EntryString q) ->
  Forall isStringEntry (getAll formData (str "options")) ->
  validatePollInput (sanitizeInput q)
                    (map sanitizeInput (optionStrings formData)) = None ->
  UuidShape id ->
  let asked := Supabase.log AuthGetUser w in
  (AuthReply.userError (session w) <> None ->
   createPoll formData w
   = (Normal (failure "Authentication error. Please try again."), asked)
   /\ updatePoll id formData w
      = (Normal (failure "Authentication error. Please try again."), asked)
   /\ deletePoll id w
      = (Normal (failure "Authentication error. Please try again."), asked))
  /\ (AuthReply.userError (session w) = None ->
      AuthReply.user (session w) = None ->
      createPoll formData w
      = (Normal (failure "You must be logged in to create a poll."), asked)
      /\ updatePoll id formData w
         = (Normal (failure "You must be logged in to update a poll."), asked)
      /\ deletePoll id w
         = (Normal (failure "You must be logged in to delete a poll."), asked)).
Proof.
  intros Hq Hopts Hv Hid asked. apply shape_isUuid in Hid.
  assert (Ec : createPoll formData w
               = (reply <- Supabase.auth_getUser ;;
                  match AuthReply.userError reply, AuthReply.user reply with
                  | Some _, _ =>
                      ret (failure "Authentication error. Please try again.")
                  | None, None =>
                      ret (failure "You must be logged in to create a poll.")
                  | None, Some user =>
                      r <- Supabase.polls_insert
                             (User.id user) (sanitizeInput q)
                             (map sanitizeInput (optionStrings formData)) ;;
                      match Response.error r with
                      | Some _ =>
                          ret (failure
                                 "Failed to create poll. Please try again.")
                      | None => revalidatePath "/polls" ;;; ret success
                      end
                  end) w).
  { unfold createPoll. rewrite Hq.
    rewrite (@bind_normal _ _ _ _ w (sanitizeInput q) w eq_refl).
    rewrite (@bind_normal _ _ _ _ w _ w
               (@readOptions_strings formData w Hopts)).
    rewrite Hv. reflexivity. }
  assert (Eu : updatePoll id formData w
               = (reply <- Supabase.auth_getUser ;;
                  match AuthReply.userError reply, AuthReply.user reply with
                  | Some _, _ =>
                      ret (failure "Authentication error. Please try again.")
                  | None, None =>
                      ret (failure "You must be logged in to update a poll.")
                  | None, Some user =>
                      r <- Supabase.polls_update id
                             (User.id user) (sanitizeInput q)
                             (map sanitizeInput (optionStrings formData)) ;;
                      match Response.error r with
                      | Some _ =>
                          ret (failure
                                 "Failed to update poll or poll not found.")
                      | None => revalidatePath "/polls" ;;; ret success
                      end
                  end) w).
  { unfold updatePoll. rewrite Hid, Hq. cbn [negb].
    rewrite (@bind_normal _ _ _ _ w (sanitizeInput q) w eq_refl).
    rewrite (@bind_normal _ _ _ _ w _ w
               (@readOptions_strings formData w Hopts)).
    rewrite Hv. reflexivity. }
  rewrite Ec, Eu. unfold deletePoll. rewrite Hid. cbn [negb].
  rewrite !(@bind_normal _ _ Supabase.auth_getUser _ w (session w)
              (Supabase.log AuthGetUser w) eq_refl).
  split.
  - intros He. destruct (AuthReply.userError (session w)); [|congruence].
    split; [|split]; reflexivity.
  - intros He Hu. rewrite He, Hu. split; [|split]; reflexivity.
Qed.

Lemma mutations_require_session_witness :
  createPoll teaForm colorWorld
  = (Normal (failure "You must be logged in to create a poll."),
     Supabase.log AuthGetUser colorWorld)
  /\ deletePoll colorPollId colorWorld
     = (Normal (failure "You must be logged in to delete a poll."),
        Supabase.log AuthGetUser colorWorld).
Proof.
  destruct teaForm_valid as (Hq & Hopts & Hvalid).
  destruct (proj2 (@mutations_require_session teaForm (str "Tea or coffee?")
                     colorPollId colorWorld Hq Hopts Hvalid colorPollId_shape)
                  eq_refl eq_refl) as (Hc & _ & Hd).
  split; [exact Hc | exact Hd].
Defined.

(** ** Cache revalidation *)

Lemma keepsCache_ret {A} (a : A) : keepsCache (ret a).
Proof. intros w. reflexivity. Qed.

Lemma keepsCache_bind {A B} (m : M A) (k : A -> M B) :
  keepsCache m -> (forall a, keepsCache (k a)) -> keepsCache (bind m k).
Proof.
  intros Hm Hk w. unfold bind. specialize (Hm w).
  destruct (m w) as [[a|e] w1]; simpl in *; [|exact Hm].
  rewrite Hk. exact Hm.
Qed.

Lemma keepsCache_auth_getUser : keepsCache Supabase.auth_getUser.
Proof. intros w. reflexivity. Qed.

Lemma keepsCache_tableRequest {A} (c : Call)
      (serve : World -> Response.t A * World) :
  (forall w, revalidated (snd (serve w)) = revalidated w) ->
  keepsCache (Supabase.tableRequest c serve).
Proof.
  intros Hs w. unfold Supabase.tableRequest.
  destruct (hd false (faults w)); [reflexivity|].
  specialize (Hs (with_faults (tl (faults w)) (Supabase.log c w))).
  destruct (serve _) as [r w2]. simpl in *. exact Hs.
Qed.

Ltac keepsCache_step :=
  match goal with
  | |- keepsCache (ret _) => apply keepsCache_ret
  | |- keepsCache Supabase.auth_getUser => apply keepsCache_auth_getUser
  | |- keepsCache (bind _ _) => apply keepsCache_bind; [|intros ?]
  | |- keepsCache (Supabase.tableRequest _ _) =>
      apply keepsCache_tableRequest; intros ?; reflexivity
  | |- keepsCache (match ?x with _ => _ end) => destruct x
  end.

(** The listing cache is revalidated by the three mutations exactly when
    they report success, once and for the path of the polls page;
    [getUserPolls], [getPollById] and [submitVote] never revalidate
    anything, a stored vote included. *)
Theorem revalidation_exactly_on_successful_mutation :
  (forall formData w,
      revalidated (snd (createPoll formData w))
      = revalidated w ++ ["/polls"]
        /\ fst (createPoll formData w) = Normal success
      \/ revalidated (snd (createPoll formData w)) = revalidated w
         /\ fst (createPoll formData w) <> Normal success)
  /\ (forall pollId formData w,
         revalidated (snd (updatePoll pollId formData w))
         = revalidated w ++ ["/polls"]
           /\ fst (updatePoll pollId formData w) = Normal success
         \/ revalidated (snd (updatePoll pollId formData w)) = revalidated w
            /\ fst (updatePoll pollId formData w) <> Normal success)
  /\ (forall id w,
         revalidated (snd (deletePoll id w)) = revalidated w ++ ["/polls"]
           /\ fst (deletePoll id w) = Normal success
         \/ revalidated (snd (deletePoll id w)) = revalidated w
            /\ fst (deletePoll id w) <> Normal success)
  /\ keepsCache getUserPolls
  /\ (forall id, keepsCache (getPollById id))
  /\ (forall pollId optionIndex, keepsCache (submitVote pollId optionIndex)).
Proof.
  split; [|split; [|split; [|split; [|split]]]].
  - intros fd w.
    destruct (createPoll_effect fd w)
      as (_ & _ & [(_ & _ & Hc & Hr)|(u & q & o & Hc & _ & _ & _ & _ & _ & Hr)]);
      [right | left]; auto.
  - intros id fd w.
    destruct (updatePoll_effect id fd w)
      as (_ & _ & _ & [(_ & Hc & Hr)|(u & q & o & Hc & _ & _ & _ & _ & _ & Hr)]);
      [right | left]; auto.
  - intros id w.
    destruct (deletePoll_effect id w)
      as (_ & _ & [(_ & _ & Hc & Hr)|(u & Hc & _ & _ & _ & _ & _ & Hr)]);
      [right | left]; auto.
  - unfold getUserPolls, Supabase.polls_select_by_user.
    repeat keepsCache_step.
  - intros id. unfold getPollById, Supabase.polls_select_by_id.
    repeat keepsCache_step.
  - intros id x.
    unfold submitVote, Supabase.polls_select_options, Supabase.votes_select,
      Supabase.votes_insert.
    repeat keepsCache_step.
Qed.

(** ** What a vote can be *)

(** Whatever the caller, the arguments and the backend do, [submitVote]
    either reports an error and stores nothing, or reports success and has
    stored exactly one vote: on the poll asked for, for the caller (null
    when there is no session), with the index given, which is then an
    integer within the options of the one poll that carries the
    identifier.  The polls table is never written. *)
Theorem submitVote_stores_only_valid_votes
        (pollId : jsstring) (optionIndex : number) (w : World) :
  let c := fst (submitVote pollId optionIndex w) in
  let w' := snd (submitVote pollId optionIndex w) in
  polls w' = polls w
  /\ ((exists msg, c = Normal (failure msg) /\ votes w' = votes w)
      \/ (c = Normal success
          /\ votes w' = votes w ++ [castVote w pollId optionIndex]
          /\ UuidShape pollId
          /\ exists P k,
              In P (polls w) /\ Poll.id P = pollId
              /\ isInt optionIndex k
              /\ (0 <= k < Z.of_nat (List.length (Poll.options P)))%Z)).
Proof.
  cbn zeta.
  destruct (submitVote_effect pollId optionIndex w)
    as (Hp & [Hfail|(Hc & Hv & Hid & P & k & HP & Hx & Hk)]).
  - split; [exact Hp|]. left. exact Hfail.
  - split; [exact Hp|]. right.
    split; [exact Hc|]. split; [exact Hv|]. split; [exact Hid|].
    exists P, k.
    assert (Hin : In P (Supabase.pollsById pollId w))
      by (rewrite HP; left; reflexivity).
    apply filter_In in Hin. destruct Hin as [Hin E].
    apply jsstring_eqb_eq in E. auto.
Qed.

Lemma submitVote_stores_only_valid_votes_witness :
  votes (snd (submitVote colorPollId (ofNat 1) colorWorld))
  = votes colorWorld ++ [castVote colorWorld colorPollId (ofNat 1)]
  /\ exists P k,
      In P (polls colorWorld) /\ Poll.id P = colorPollId
      /\ isInt (ofNat 1) k
      /\ (0 <= k < Z.of_nat (List.length (Poll.options P)))%Z.
Proof.
  pose proof (submitVote_stores_only_valid_votes colorPollId (ofNat 1)
                                                 colorWorld) as H.
  cbv zeta in H. destruct H as (_ & [(msg & Hc & _)|(_ & Hv & _ & HP)]).
  - exfalso. vm_compute in Hc. discriminate Hc.
  - split; [exact Hv | exact HP].
Defined.

(** ** Components a computation leaves alone *)

Section Keeps.

Context {B : Type}.
Variable f : World -> B.
Hypothesis f_log : forall c w, f (Supabase.log c w) = f w.
Hypothesis f_faults : forall fs w, f (with_faults fs w) = f w.

Lemma keeps_ret {A} (a : A) : keeps f (ret a).
Proof. intros w. reflexivity. Qed.

Lemma keeps_bind {A C} (m : M A) (k : A -> M C) :
  keeps f m -> (forall a, keeps f (k a)) -> keeps f (bind m k).
Proof.
  intros Hm Hk w. unfold bind. specialize (Hm w).
  destruct (m w) as [[a|e] w1]; simpl in *; [|exact Hm].
  rewrite Hk. exact Hm.
Qed.

Lemma keeps_auth_getUser : keeps f Supabase.auth_getUser.
Proof. intros w. apply f_log. Qed.

Lemma keeps_tableRequest {A} (c : Call)
      (serve : World -> Response.t A * World) :
  (forall w, f (snd (serve w)) = f w) ->
  keeps f (Supabase.tableRequest c serve).
Proof.
  intros Hs w. unfold Supabase.tableRequest.
  destruct (hd false (faults w)); [cbn; rewrite f_faults; apply f_log|].
  specialize (Hs (with_faults (tl (faults w)) (Supabase.log c w))).
  destruct (serve _) as [r w2]. simpl in *.
  rewrite Hs, f_faults. apply f_log.
Qed.

End Keeps.

Lemma reads_keep (B : Type) (f : World -> B) :
  (forall c w, f (Supabase.log c w) = f w) ->
  (forall fs w, f (with_faults fs w) = f w) ->
  keeps f getUserPolls /\ (forall id, keeps f (getPollById id)).
Proof.
  intros Hlog Hfaults. split.
  - unfold getUserPolls, Supabase.polls_select_by_user.
    apply keeps_bind; [apply keeps_auth_getUser; exact Hlog|]. intros reply.
    destruct (AuthReply.user reply); [|apply keeps_ret].
    apply keeps_bind; [apply keeps_tableRequest; auto|].
    intros r. destruct (Response.error r); apply keeps_ret.
  - intros id. unfold getPollById, Supabase.polls_select_by_id.
    destruct (negb (isUuid id)); [apply keeps_ret|].
    apply keeps_bind; [apply keeps_tableRequest; auto|].
    intros r. destruct (Response.error r); apply keeps_ret.
Qed.

(** ** Invariants of the store *)

Lemma execute_invariant (I : World -> Prop) :
  (forall w s, I w -> I (with_session s w)) ->
  (forall r w, I w -> I (handle r w)) ->
  forall l w, I w -> I (execute l w).
Proof.
  intros Hs Hh l. induction l as [|i l IH]; intros w Hw; simpl; [exact Hw|].
  apply IH. unfold step. apply Hh, Hs, Hw.
Qed.

Lemma handle_polls (r : Request) (w : World) :
  forall p', In p' (polls (handle r w)) -> In p' (polls w) \/ wellFormedPoll p'.
Proof.
  intros p'. destruct r as [fd| |id|id x|id|id fd]; cbn [handle].
  - destruct (createPoll_effect fd w)
      as (_ & _ & [(Hp & _)|(u & q & o & _ & _ & _ & Hacc & Hp & _)]);
      rewrite Hp; [auto|].
    intros H. apply in_app_or in H. destruct H as [H|[<-|[]]]; [auto|].
    right. apply acceptedContent_wellFormed. exact Hacc.
  - rewrite (proj1 (@reads_keep _ polls (fun _ _ => eq_refl)
                                (fun _ _ => eq_refl))). auto.
  - rewrite (proj2 (@reads_keep _ polls (fun _ _ => eq_refl)
                                (fun _ _ => eq_refl))). auto.
  - rewrite (proj1 (submitVote_effect id x w)). auto.
  - destruct (deletePoll_effect id w)
      as (_ & _ & [(Hp & _)|(u & _ & _ & _ & _ & Hp & _)]);
      rewrite Hp; [auto|].
    intros H. apply filter_In in H. tauto.
  - destruct (updatePoll_effect id fd w)
      as (_ & _ & _ & [(Hp & _)|(u & q & o & _ & _ & _ & _ & Hacc & Hp & _)]);
      rewrite Hp; [auto|].
    intros H. apply updatedPolls_In in H. destruct H as (p & Hin & ->).
    destruct (Supabase.ownedPoll id (User.id u) p); [|auto].
    right. apply acceptedContent_wellFormed. exact Hacc.
Qed.

(** Stored polls stay well formed.  If every poll of the store has texts
    free of the five characters, a question of 3 to 500 characters and two
    or more options, none blank or longer than 200, then so has every poll
    after any sequence of handler calls, whoever calls, whatever the
    arguments and whatever the backend fails. *)
Theorem stored_polls_stay_well_formed (l : list Invocation) (w : World) :
  Forall wellFormedPoll (polls w) ->
  Forall wellFormedPoll (polls (execute l w)).
Proof.
  apply (execute_invariant (fun w => Forall wellFormedPoll (polls w))).
  - intros w0 s H. exact H.
  - intros r w0 H. rewrite Forall_forall in *. intros p' Hin.
    destruct (handle_polls r w0 p' Hin) as [Hold|Hnew]; auto.
Qed.

Lemma stored_polls_stay_well_formed_witness :
  Forall wellFormedPoll
         (polls (execute [{| caller := signedIn bob;
                             request := CreatePoll teaForm |};
                          {| caller := signedIn alice;
                             request := UpdatePoll colorPollId teaForm |}]
                         colorWorld)).
Proof.
  refine (@stored_polls_stay_well_formed
            [{| caller := signedIn bob; request := CreatePoll teaForm |};
             {| caller := signedIn alice;
                request := UpdatePoll colorPollId teaForm |}]
            colorWorld _).
  constructor; [|constructor].
  apply acceptedContent_wellFormed.
  split; [exists (str "What is your favorite color?"); vm_compute; reflexivity|].
  split; [|vm_compute; reflexivity].
  repeat constructor;
    [exists (str "Red") | exists (str "Blue")]; vm_compute; reflexivity.
Defined.

Lemma handle_votesReferPolls (r : Request) (w : World) :
  votesReferPolls w -> votesReferPolls (handle r w).
Proof.
  unfold votesReferPolls. intros H.
  destruct r as [fd| |id|id x|id|id fd]; cbn [handle].
  - destruct (createPoll_effect fd w)
      as (Hv & _ & [(Hp & _)|(u & q & o & _ & _ & _ & _ & Hp & _)]);
      rewrite Hv, Hp; [exact H|].
    intros v Hin. rewrite map_app. apply in_or_app. left. exact (H v Hin).
  - destruct (@reads_keep _ polls (fun _ _ => eq_refl) (fun _ _ => eq_refl))
      as [Hp _].
    destruct (@reads_keep _ votes (fun _ _ => eq_refl) (fun _ _ => eq_refl))
      as [Hv _].
    rewrite Hp, Hv. exact H.
  - destruct (@reads_keep _ polls (fun _ _ => eq_refl) (fun _ _ => eq_refl))
      as [_ Hp].
    destruct (@reads_keep _ votes (fun _ _ => eq_refl) (fun _ _ => eq_refl))
      as [_ Hv].
    rewrite Hp, Hv. exact H.
  - destruct (submitVote_effect id x w)
      as (Hp & [(msg & _ & Hv)|(_ & Hv & _ & P & k & HP & _)]);
      rewrite Hp, Hv; [exact H|].
    intros v Hin. apply in_app_or in Hin.
    destruct Hin as [Hin|[<-|[]]]; [exact (H v Hin)|].
    cbn [Vote.poll_id].
    assert (HinP : In P (Supabase.pollsById id w))
      by (rewrite HP; left; reflexivity).
    apply filter_In in HinP. destruct HinP as [HinP E].
    apply jsstring_eqb_eq in E. rewrite <- E. apply in_map. exact HinP.
  - destruct (deletePoll_effect id w)
      as (_ & _ & [(Hp & Hv & _)|(u & _ & _ & _ & _ & Hp & Hv & _)]);
      rewrite Hp, Hv; [exact H|].
    intros v Hin. apply filter_In in Hin. destruct Hin as [Hin Hkeep].
    apply negb_true_iff in Hkeep.
    specialize (H v Hin). apply in_map_iff in H.
    destruct H as (p & Ep & Hp0).
    rewrite <- Ep. apply in_map. unfold remainingPolls.
    apply filter_In. split; [exact Hp0|]. apply negb_true_iff.
    destruct (Supabase.ownedPoll id (User.id u) p) eqn:Eo; [|reflexivity].
    assert (Hex : existsb (JsString.eqb (Vote.poll_id v))
                    (map Poll.id
                         (filter (Supabase.ownedPoll id (User.id u))
                                 (polls w))) = true).
    { apply existsb_exists. exists (Poll.id p). split.
      - apply in_map. apply filter_In. auto.
      - apply jsstring_eqb_eq. auto. }
    congruence.
  - destruct (updatePoll_effect id fd w)
      as (Hv & _ & _ & [(Hp & _)|(u & q & o & _ & _ & _ & _ & _ & Hp & _)]);
      rewrite Hv, Hp; [exact H|].
    rewrite (proj1 (updatedPolls_columns id u q o (polls w))). exact H.
Qed.

(** No vote is left without its poll.  If every vote of the store is on a
    poll of the store, it is so after any sequence of handler calls,
    whoever calls and whatever the backend fails: a vote is only stored
    for a poll that was fetched, an edit keeps the identifier, and a
    delete takes the votes on the poll with it. *)
Theorem votes_always_refer_to_stored_polls (l : list Invocation) (w : World) :
  votesReferPolls w -> votesReferPolls (execute l w).
Proof.
  apply (execute_invariant votesReferPolls).
  - intros w0 s H. exact H.
  - exact handle_votesReferPolls.
Qed.

Lemma votes_always_refer_to_stored_polls_witness :
  votesReferPolls votedWorld
  /\ votesReferPolls
       (execute [{| caller := anonymous;
                    request := SubmitVote colorPollId (ofNat 1) |};
                 {| caller := signedIn alice;
                    request := DeletePoll colorPollId |}]
                votedWorld).
Proof.
  assert (H : votesReferPolls votedWorld).
  { intros v [<-|[]]. left. reflexivity. }
  split; [exact H|].
  exact (@votes_always_refer_to_stored_polls
           [{| caller := anonymous;
               request := SubmitVote colorPollId (ofNat 1) |};
            {| caller := signedIn alice;
               request := DeletePoll colorPollId |}]
           votedWorld H).
Defined.

(** ** Without a user *)

(** When [getCurrentUser] yields null, no mutation can succeed: whatever
    the form, the identifier and the backend, [createPoll], [updatePoll]
    and [deletePoll] report no success and leave both tables as they
    were, and [getUserPolls] answers "Not authenticated" with an empty
    list. *)
Theorem no_mutation_without_user (w : World) :
  fst (getCurrentUser w) = Normal None ->
  (forall formData,
      fst (createPoll formData w) <> Normal success
      /\ sameTables w (snd (createPoll formData w)))
  /\ (forall pollId formData,
         fst (updatePoll pollId formData w) <> Normal success
         /\ sameTables w (snd (updatePoll pollId formData w)))
  /\ (forall id,
         fst (deletePoll id w) <> Normal success
         /\ sameTables w (snd (deletePoll id w)))
  /\ fst (getUserPolls w)
     = Normal {| Result.payload := [];
                 Result.error := Some "Not authenticated" |}.
Proof.
  intros H.
  assert (Hu : AuthReply.user (session w) = None).
  { unfold getCurrentUser, bind in H. cbn in H. congruence. }
  unfold sameTables. split; [|split; [|split]].
  - intros fd.
    destruct (createPoll_effect fd w)
      as (Hv & _ & [(Hp & _ & Hc & _)|(u & q & o & _ & Hu' & _)]);
      [auto | congruence].
  - intros id fd.
    destruct (updatePoll_effect id fd w)
      as (Hv & _ & _ & [(Hp & Hc & _)|(u & q & o & _ & _ & Hu' & _)]);
      [auto | congruence].
  - intros id.
    destruct (deletePoll_effect id w)
      as (_ & _ & [(Hp & Hv & Hc & _)|(u & _ & _ & Hu' & _)]);
      [auto | congruence].
  - rewrite (getUserPolls_anonymous w Hu). reflexivity.
Qed.

Lemma no_mutation_without_user_witness :
  fst (createPoll teaForm colorWorld) <> Normal success
  /\ sameTables colorWorld (snd (createPoll teaForm colorWorld)).
Proof.
  exact (proj1 (@no_mutation_without_user colorWorld eq_refl) teaForm).
Defined.

(** ** Editing someone else's poll *)

(** A signed-in caller who does not own poll [P] edits it in vain: with a
    form that passes the validator, [updatePoll] leaves [P], every other
    poll and every vote as they were, whatever the backend does, and yet
    reports success when the backend serves the update, which matches no
    row; only a failed request gives "Failed to update poll or poll not
    found.". *)
Theorem updatePoll_by_non_owner
        (w : World) (P : Poll.t) (u : User.t) (formData : FormData)
        (q : jsstring) :
  In P (polls w) -> uniqueIds (polls w) -> UuidShape (Poll.id P) ->
  AuthReply.user (session w) = Some u ->
  AuthReply.userError (session w) = None ->
  User.id u <> Poll.user_id P ->
  get formData (str "question") = Some (EntryString q) ->
  Forall isStringEntry (getAll formData (str "options")) ->
  validatePollInput (sanitizeInput q)
                    (map sanitizeInput (optionStrings formData)) = None ->
  let c := fst (updatePoll (Poll.id P) formData w) in
  let w' := snd (updatePoll (Poll.id P) formData w) in
  sameTables w w' /\ In P (polls w')
  /\ (hd false (faults w) = false -> c = Normal success)
  /\ (hd false (faults w) = true ->
      c = Normal (failure "Failed to update poll or poll not found.")).
Proof.
  intros Hin Huniq Hid Hu He Hown Hq Hopts Hvalid. cbn zeta.
  pose proof (shape_isUuid Hid) as Hid'.
  assert (Hforeign : forall p, In p (polls w) -> Poll.id p = Poll.id P ->
                               Poll.user_id p <> User.id u).
  { intros p Hp E. rewrite (@uniqueIds_same (polls w) p P Huniq Hp Hin E).
    congruence. }
  assert (Htables : sameTables w (snd (updatePoll (Poll.id P) formData w))).
  { destruct (updatePoll_effect (Poll.id P) formData w)
      as (Hv & _ & _ & [(Hp & _)|(u' & q' & o' & _ & _ & Hu' & _ & _ & Hp & _)]).
    - split; assumption.
    - split; [|exact Hv]. rewrite Hp.
      assert (u' = u) by congruence. subst u'.
      apply updatedPolls_foreign. exact Hforeign. }
  split; [exact Htables|].
  split; [rewrite (proj1 Htables); exact Hin|]. split.
  - intros Hserved.
    destruct (@updatePoll_served w (Poll.id P) u formData q)
      as (w1 & E & _); try assumption.
    rewrite E. reflexivity.
  - intros Hfail. unfold updatePoll. rewrite Hid', Hq. cbn [negb].
    rewrite (@bind_normal _ _ _ _ w (sanitizeInput q) w eq_refl).
    rewrite (@bind_normal _ _ _ _ w _ w
               (@readOptions_strings formData w Hopts)).
    rewrite Hvalid.
    rewrite (@bind_normal _ _ Supabase.auth_getUser _ w (session w)
               (Supabase.log AuthGetUser w) eq_refl).
    rewrite He, Hu. unfold bind at 1. unfold Supabase.polls_update.
    rewrite tableRequest_failed by exact Hfail. reflexivity.
Qed.

Lemma updatePoll_by_non_owner_witness :
  sameTables bobWorld (snd (updatePoll colorPollId teaForm bobWorld))
  /\ fst (updatePoll colorPollId teaForm bobWorld) = Normal success.
Proof.
  destruct teaForm_valid as (Hq & Hopts & Hvalid).
  assert (Hown : User.id {| User.id := bob |} <> Poll.user_id colorPoll).
  { intros H. vm_compute in H. discriminate H. }
  pose proof (@updatePoll_by_non_owner bobWorld colorPoll {| User.id := bob |}
                teaForm (str "Tea or coffee?")
                (or_introl eq_refl) colorPoll_only colorPollId_shape
                eq_refl eq_refl Hown Hq Hopts Hvalid) as H.
  cbv zeta in H. destruct H as (Ht & _ & Hs & _).
  split; [exact Ht | exact (Hs eq_refl)].
Defined.

(** ** More on the sanitiser and the identifier check *)

Lemma removeAll_harmless (s : jsstring) :
  harmless s -> removeAll dangerous s = s.
Proof.
  intros H. unfold removeAll. apply filter_all. intros c Hc.
  apply negb_true_iff. destruct (dangerous c) eqn:E; [|reflexivity].
  apply dangerous_fiveChars in E. exfalso. exact (H c Hc E).
Qed.

Lemma sanitizeInput_length (s : jsstring) :
  List.length (sanitizeInput s) <= List.length (trim s)
  /\ List.length (trim s) <= List.length s.
Proof.
  split.
  - unfold sanitizeInput, removeAll. apply filter_length_le.
  - destruct (trim_Trimmed s) as (pre & post & E & _).
    rewrite E at 2. rewrite !length_app. lia.
Qed.

(** The sanitiser never lengthens a text, and it returns a text as it is
    exactly when the text contains none of the five characters and neither
    starts nor ends with white space.  It is not idempotent: removing a
    character can bring white space to the front, which a second pass
    trims. *)
Theorem sanitizeInput_unchanged_iff_clean (s : jsstring) :
  List.length (sanitizeInput s) <= List.length s
  /\ (sanitizeInput s = s
      <-> harmless s
          /\ (forall c r, s = c :: r -> isWhiteSpace c = false)
          /\ (forall r c, s = r ++ [c] -> isWhiteSpace c = false))
  /\ sanitizeInput (sanitizeInput (str "< a")) <> sanitizeInput (str "< a").
Proof.
  destruct (sanitizeInput_length s) as [L1 L2].
  split; [lia|]. split; [|vm_compute; discriminate].
  split.
  - intros E.
    assert (Hh : harmless s).
    { intros c Hc. rewrite <- E in Hc. unfold sanitizeInput in Hc.
      exact (@removeAll_clean _ _ Hc). }
    assert (Ht : trim s = s).
    { destruct (trim_Trimmed s) as (pre & post & Es & _).
      assert (Hlen : List.length (trim s) = List.length s)
        by (rewrite <- E in L1 at 2; rewrite E in L1; lia).
      rewrite Es in Hlen at 2. rewrite !length_app in Hlen.
      destruct pre; [|simpl in Hlen; lia].
      destruct post; [|simpl in Hlen; lia].
      rewrite app_nil_r in Es. simpl in Es. congruence. }
    destruct (trim_Trimmed s) as (_ & _ & _ & _ & _ & Hhd & Hlast).
    rewrite Ht in Hhd, Hlast. auto.
  - intros (Hh & Hhd & Hlast).
    assert (Ht : s = trim s).
    { apply Trimmed_trim. exists [], []. rewrite app_nil_r. simpl.
      repeat split; auto. }
    unfold sanitizeInput. rewrite <- Ht. apply removeAll_harmless. exact Hh.
Qed.

(** An identifier that passes the format check has exactly 36 characters,
    each a hexadecimal digit or a dash: no quote, space or other
    punctuation reaches a query through it. *)
Theorem accepted_ids_are_36_hex_or_dash (id : jsstring) :
  isUuid id = true ->
  List.length id = 36
  /\ Forall (fun c => hexDigit c \/ c = 45%N) id
  /\ harmless id.
Proof.
  intros H. apply isUuid_shape in H.
  destruct H as (g1 & g2 & g3 & g4 & g5 & -> & L1 & L2 & L3 & L4 & L5 & Hh).
  repeat rewrite Forall_app in Hh. destruct Hh as (H1 & H2 & H3 & H4 & H5).
  assert (Hall : Forall (fun c => hexDigit c \/ c = 45%N)
                   (g1 ++ [45%N] ++ g2 ++ [45%N] ++ g3 ++ [45%N] ++ g4
                       ++ [45%N] ++ g5)).
  { repeat rewrite Forall_app.
    repeat split;
      try (eapply Forall_impl; [|eassumption]; intros; left; assumption);
      repeat constructor; right; reflexivity. }
  split; [rewrite !length_app; simpl; lia|]. split; [exact Hall|].
  intros c Hc Hfive. rewrite Forall_forall in Hall.
  destruct (Hall c Hc) as [Hx | ->].
  - unfold hexDigit in Hx. unfold fiveChars in Hfive. simpl in Hfive.
    repeat (destruct Hfive as [<-|Hfive]; [lia|]). exact Hfive.
  - unfold fiveChars in Hfive. simpl in Hfive.
    repeat (destruct Hfive as [E|Hfive]; [discriminate E|]). exact Hfive.
Qed.

Lemma accepted_ids_are_36_hex_or_dash_witness :
  List.length colorPollId = 36
  /\ Forall (fun c => hexDigit c \/ c = 45%N) colorPollId
  /\ harmless colorPollId.
Proof.
  exact (@accepted_ids_are_36_hex_or_dash colorPollId eq_refl).
Defined.
